(** * ovs_performance.py: zero-loss search, counter reduction, rule
      programming and result grouping, embedded and verified.

    The Python script is embedded shallowly: integers are [Z], the float
    valued loss percentage is an exact rational [Q], dictionaries whose
    keys are loads are [gmap Z _], dictionaries whose iteration order is
    observable are association lists, and calls into the device under
    test or the traffic generator are recorded in explicit traces.
    Exceptions and [sys.exit] are values of [outcome]. *)

From Stdlib Require Import ZArith QArith Qround List Lia Bool String Ascii.
From stdpp Require Import base option list sorting gmap strings.

Local Open Scope Z_scope.

(** ** Python outcomes *)

(** The ERROR line the script prints with [lprint] just before it calls
    [sys.exit]. *)
Inductive exit_reason : Type :=
| NotEnoughElements
| FlowCountMismatch (expected observed : Z).

Inductive exn : Type :=
| ZeroDivisionError
| TypeError
| ValueError
| KeyError
| AssertionError
| SystemExit (why : exit_reason) (code : Z).

(** [OutOfFuel] is not a Python outcome: it marks a loop of the model that
    was cut before the Python loop ended. *)
Inductive outcome (A : Type) : Type :=
| Return (a : A)
| Raise (e : exn)
| OutOfFuel.

Arguments Return {A} a.
Arguments Raise {A} e.
Arguments OutOfFuel {A}.

#[global] Instance outcome_ret : MRet outcome := fun A a => Return a.

#[global] Instance outcome_bind : MBind outcome := fun A B k m =>
  match m with
  | Return a => k a
  | Raise e => Raise e
  | OutOfFuel => OutOfFuel
  end.

(** The two interpreters the script supports (it tests
    [sys.version_info[0]] at its top). *)
Inductive python_version : Type := Python2 | Python3.

(** ** Rational comparisons as the script writes them *)

Definition Qgt_bool (a b : Q) : bool := negb (Qle_bool a b).

(** Python's [max(value, 0)]: the first argument wins unless the second is
    strictly greater. *)
Definition py_max (a b : Q) : Q := if Qgt_bool b a then b else a.

(** ** RunResult: the dictionary a single test run returns *)

Record RunResult : Type := mkRunResult {
  rx_packets_second : Q;
  total_tx_pkts : Z;
  total_rx_pkts : Z;
  traffic_rate : Z;
  cpu_stats : Z   (* the CPU dictionary, which nothing here looks into *)
}.

(** [calc_loss_percentage]: [100 - float(rx) / float(tx) * 100], clamped
    below by [max(value, 0)]. Float division by zero raises. *)
Definition calc_loss_percentage (r : RunResult) : outcome Q :=
  if total_tx_pkts r =? 0 then Raise ZeroDivisionError
  else
    let value := (100 - (inject_Z (total_rx_pkts r) / inject_Z (total_tx_pkts r)) * 100)%Q in
    Return (py_max value 0).

(** ** numpy.arange on integers

    Loads and steps are integers here, as with the default [bs_step=1]
    between the bounds 1 and 100. numpy holds them as [int64] while it
    can; the library is not part of the script, and the three cases below
    follow what it does with Python integers. *)

(** The Python integers that fit numpy's [int64]. *)
Definition int64 (x : Z) : Prop := - 2 ^ 63 <= x < 2 ^ 63.

Definition is_int64 (x : Z) : bool := (- 2 ^ 63 <=? x) && (x <? 2 ^ 63).

(** Those that fit [uint64] only. *)
Definition is_uint64 (x : Z) : bool := (2 ^ 63 <=? x) && (x <? 2 ^ 64).

Inductive np_dtype : Type := NpInt64 | NpFloat64 | NpObject.

(** The type of the array [np.arange] builds from three Python integers:
    [int64] when all of them fit; [float64], the common type of [int64]
    and [uint64], when one of them needs [uint64]; Python objects when
    one of them fits neither. *)
Definition arange_dtype (start stop step : Z) : np_dtype :=
  if is_int64 start && is_int64 stop && is_int64 step then NpInt64
  else if forallb (fun x => is_int64 x || is_uint64 x) [start; stop; step]
       then NpFloat64
       else NpObject.

(** The double nearest to an integer, ties to the even significand of 53
    bits. From 2^53 on a double is a whole number: it is given as the
    integer it equals. *)
Definition float64_of_Z (x : Z) : Z :=
  let a := Z.abs x in
  if a <? 2 ^ 53 then x
  else
    let e := Z.log2 a - 52 in
    let q := a / 2 ^ e in
    let r := a mod 2 ^ e in
    let half := 2 ^ (e - 1) in
    let q := if (half <? r) || ((r =? half) && Z.odd q) then q + 1 else q in
    Z.sgn x * (q * 2 ^ e).

(** The [i]-th value of a [float64] range: the first two are [start] and
    [start + step] stored as doubles, the others [first + i * delta] in
    double arithmetic, [delta] being the difference of the first two. *)
Definition arange_float64_item (start step : Z) (i : nat) : Z :=
  let first := float64_of_Z start in
  let second := float64_of_Z (start + step) in
  match i with
  | O => first
  | S O => second
  | _ =>
      let delta := float64_of_Z (second - first) in
      float64_of_Z (first + float64_of_Z (Z.of_nat i * delta))
  end.

(** [np.arange(start, stop, step)]: [ceil((stop - start) / step)] values,
    none when that length is not positive; a zero step raises. The values
    are [start + i * step], exactly, in an [int64] or an object array, and
    rounded as above in a [float64] array. *)
Definition np_arange (start stop step : Z) : outcome (list Z) :=
  if step =? 0 then Raise ZeroDivisionError
  else
    let len := Z.max 0 (- ((- (stop - start)) / step)) in
    let value :=
      match arange_dtype start stop step with
      | NpFloat64 => arange_float64_item start step
      | _ => fun i : nat => start + Z.of_nat i * step
      end in
    Return (map value (seq 0 (Z.to_nat len))).

(** [values[i]] for an index inside the array. *)
Definition item (values : list Z) (i : Z) : Z := nth (Z.to_nat i) values 0.

(** ** binary_search *)

Section BinarySearch.

(** What [run_test_function] returns. *)
Context {Result : Type}.

(** [run_test_function(value)] drives the device under test: its answer
    may depend on everything that was run before, so it receives the
    loads of the earlier invocations (oldest first). *)
Variable run_test_function : list Z -> Z -> Result.

(** [get_results_function(results, value)]: the figure that is compared
    with [required_result]; it is taken to return one. *)
Variable get_results_function : gmap Z Result -> Z -> Q.

(** The [results] dictionary, and the loads [run_test_function] was
    invoked with, in order. *)
Record SearchState : Type := mkSearchState {
  results : gmap Z Result;
  calls : list Z
}.

Definition empty_state : SearchState := mkSearchState ∅ [].

(** [results[v] = run_test_function(v)] *)
Definition run_and_store (st : SearchState) (v : Z) : SearchState :=
  mkSearchState (<[v := run_test_function (calls st) v]> (results st))
                (calls st ++ [v]).

(** [if not v in results: results[v] = run_test_function(v)] *)
Definition run_if_missing (st : SearchState) (v : Z) : SearchState :=
  if decide (is_Some (results st !! v)) then st else run_and_store st v.

(** The candidate ladder: [np.arange(max, min - min(min, step), -step)[::-1]]. *)
Definition candidate_ladder (min_value max_value step : Z) : outcome (list Z) :=
  values ← np_arange max_value (min_value - Z.min min_value step) (- step);
  Return (rev values).

(** The type of the array the ladder is taken from. *)
Definition ladder_dtype (min_value max_value step : Z) : np_dtype :=
  arange_dtype max_value (min_value - Z.min min_value step) (- step).

Section Loop.
Variable values : list Z.
Variable required_result : Q.

(** The [while True] loop. [current_test] is
    [int(current_min + (current_max - current_min) / 2)]; on the
    brackets the loop sees (0 <= current_min < current_max) Python 2's
    floor division and Python 3's float division followed by [int]
    agree. *)
Fixpoint narrow (fuel : nat) (current_min current_max : Z) (st : SearchState)
  : outcome (Z * Z * SearchState) :=
  if current_min =? current_max - 1 then Return (current_min, current_max, st)
  else
    match fuel with
    | O => OutOfFuel
    | S fuel' =>
        let current_test := current_min + (current_max - current_min) / 2 in
        let st' := run_and_store st (item values current_test) in
        let result := get_results_function (results st') (item values current_test) in
        if Qgt_bool result required_result
        then narrow fuel' current_min current_test st'
        else narrow fuel' current_test current_max st'
    end.

(** The code after the loop. *)
Definition finish (current_min current_max : Z) (st : SearchState)
  : SearchState * Z :=
  let st1 := run_if_missing st (item values current_max) in
  if Qle_bool (get_results_function (results st1) (item values current_max))
              required_result
  then (st1, item values current_max)
  else
    let st2 := run_if_missing st1 (item values current_min) in
    if Qle_bool (get_results_function (results st2) (item values current_min))
                required_result
    then (st2, item values current_min)
    else (st2, -1).
End Loop.

(** [binary_search(min_value, max_value, required_result,
    run_test_function, get_results_function, bs_step=step)] *)
Definition binary_search (min_value max_value : Z) (required_result : Q) (step : Z)
  : outcome (SearchState * Z) :=
  values ← candidate_ladder min_value max_value step;
  if Z.of_nat (length values) <=? 1 then Return (empty_state, -1)
  else
    '(current_min, current_max, st) ←
      narrow values required_result (length values)
             0 (Z.of_nat (length values) - 1) empty_state;
    Return (finish values required_result current_min current_max st).

End BinarySearch.

Arguments SearchState Result : clear implicits.

(** The state holds one result per load that was run: no load was run
    twice, the result stored under a load is the one its only run
    returned, and nothing else is stored. *)
Definition memoized {Result : Type} (run_test_function : list Z -> Z -> Result)
    (st : SearchState Result) : Prop :=
  NoDup (calls st) /\
  (forall (i : nat) (v : Z),
      calls st !! i = Some v ->
      results st !! v = Some (run_test_function (take i (calls st)) v)) /\
  (forall v : Z, is_Some (results st !! v) -> v ∈ calls st).

(** Every load run so far sits at an index outside the open bracket: at
    or under [current_min], where [below] holds of it, or at or over
    [current_max], where [above] does. *)
Definition tested_outside {Result : Type} (below above : Z -> Prop)
    (values : list Z) (current_min current_max : Z) (st : SearchState Result) : Prop :=
  forall v : Z,
    v ∈ calls st ->
    exists i, 0 <= i < Z.of_nat (length values) /\ v = item values i /\
              ((i <= current_min /\ below v) \/ (current_max <= i /\ above v)).

(** What holds each time the loop of [binary_search] tests its exit. *)
Definition bracket_invariant {Result : Type}
    (run_test_function : list Z -> Z -> Result) (below above : Z -> Prop)
    (values : list Z) (current_min current_max : Z) (st : SearchState Result) : Prop :=
  0 <= current_min /\ current_min < current_max /\
  current_max < Z.of_nat (length values) /\
  memoized run_test_function st /\
  tested_outside below above values current_min current_max st /\
  (current_min = 0 \/ item values current_min ∈ calls st) /\
  (current_max = Z.of_nat (length values) - 1 \/ item values current_max ∈ calls st).

(** How the comparison of the loop sorts a load that is run for the
    first time: [above] when its result exceeds [required_result],
    [below] otherwise. *)
Definition judged_by {Result : Type} (run_test_function : list Z -> Z -> Result)
    (get_results_function : gmap Z Result -> Z -> Q) (required_result : Q)
    (below above : Z -> Prop) : Prop :=
  forall (st : SearchState Result) (v : Z),
    memoized run_test_function st -> v ∉ calls st ->
    if Qgt_bool (get_results_function (results (run_and_store run_test_function st v)) v)
                required_result
    then above v else below v.

(** ** Sorting as [natsorted] and [sorted] do: stable, by a key order *)

Section StableSort.
Context {A : Type}.
Variable leb : A -> A -> bool.

(** [x] came before every element of [l]: on a tie it stays in front. *)
Fixpoint insert_sorted (x : A) (l : list A) : list A :=
  match l with
  | [] => [x]
  | y :: l' => if leb x y then x :: y :: l' else y :: insert_sorted x l'
  end.

Fixpoint stable_sort (l : list A) : list A :=
  match l with
  | [] => []
  | x :: l' => insert_sorted x (stable_sort l')
  end.
End StableSort.

(** Python's [l[2:-2]]. *)
Definition slice_2_m2 {A : Type} (l : list A) : list A :=
  drop 2 (take (length l - 2)%nat l).

(** [a / b] on two integers: floor division under Python 2, true division
    under Python 3. *)
Definition py_div (py : python_version) (a b : Z) : outcome Q :=
  if b =? 0 then Raise ZeroDivisionError
  else Return (match py with
               | Python2 => inject_Z (a / b)
               | Python3 => (inject_Z a / inject_Z b)%Q
               end).

(** ** Counter series: get_packets_per_second_from_pkt_counters *)

(** What [map(int, tokens)] evaluates to: a list under Python 2 (the
    conversions have run), an iterator under Python 3 (they have not). *)
Inductive py_map_object : Type :=
| PyList (l : list Z)
| PyMapIterator (pending : outcome (list Z)).

(** [len(x)]: an iterator has no length. *)
Definition py_len (x : py_map_object) : outcome Z :=
  match x with
  | PyList l => Return (Z.of_nat (length l))
  | PyMapIterator _ => Raise TypeError
  end.

(** [del x[:strip]] then [del x[-strip:]] for [strip > 0]; an iterator
    supports neither. *)
Definition py_del_ends (x : py_map_object) (strip : Z) : outcome py_map_object :=
  match x with
  | PyList l =>
      let l1 := drop (Z.to_nat strip) l in
      Return (PyList (take (length l1 - Z.to_nat strip)%nat l1))
  | PyMapIterator _ => Raise TypeError
  end.

(** [x[i]] for [0 <= i < len(x)]. *)
Definition py_getitem (x : py_map_object) (i : Z) : outcome Z :=
  match x with
  | PyList l => Return (item l i)
  | PyMapIterator _ => Raise TypeError
  end.

Section PktCounters.
Variable py : python_version.

(** [re.sub(r'.+:\s?', '', counters).split()] with [int] applied to every
    token: library code, taken as a parameter. It raises [ValueError] on
    a token that is no integer literal. *)
Variable parse_counters : string -> outcome (list Z).

Definition map_int (counters : string) : outcome py_map_object :=
  match py with
  | Python2 => l ← parse_counters counters; Return (PyList l)
  | Python3 => Return (PyMapIterator (parse_counters counters))
  end.

(** [for i in range(1, n): pkts_sec = pkts_sec + (x[i] - x[i - 1])],
    the iterations [i = n - todo .. n - 1]. *)
Fixpoint sum_differences (x : py_map_object) (n : Z) (todo : nat) (pkts_sec : Z)
  : outcome Z :=
  match todo with
  | O => Return pkts_sec
  | S todo' =>
      let i := n - Z.of_nat todo in
      a ← py_getitem x i;
      b ← py_getitem x (i - 1);
      sum_differences x n todo' (pkts_sec + (a - b))
  end.

Definition get_packets_per_second_from_pkt_counters (counters : string) (strip : Z)
  : outcome Q :=
  counter_list ← map_int counters;
  too_few ← (if strip <? 0 then Return true
             else n ← py_len counter_list; Return (n - strip * 2 <? 2));
  if (too_few : bool) then Raise (SystemExit NotEnoughElements (-1))
  else
    counter_list ← (if 0 <? strip then py_del_ends counter_list strip
                    else Return counter_list);
    n ← py_len counter_list;
    pkts_sec ← sum_differences counter_list n (Z.to_nat (n - 1)) 0;
    py_div py pkts_sec (n - 1).
End PktCounters.

(** The list the rate is computed from once [strip] samples are dropped
    at each end. *)
Definition stripped (l : list Z) (strip : Z) : list Z :=
  if 0 <? strip
  then take (length (drop (Z.to_nat strip) l) - Z.to_nat strip)%nat
            (drop (Z.to_nat strip) l)
  else l.

(** A [parse_counters] for the plain case: decimal tokens separated by
    blanks, with no label in front. *)
Definition is_digit (c : ascii) : bool :=
  let n := N_of_ascii c in (48 <=? n)%N && (n <=? 57)%N.

Definition digit_value (c : ascii) : N := (N_of_ascii c - 48)%N.

Definition is_blank (c : ascii) : bool :=
  let n := N_of_ascii c in (n =? 32)%N || ((9 <=? n)%N && (n <=? 13)%N).

Fixpoint parse_plain_tokens (s : string) (cur : option N) : outcome (list Z) :=
  match s with
  | EmptyString => Return (match cur with Some n => [Z.of_N n] | None => [] end)
  | String c s' =>
      if is_digit c then
        parse_plain_tokens s' (Some (10 * default 0%N cur + digit_value c)%N)
      else if is_blank c then
        rest ← parse_plain_tokens s' None;
        Return (match cur with Some n => Z.of_N n :: rest | None => rest end)
      else Raise ValueError
  end.

Definition parse_plain (s : string) : outcome (list Z) := parse_plain_tokens s None.

(** ** Traffic generator snapshots and the sampling loop *)

(** [natsorted] on numeric keys orders them by value. *)
Definition natsorted_Z (keys : list Z) : list Z := stable_sort Z.leb keys.

(** The timestamps the average runs over:
    [natsorted(list(rx_stats.keys()))[2:-2]]. *)
Definition interior_timestamps (rx_stats : gmap Z Z) : list Z :=
  slice_2_m2 (natsorted_Z (map fst (map_to_list rx_stats))).

(** [get_packets_per_second_from_traffic_generator_rx_stats]; [rx_stats]
    maps a timestamp to its ['pr_total']['pps'] reading. *)
Definition get_packets_per_second_from_traffic_generator_rx_stats
    (py : python_version) (rx_stats : gmap Z Z) : outcome Q :=
  let '(avg, cnt) :=
    fold_left (fun '(avg, cnt) timestamp =>
                 (avg + default 0 (rx_stats !! timestamp), cnt + 1))
              (interior_timestamps rx_stats) (0, 0) in
  py_div py avg cnt.

Section Sampling.
(** Modelled from the spec: the traffic generator (module
    traffic_generator is not among the sources) keeps
    "a mapping from timestamp to named counter groups", filled by
    "take_*_statistics_snapshot". Its clock ticks in seconds, and
    [rx_pps_at t] is the instantaneous receive rate it reports at [t]. *)
Variable rx_pps_at : Z -> Z.

(** Whether [take_statistics_snapshot] stores a receive snapshot as
    well. *)
Variable snapshot_records_rx : bool.






End Sampling.


(** ** The rate guard of test_p2v2p_single_packet_size and
       test_p_single_packet_size *)

(** [assert (decrease_rate >= 0 or decrease_rate < 100)] *)
Definition decrease_rate_assertion (decrease_rate : Q) : bool :=
  Qle_bool 0 decrease_rate || Qgt_bool 100 decrease_rate.

(** The range the assertion was meant to check. *)
Definition decrease_rate_in_range (decrease_rate : Q) : bool :=
  Qle_bool 0 decrease_rate && Qgt_bool 100 decrease_rate.

(** The head of both test functions: the assertion,
    [decrease_rate *= 10000], and the [percentage=1000000 - decrease_rate]
    handed to [tester.configure_traffic_stream]. *)
Definition configured_percentage (decrease_rate : Q) : outcome Q :=
  if decrease_rate_assertion decrease_rate
  then
    let decrease_rate := (decrease_rate * 10000)%Q in
    Return (1000000 - decrease_rate)%Q
  else Raise AssertionError.

Definition test_p2v2p_single_packet_size_percentage := configured_percentage.
Definition test_p_single_packet_size_percentage := configured_percentage.

(** ** Flow table programming *)

Record Config : Type := mkConfig {
  bridge_name : string;
  dst_mac_address : Z;   (* after [mac_2_int] *)
  src_mac_address : Z;
  mac_swap : bool;
  debug : bool;
  debug_dut_shell : bool
}.

(** The commands the rule functions send to the device under test. *)
Inductive dut_command : Type :=
| FlushOvsFlows
| OfDumpPortToLogfile
| AddL2Flows (in_port out_port first_mac end_mac : Z)
| DumpFlowsCount.

(** The optional arguments of [create_ovs_l2_of_rules]. *)
Record L2Kwargs : Type := mkL2Kwargs {
  kw_total_number_of_flows : option Z;
  kw_clear_rules : option bool;
  kw_mac_swap : option bool
}.

Definition no_kwargs : L2Kwargs := mkL2Kwargs None None None.

Section FlowTable.
Variable config : Config.

(** What [ovs-ofctl dump-flows | grep -v 'NXST_FLOW reply' | wc -l]
    reports once the given commands have been sent. *)
Variable observed_flow_count : list dut_command -> Z.

Definition create_ovs_l2_of_rules
    (number_of_flows src_port dst_port : Z) (kwargs : L2Kwargs)
    (dut : list dut_command) : outcome (list dut_command) :=
  let total_nr_of_flows := default number_of_flows (kw_total_number_of_flows kwargs) in
  let clear_rules := default true (kw_clear_rules kwargs) in
  let mac_swap := default false (kw_mac_swap kwargs) in
  let base_mac :=
    Z.land (if negb mac_swap then dst_mac_address config else src_mac_address config)
           0xffffff000000 in
  let dut := if clear_rules then dut ++ [FlushOvsFlows] else dut in
  let dut := if debug config || debug_dut_shell config
             then dut ++ [OfDumpPortToLogfile] else dut in
  let dut := dut ++ [AddL2Flows src_port dst_port base_mac (number_of_flows + base_mac)] in
  if negb (total_nr_of_flows =? 0) then
    let dut := dut ++ [DumpFlowsCount] in
    if negb (observed_flow_count dut =? total_nr_of_flows)
    then Raise (SystemExit (FlowCountMismatch number_of_flows (observed_flow_count dut)) (-1))
    else Return dut
  else Return dut.

Definition create_ovs_bidirectional_l2_of_rules
    (number_of_flows src_port dst_port : Z) (dut : list dut_command)
  : outcome (list dut_command) :=
  dut ← create_ovs_l2_of_rules number_of_flows src_port dst_port no_kwargs dut;
  create_ovs_l2_of_rules number_of_flows dst_port src_port
    (mkL2Kwargs (Some (number_of_flows * 2)) (Some false) (Some (mac_swap config)))
    dut.
End FlowTable.

(** The commands of one unidirectional installation that verifies its
    count, as they extend the trace [dut]: the flush unless suppressed,
    the dump to the log file when debugging, the rules, the count. *)
Definition debug_dump (config : Config) : list dut_command :=
  if debug config || debug_dut_shell config then [OfDumpPortToLogfile] else [].

Definition base_mac_of (config : Config) (swap : bool) : Z :=
  Z.land (if negb swap then dst_mac_address config else src_mac_address config)
         0xffffff000000.

Definition installation (config : Config) (clear_rules swap : bool)
    (number_of_flows in_port out_port : Z) : list dut_command :=
  (if clear_rules then [FlushOvsFlows] else [])
  ++ debug_dump config
  ++ [AddL2Flows in_port out_port (base_mac_of config swap)
                 (number_of_flows + base_mac_of config swap)]
  ++ [DumpFlowsCount].

(** ** Warm-up verification *)

Section WarmUp.
(** The answer of the k-th call of [get_active_datapath_flows()],
    counted from 0. *)
Variable get_active_datapath_flows : nat -> Z.

Record WarmUpState : Type := mkWarmUpState {
  run_time : Z;
  active_flows : Z;
  polls : nat   (* calls of [get_active_datapath_flows] so far *)
}.

Fixpoint warm_up_loop (fuel : nat) (requested_flows timeout : Z) (st : WarmUpState)
  : outcome (bool * WarmUpState) :=
  if active_flows st <? requested_flows then
    match fuel with
    | O => OutOfFuel
    | S fuel' =>
        let run_time := run_time st + 1 in
        if negb (timeout =? 0) && (timeout <=? run_time)
        then Return (false, mkWarmUpState run_time (active_flows st) (polls st))
        else
          warm_up_loop fuel' requested_flows timeout
            (mkWarmUpState run_time (get_active_datapath_flows (polls st)) (S (polls st)))
    end
  else Return (true, st).

Definition warm_up_verify (fuel : nat) (requested_flows timeout : Z)
  : outcome (bool * WarmUpState) :=
  warm_up_loop fuel requested_flows timeout (mkWarmUpState 0 0 0).
End WarmUp.

(** The value of [active_flows] after [polls] calls: 0 before the first. *)
Definition last_observed (get_active_datapath_flows : nat -> Z) (polls : nat) : Z :=
  match polls with
  | O => 0
  | S k => get_active_datapath_flows k
  end.

(** What holds whenever the loop of [warm_up_verify] tests its condition. *)
Definition warm_up_invariant (get_active_datapath_flows : nat -> Z)
    (requested_flows timeout : Z) (st : WarmUpState) : Prop :=
  run_time st = Z.of_nat (polls st) /\
  active_flows st = last_observed get_active_datapath_flows (polls st) /\
  (forall k, (S k < polls st)%nat -> get_active_datapath_flows k < requested_flows) /\
  (polls st <> O -> 0 < requested_flows) /\
  (timeout <> 0 -> run_time st < Z.max 1 timeout).

(** ** natsorted on text keys *)

(** natsort cuts a string into maximal runs of decimal digits, read as
    numbers, and the text between them; a key that starts with a number
    gets an empty text in front, so that text and numbers alternate. *)
Inductive chunk : Type :=
| Text (s : string)
| Num (n : N).

Definition close_chunk (cur : chunk) : list chunk :=
  match cur with
  | Text EmptyString => []
  | _ => [cur]
  end.

Fixpoint natsort_chunks (s : string) (cur : chunk) : list chunk :=
  match s with
  | EmptyString => close_chunk cur
  | String c s' =>
      if is_digit c then
        match cur with
        | Num n => natsort_chunks s' (Num (10 * n + digit_value c))
        | Text t => Text t :: natsort_chunks s' (Num (digit_value c))
        end
      else
        match cur with
        | Text t => natsort_chunks s' (Text (t ++ String c EmptyString))
        | Num n => Num n :: natsort_chunks s' (Text (String c EmptyString))
        end
  end.

Definition natsort_key (s : string) : list chunk := natsort_chunks s (Text EmptyString).

(** Python's order on the elements of two keys: numbers by value, text by
    code points. A number against a text does not occur at equal
    positions of two keys. *)
Definition chunk_compare (a b : chunk) : comparison :=
  match a, b with
  | Num m, Num n => N.compare m n
  | Text s, Text t => String.compare s t
  | Text _, Num _ => Lt
  | Num _, Text _ => Gt
  end.

(** Python's tuple order. *)
Fixpoint key_compare (k1 k2 : list chunk) : comparison :=
  match k1, k2 with
  | [], [] => Eq
  | [], _ :: _ => Lt
  | _ :: _, [] => Gt
  | a :: k1', b :: k2' =>
      match chunk_compare a b with
      | Eq => key_compare k1' k2'
      | c => c
      end
  end.

Definition natsort_leb (a b : string) : bool :=
  match key_compare (natsort_key a) (natsort_key b) with
  | Gt => false
  | _ => true
  end.

Definition natsorted (keys : list string) : list string := stable_sort natsort_leb keys.

(** The order [sorted] would give: text by code points. *)
Definition lexical_leb (a b : string) : bool :=
  match String.compare a b with
  | Gt => false
  | _ => true
  end.

Definition lexically_sorted (keys : list string) : list string :=
  stable_sort lexical_leb keys.

(** The number a key of decimal digits stands for. *)
Fixpoint decimal_value (s : string) (acc : N) : N :=
  match s with
  | EmptyString => acc
  | String c s' => decimal_value s' (10 * acc + digit_value c)
  end.

Fixpoint all_digits (s : string) : bool :=
  match s with
  | EmptyString => true
  | String c s' => is_digit c && all_digits s'
  end.

Definition is_number_key (s : string) : bool :=
  match s with
  | EmptyString => false
  | _ => all_digits s
  end.

(** ** get_result_sets_from_zero_loss_results *)

(** A dictionary in the order of its insertions. *)
Fixpoint dict_get {V : Type} (d : list (string * V)) (k : string) : outcome V :=
  match d with
  | [] => Raise KeyError
  | (k', v) :: d' => if String.eqb k k' then Return v else dict_get d' k
  end.

Record ResultSets : Type := mkResultSets {
  test_results : list (Z * list Q);
  cpu_results : list (Z * list Z);
  traffic_rate_results : list (Z * list Z);
  loss_rate_results : list (Z * list Q)
}.

(** The body of the inner loop, for the packet sizes still to visit. *)
Fixpoint append_series (per_pkt_results : list (string * RunResult))
    (pkt_sizes : list string) : outcome (list Q * list Z * list Z * list Q) :=
  match pkt_sizes with
  | [] => Return ([], [], [], [])
  | pkt_size :: rest =>
      r ← dict_get per_pkt_results pkt_size;
      loss ← calc_loss_percentage r;
      '(rx, cpu, rate, losses) ← append_series per_pkt_results rest;
      Return (rx_packets_second r :: rx, cpu_stats r :: cpu,
              traffic_rate r :: rate, loss :: losses)
  end.

Fixpoint get_result_sets_from_zero_loss_results
    (results : list (Z * list (string * RunResult))) : outcome ResultSets :=
  match results with
  | [] => Return (mkResultSets [] [] [] [])
  | (nr_of_flows, per_pkt_results) :: results' =>
      '(rx, cpu, rate, losses) ←
        append_series per_pkt_results (natsorted (map fst per_pkt_results));
      sets ← get_result_sets_from_zero_loss_results results';
      Return (mkResultSets ((nr_of_flows, rx) :: test_results sets)
                           ((nr_of_flows, cpu) :: cpu_results sets)
                           ((nr_of_flows, rate) :: traffic_rate_results sets)
                           ((nr_of_flows, losses) :: loss_rate_results sets))
  end.

(** ** The zero-loss tests: what is kept of a search *)

(** [min(results)]: the lowest key; an empty dictionary raises. *)
Definition py_min_key {V : Type} (m : gmap Z V) : outcome Z :=
  match map fst (map_to_list m) with
  | [] => Raise ValueError
  | k :: ks => Return (foldl Z.min k ks)
  end.

(** [results[k]] *)
Definition py_dict_item {V : Type} (m : gmap Z V) (k : Z) : outcome V :=
  match m !! k with
  | Some v => Return v
  | None => Raise KeyError
  end.

Section ZeroLossTest.
Variable run_test_function : list Z -> Z -> RunResult.
Variable get_results_function : gmap Z RunResult -> Z -> Q.

(** The loop that prints every result of the search,
    [for dump_index in natsorted(list(results.keys()))]: it looks the
    result up and computes [calc_loss_percentage(result)] for the line. *)
Fixpoint dump_results (results : gmap Z RunResult) (keys : list Z) : outcome unit :=
  match keys with
  | [] => Return tt
  | dump_index :: rest =>
      result ← py_dict_item results dump_index;
      _ ← calc_loss_percentage result;
      dump_results results rest
  end.

(** The search of [test_p2v2p_zero_loss] and [test_p_zero_loss] for one
    packet size, the printing of its results, and the entry they keep of
    it: [results[index]] if [index >= 1], whose loss is printed once
    more, else [results[min(results)]]. The load the entry was stored
    under is returned with it. *)
Definition zero_loss_kept_result (zero_loss_step : Z) : outcome (Z * RunResult) :=
  '(st, index) ← binary_search run_test_function get_results_function
                               1 100 (1 # 100000) zero_loss_step;
  _ ← dump_results (results st) (natsorted_Z (map fst (map_to_list (results st))));
  if 1 <=? index then
    r ← py_dict_item (results st) index;
    _ ← calc_loss_percentage r;
    Return (index, r)
  else
    k ← py_min_key (results st);
    r ← py_dict_item (results st) k;
    Return (k, r).
End ZeroLossTest.

(** The head of [PVP_binary_search_single_run] and
    [P_binary_search_single_run]: the load under test reaches the test
    function as [decrease_rate=100 - test_value]. *)
Definition binary_search_single_run_percentage (test_value : Z) : outcome Q :=
  configured_percentage (inject_Z (100 - test_value)).

(** ** Receive rate of the VM: get_traffic_rx_stats_from_vm *)

(** [pkt_rates] is the list of the integers that follow [Rx-pps:] in the
    output of the VM, which the two regular expressions extract. *)
Definition get_traffic_rx_stats_from_vm (py : python_version)
    (pkt_rates : list Z) (skip_samples : Z) : outcome Q :=
  let pkt_rates :=
    if 0 <? skip_samples then drop (Z.to_nat skip_samples) pkt_rates else pkt_rates in
  if Z.of_nat (length pkt_rates) <=? 10
  then Raise (SystemExit NotEnoughElements (-1))
  else
    let pkt_rates := drop 5 (take (length pkt_rates - 5)%nat pkt_rates) in
    py_div py (foldr Z.add 0 pkt_rates) (Z.of_nat (length pkt_rates)).

(** [get_packets_per_second_from_traffic_generator_tx_stats]: the same
    loop over the transmit snapshots and their ['pt_total']['pps']. *)
Definition get_packets_per_second_from_traffic_generator_tx_stats
    (py : python_version) (tx_stats : gmap Z Z) : outcome Q :=
  let '(avg, cnt) :=
    fold_left (fun '(avg, cnt) timestamp =>
                 (avg + default 0 (tx_stats !! timestamp), cnt + 1))
              (slice_2_m2 (natsorted_Z (map fst (map_to_list tx_stats)))) (0, 0) in
  py_div py avg cnt.

(** ** Cool-down of the flow table *)

(** How [flow_table_cool_down] ends: nothing to do, the count fell to 32
    or less, the warning after 20 rounds, or the ERROR line and
    [sys.exit(-1)]. *)
Inductive cool_down_end : Type :=
| CoolDownSkipped
| CooledDown
| CoolDownGaveUp
| CoolDownExit.

Section CoolDown.
Variable get_active_datapath_flows : nat -> Z.

Fixpoint cool_down_loop (fuel : nat) (failure_fatal : bool) (st : WarmUpState)
  : outcome (cool_down_end * WarmUpState) :=
  if 32 <? active_flows st then
    match fuel with
    | O => OutOfFuel
    | S fuel' =>
        let run_time := run_time st + 1 in
        if 20 <=? run_time then
          Return (if failure_fatal then CoolDownExit else CoolDownGaveUp,
                  mkWarmUpState run_time (active_flows st) (polls st))
        else
          cool_down_loop fuel' failure_fatal
            (mkWarmUpState run_time (get_active_datapath_flows (polls st)) (S (polls st)))
    end
  else Return (CooledDown, st).

(** [flow_table_cool_down(failure_fatal)] under [config.warm_up] and
    [config.no_cool_down]. *)
Definition flow_table_cool_down (warm_up no_cool_down failure_fatal : bool) (fuel : nat)
  : outcome (cool_down_end * WarmUpState) :=
  if warm_up || negb no_cool_down then
    cool_down_loop fuel failure_fatal
                   (mkWarmUpState 0 (get_active_datapath_flows 0%nat) 1)
  else Return (CoolDownSkipped, mkWarmUpState 0 0 0).
End CoolDown.

(** ** L3 and L4 rules *)

Inductive rule_command : Type :=
| RuleDelFlows                                     (* ovs-ofctl del-flows *)
| RuleFlush                                        (* flush_ovs_flows() *)
| RuleDumpPorts                                    (* of_dump_port_to_logfile *)
| RuleAddL3 (in_port out_port first_ip end_ip : Z)
| RuleAddL4 (in_port out_port number_of_flows : Z)
| RuleCount.                                       (* dump-flows | wc -l *)

(** The ERROR line before [sys.exit(-1)]. *)
Inductive rule_error : Type :=
| TooManyFlows (limit : Z)
| WrongFlowCount (expected observed : Z).

Inductive rule_outcome : Type :=
| Installed (dut : list rule_command)
| RuleExit (e : rule_error).

Record L3Kwargs : Type := mkL3Kwargs {
  l3_total_number_of_flows : option Z;
  l3_clear_rules : option bool;
  l3_ipv4_start : option Z
}.

Section L3L4Rules.
Variable config : Config.
Variable observed_rule_count : list rule_command -> Z.

(** The verification both functions end with. *)
Definition verify_rule_count (number_of_flows total_nr_of_flows : Z)
    (dut : list rule_command) : rule_outcome :=
  if negb (total_nr_of_flows =? 0) then
    let dut := dut ++ [RuleCount] in
    if negb (observed_rule_count dut =? total_nr_of_flows)
    then RuleExit (WrongFlowCount number_of_flows (observed_rule_count dut))
    else Installed dut
  else Installed dut.

Definition create_ovs_l3_of_rules (number_of_flows src_port dst_port : Z)
    (kwargs : L3Kwargs) (dut : list rule_command) : rule_outcome :=
  let total_nr_of_flows := default number_of_flows (l3_total_number_of_flows kwargs) in
  let clear_rules := default true (l3_clear_rules kwargs) in
  let ip_start_offset := default 0x01000000 (l3_ipv4_start kwargs) in
  if 1000000 <? number_of_flows then RuleExit (TooManyFlows 1000000)
  else
    let dut := if clear_rules then dut ++ [RuleFlush] else dut in
    let dut := if debug config || debug_dut_shell config
               then dut ++ [RuleDumpPorts] else dut in
    let dut := dut ++ [RuleAddL3 src_port dst_port ip_start_offset
                                 (number_of_flows + ip_start_offset)] in
    verify_rule_count number_of_flows total_nr_of_flows dut.

Definition create_ovs_bidirectional_l3_of_rules
    (number_of_flows src_port dst_port : Z) (kwargs : L3Kwargs)
    (dut : list rule_command) : rule_outcome :=
  let clear_rules := default true (l3_clear_rules kwargs) in
  let total_nr_of_flows := default (number_of_flows * 2) (l3_total_number_of_flows kwargs) in
  let ip_start_offset := default 0x01000000 (l3_ipv4_start kwargs) in
  match create_ovs_l3_of_rules number_of_flows src_port dst_port
          (mkL3Kwargs (Some 0) (Some clear_rules) (Some ip_start_offset)) dut with
  | RuleExit e => RuleExit e
  | Installed dut =>
      create_ovs_l3_of_rules number_of_flows dst_port src_port
        (mkL3Kwargs (Some total_nr_of_flows) (Some false) (Some ip_start_offset)) dut
  end.

Definition create_ovs_l4_of_rules (number_of_flows src_port dst_port : Z)
    (total_number_of_flows : option Z) (clear_rules : option bool)
    (dut : list rule_command) : rule_outcome :=
  let total_nr_of_flows := default number_of_flows total_number_of_flows in
  let clear_rules := default true clear_rules in
  if 1000000 <? number_of_flows then RuleExit (TooManyFlows 1000000)
  else
    let dut := if clear_rules then dut ++ [RuleDelFlows; RuleFlush] else dut in
    let dut := if debug config || debug_dut_shell config
               then dut ++ [RuleDumpPorts] else dut in
    let dut := dut ++ [RuleAddL4 src_port dst_port number_of_flows] in
    verify_rule_count number_of_flows total_nr_of_flows dut.

Definition create_ovs_bidirectional_l4_of_rules
    (number_of_flows src_port dst_port : Z) (dut : list rule_command) : rule_outcome :=
  match create_ovs_l4_of_rules number_of_flows src_port dst_port None None dut with
  | RuleExit e => RuleExit e
  | Installed dut =>
      create_ovs_l4_of_rules number_of_flows dst_port src_port
        (Some (number_of_flows * 2)) (Some false) dut
  end.
End L3L4Rules.

(** ** The addresses the rule generators print *)

(** The four numbers of a dotted address, as the L3 generator formats
    them from [i]: [(i >> 24) & 0xff], ..., [i & 0xff]. *)
Definition ipv4_octets (i : Z) : list Z :=
  [Z.land (Z.shiftr i 24) 0xff; Z.land (Z.shiftr i 16) 0xff;
   Z.land (Z.shiftr i 8) 0xff; Z.land i 0xff].

(** [nw_src] and [nw_dst] of the rule for [i]. *)
Definition l3_rule_addresses (i : Z) : list Z * list Z :=
  (ipv4_octets i, ipv4_octets (i + 0x01000000)).

(** The six bytes of [dl_dst], as the L2 generator formats them. *)
Definition mac_bytes (i : Z) : list Z :=
  [Z.land (Z.shiftr i 40) 0xff; Z.land (Z.shiftr i 32) 0xff;
   Z.land (Z.shiftr i 24) 0xff; Z.land (Z.shiftr i 16) 0xff;
   Z.land (Z.shiftr i 8) 0xff; Z.land i 0xff].

(** [for i in range(first, last)] *)
Definition py_range (first last : Z) : list Z :=
  map (fun k : nat => first + Z.of_nat k) (seq 0 (Z.to_nat (last - first))).

(** The [dl_dst] of the rules one call of [create_ovs_l2_of_rules]
    adds. *)
Definition l2_rule_macs (config : Config) (swap : bool) (number_of_flows : Z)
  : list (list Z) :=
  map mac_bytes (py_range (base_mac_of config swap)
                          (number_of_flows + base_mac_of config swap)).

(** The number a list of bytes spells, most significant first. *)
Definition bytes_value (bytes : list Z) : Z :=
  fold_left (fun acc b => acc * 256 + b) bytes 0.

(** ** check_list *)

(** [list_string.split(',')] *)
Fixpoint split_comma (s : string) (cur : string) : list string :=
  match s with
  | EmptyString => [cur]
  | String c s' =>
      if Ascii.eqb c ","%char then cur :: split_comma s' EmptyString
      else split_comma s' (cur ++ String c EmptyString)
  end.

Section CheckList.
(** [int(entry)], [None] for [ValueError]. *)
Variable int_of_string : string -> option Z.

Fixpoint check_entries (entries : list string) (min_val max_val last_entry : Z) : bool :=
  match entries with
  | [] => true
  | entry :: rest =>
      match int_of_string entry with
      | None => false
      | Some value =>
          if (value <? min_val) || (max_val <? value) || (value <=? last_entry)
          then false
          else check_entries rest min_val max_val value
      end
  end.

Definition check_list (list_string : string) (min_val max_val : Z) : bool :=
  let list := split_comma list_string EmptyString in
  if (length list =? 0)%nat then false
  else check_entries list min_val max_val 0.
End CheckList.

(** ** Wire utilization *)

(** [int(x)] on a float: towards zero. *)
Definition py_int (x : Q) : Z := if Qle_bool 0 x then Qfloor x else Qceiling x.

Definition eth_utilization (line_speed_bps packet_size : Z) (packets_per_second : Q)
  : outcome Z :=
  let packet_size_bits := (12 + 8 + packet_size + 4) * 8 in
  let packet_speed_second := (inject_Z packet_size_bits * packets_per_second)%Q in
  if line_speed_bps =? 0 then Raise ZeroDivisionError
  else
    let util := py_int (packet_speed_second / inject_Z line_speed_bps * 100)%Q in
    Return (if 100 <? util then 100 else util).

(** ** CPU classes of get_cpu_monitoring_stats *)

Record OvsCpu : Type := mkOvsCpu {
  ovs_cpu_pmd : Q;
  ovs_cpu_revalidator : Q;
  ovs_cpu_handler : Q;
  ovs_cpu_urcu : Q;
  ovs_cpu_other : Q
}.

(** One round of the loop over the matches: [usage] is [float(group(1))],
    [name] is [group(2)]. *)
Definition add_thread (acc : OvsCpu) (m : Q * string) : OvsCpu :=
  let '(usage, name) := m in
  if String.prefix "pmd" name then
    mkOvsCpu (ovs_cpu_pmd acc + usage) (ovs_cpu_revalidator acc) (ovs_cpu_handler acc)
             (ovs_cpu_urcu acc) (ovs_cpu_other acc)
  else if String.prefix "revalidator" name then
    mkOvsCpu (ovs_cpu_pmd acc) (ovs_cpu_revalidator acc + usage) (ovs_cpu_handler acc)
             (ovs_cpu_urcu acc) (ovs_cpu_other acc)
  else if String.prefix "handler" name then
    mkOvsCpu (ovs_cpu_pmd acc) (ovs_cpu_revalidator acc) (ovs_cpu_handler acc + usage)
             (ovs_cpu_urcu acc) (ovs_cpu_other acc)
  else if String.prefix "urcu" name then
    mkOvsCpu (ovs_cpu_pmd acc) (ovs_cpu_revalidator acc) (ovs_cpu_handler acc)
             (ovs_cpu_urcu acc + usage) (ovs_cpu_other acc)
  else
    mkOvsCpu (ovs_cpu_pmd acc) (ovs_cpu_revalidator acc) (ovs_cpu_handler acc)
             (ovs_cpu_urcu acc) (ovs_cpu_other acc + usage).

Definition ovs_cpu_classes (matches : list (Q * string)) : OvsCpu :=
  fold_left add_thread matches (mkOvsCpu 0 0 0 0 0).

(** ['ovs_cpu'] of the result. *)
Definition ovs_cpu_total (c : OvsCpu) : Q :=
  ovs_cpu_pmd c + ovs_cpu_revalidator c + ovs_cpu_handler c
  + ovs_cpu_urcu c + ovs_cpu_other c.

(** ** csv_write_test_results *)

(** What a cell of a row holds: a text, a flow count, the label
    ["cpu_{}".format(flow)], a packet size, or a value of a series. *)
Inductive csv_cell (P V : Type) : Type :=
| CellText (s : string)
| CellFlow (flow : Z)
| CellCpuLabel (flow : Z)
| CellPacketSize (pkt : P)
| CellValue (v : V).

Arguments CellText {P V} s.
Arguments CellFlow {P V} flow.
Arguments CellCpuLabel {P V} flow.
Arguments CellPacketSize {P V} pkt.
Arguments CellValue {P V} v.

Inductive csv_error : Type :=
| CsvValueError      (* raise ValueError("No support for this protocol!!") *)
| CsvKeyError        (* a flow count that is no key of a dictionary *)
| CsvIndexError.     (* a series shorter than the packet size list *)

(** [l * n] on a list. *)
Fixpoint py_list_repeat {A : Type} (l : list A) (n : nat) : list A :=
  match n with
  | O => []
  | S n' => l ++ py_list_repeat l n'
  end.

Section CsvWrite.
Context {P V : Type}.

(** [d[flow][i]] *)
Definition series_item (d : gmap Z (list V)) (flow : Z) (i : nat) : csv_error + V :=
  match d !! flow with
  | None => inl CsvKeyError
  | Some series =>
      match series !! i with
      | None => inl CsvIndexError
      | Some v => inr v
      end
  end.

(** [if d is not None: results.append(d[flow][i])] *)
Definition optional_item (d : option (gmap Z (list V))) (flow : Z) (i : nat)
  : csv_error + list (csv_cell P V) :=
  match d with
  | None => inr []
  | Some d =>
      match series_item d flow i with
      | inl e => inl e
      | inr v => inr [CellValue v]
      end
  end.

(** A dictionary holds a series for the flow count, with a value for
    each of the packet sizes. *)
Definition series_covers (nr_of_packet_sizes : nat) (d : gmap Z (list V)) (flow : Z)
  : Prop :=
  exists series, d !! flow = Some series /\ (nr_of_packet_sizes <= length series)%nat.

(** The same of a dictionary that may be [None]. *)
Definition optional_series_covers (nr_of_packet_sizes : nat)
    (d : option (gmap Z (list V))) (flow : Z) : Prop :=
  forall d', d = Some d' -> series_covers nr_of_packet_sizes d' flow.

(** The number of series written per packet size: the receive rate, and
    the traffic rate and the loss rate when given. *)
Definition series_per_packet_size (loss_rate traffic_rate : option (gmap Z (list V)))
  : nat :=
  (1 + (if bool_decide (is_Some traffic_rate) then 1 else 0)
   + (if bool_decide (is_Some loss_rate) then 1 else 0))%nat.

Section Rows.
Variable test_results cpu_results : gmap Z (list V).
Variable loss_rate traffic_rate : option (gmap Z (list V)).

(** The first inner loop, over the indices still to visit. *)
Fixpoint result_cells (flow : Z) (indices : list nat) : csv_error + list (csv_cell P V) :=
  match indices with
  | [] => inr []
  | i :: rest =>
      match series_item test_results flow i with
      | inl e => inl e
      | inr v =>
          match optional_item traffic_rate flow i with
          | inl e => inl e
          | inr t =>
              match optional_item loss_rate flow i with
              | inl e => inl e
              | inr l =>
                  match result_cells flow rest with
                  | inl e => inl e
                  | inr cells => inr (CellValue v :: t ++ l ++ cells)
                  end
              end
          end
      end
  end.

(** The second inner loop. *)
Fixpoint cpu_cells (flow : Z) (indices : list nat) : csv_error + list (csv_cell P V) :=
  match indices with
  | [] => inr []
  | i :: rest =>
      match series_item cpu_results flow i with
      | inl e => inl e
      | inr v =>
          match cpu_cells flow rest with
          | inl e => inl e
          | inr cells => inr (CellValue v :: cells)
          end
      end
  end.

(** [for flow in flow_size_list]: two rows per flow count. [csv_handle]
    is the list of the rows written so far. *)
Fixpoint write_flows (nr_of_packet_sizes : nat) (flow_size_list : list Z)
    (csv_handle : list (list (csv_cell P V)))
  : list (list (csv_cell P V)) * option csv_error :=
  match flow_size_list with
  | [] => (csv_handle, None)
  | flow :: rest =>
      match result_cells flow (seq 0 nr_of_packet_sizes) with
      | inl e => (csv_handle, Some e)
      | inr results =>
          let csv_handle := csv_handle ++ [CellFlow flow :: results] in
          match cpu_cells flow (seq 0 nr_of_packet_sizes) with
          | inl e => (csv_handle, Some e)
          | inr results =>
              write_flows nr_of_packet_sizes rest
                          (csv_handle ++ [CellCpuLabel flow :: results])
          end
      end
  end.

(** [csv_write_test_results]; [flow_type] and [flow_rule_type] are the
    two fields of [config] it reads. It returns the rows the handle
    holds at the end and the exception, if one was raised. *)
Definition csv_write_test_results (flow_type flow_rule_type : string)
    (csv_handle : list (list (csv_cell P V))) (test_name : string)
    (flow_size_list : list Z) (packet_size_list : list P)
  : list (list (csv_cell P V)) * option csv_error :=
  let flow_type_label :=
    if String.eqb flow_type "L2" then Some ", L2 flows"%string
    else if String.eqb flow_type "L3" then Some ", L3 flows"%string
    else if String.eqb flow_type "L4-UDP" then Some ", L4-udp flows"%string
    else None in
  match flow_type_label with
  | None => (csv_handle, Some CsvValueError)
  | Some flow_type =>
      let flow_type :=
        if String.eqb flow_rule_type "NORMAL" then (flow_type ++ "[NORMAL]")%string
        else if String.eqb flow_rule_type "port"
             then (flow_type ++ "[port redirect]")%string
             else flow_type in
      let csv_handle := csv_handle ++ [[CellText (test_name ++ flow_type)%string]] in
      if (0 <? size test_results)%nat then
        let csv_handle := csv_handle ++ [[CellText ""; CellText "Packet size"]] in
        let csv_handle :=
          if bool_decide (is_Some loss_rate) || bool_decide (is_Some traffic_rate) then
            let lables :=
              [CellText "Receive rate"]
              ++ (if bool_decide (is_Some traffic_rate)
                  then [CellText "Traffic rate"] else [])
              ++ (if bool_decide (is_Some loss_rate)
                  then [CellText "Loss rate"] else []) in
            let l1 :=
              (if bool_decide (is_Some traffic_rate) then [CellText ""] else [])
              ++ (if bool_decide (is_Some loss_rate) then [CellText ""] else []) in
            let packet_size_lables :=
              flat_map (fun pkt => CellPacketSize pkt :: l1) packet_size_list in
            csv_handle
              ++ [[CellText "Number of flows"] ++ packet_size_lables]
              ++ [[CellText ""] ++ py_list_repeat lables (length packet_size_list)]
          else
            csv_handle
              ++ [[CellText "Number of flows"] ++ map CellPacketSize packet_size_list] in
        match write_flows (length packet_size_list) flow_size_list csv_handle with
        | (csv_handle, Some e) => (csv_handle, Some e)
        | (csv_handle, None) => (csv_handle ++ [[]; []; []; []], None)
        end
      else (csv_handle, None)
  end.
End Rows.
End CsvWrite.

(** * Properties *)

(** ** Loss percentage *)

Lemma Qgt_bool_false (a b : Q) : Qgt_bool a b = false <-> (a <= b)%Q.
Proof.
  unfold Qgt_bool. rewrite negb_false_iff. apply Qle_bool_iff.
Qed.

Lemma Qgt_bool_true (a b : Q) : Qgt_bool a b = true <-> (b < a)%Q.
Proof.
  unfold Qgt_bool. rewrite negb_true_iff. split.
  - intros H. apply Qnot_le_lt. intros Hle.
    apply Qle_bool_iff in Hle. congruence.
  - intros H. destruct (Qle_bool a b) eqn:E; [|reflexivity].
    apply Qle_bool_iff in E. exfalso. exact (Qlt_not_le _ _ H E).
Qed.

Lemma py_max_lower (a : Q) : (0 <= py_max a 0)%Q.
Proof.
  unfold py_max. destruct (Qgt_bool 0 a) eqn:E.
  - apply Qle_refl.
  - now apply Qgt_bool_false in E.
Qed.

Lemma py_max_upper (a b : Q) : (a <= b)%Q -> (0 <= b)%Q -> (py_max a 0 <= b)%Q.
Proof.
  intros Ha Hb. unfold py_max. now destruct (Qgt_bool 0 a).
Qed.

Lemma ratio_nonneg (rx tx : Z) :
  0 <= rx -> 0 < tx -> (0 <= inject_Z rx / inject_Z tx * 100)%Q.
Proof.
  intros Hrx Htx.
  apply Qmult_le_0_compat; [|discriminate].
  apply Qle_shift_div_l.
  - replace 0%Q with (inject_Z 0) by reflexivity. rewrite <- Zlt_Qlt. exact Htx.
  - rewrite Qmult_0_l. replace 0%Q with (inject_Z 0) by reflexivity.
    rewrite <- Zle_Qle. exact Hrx.
Qed.

(** C7, as stated, fails: a run in which the generator sent nothing has
    non-negative counts, and the division raises instead of returning a
    percentage. *)
Lemma calc_loss_percentage_zero_tx :
  0 <= total_tx_pkts (mkRunResult 0 0 0 100 0) /\
  0 <= total_rx_pkts (mkRunResult 0 0 0 100 0) /\
  calc_loss_percentage (mkRunResult 0 0 0 100 0) = Raise ZeroDivisionError /\
  ~ (exists v, calc_loss_percentage (mkRunResult 0 0 0 100 0) = Return v).
Proof.
  repeat split; try (simpl; lia).
  intros [v Hv]. discriminate Hv.
Qed.

(** C7, amended: for every result with a positive [total_tx_pkts] and a
    non-negative [total_rx_pkts], [calc_loss_percentage] returns a loss
    percentage in the interval [0, 100]. *)
Theorem calc_loss_percentage_clamped (r : RunResult) :
  0 < total_tx_pkts r -> 0 <= total_rx_pkts r ->
  exists v, calc_loss_percentage r = Return v /\ (0 <= v)%Q /\ (v <= 100)%Q.
Proof.
  intros Htx Hrx. unfold calc_loss_percentage.
  destruct (Z.eqb_spec (total_tx_pkts r) 0) as [E|_]; [lia|].
  eexists. split; [reflexivity|]. split.
  - apply py_max_lower.
  - apply py_max_upper; [|discriminate].
    pose proof (ratio_nonneg _ _ Hrx Htx) as H.
    apply Qle_minus_iff.
    eapply Qle_trans; [exact H|].
    apply Qle_lteq. right. ring.
Qed.

Lemma calc_loss_percentage_clamped_witness :
  exists v, calc_loss_percentage (mkRunResult 90 100 90 100 0) = Return v
            /\ (0 <= v)%Q /\ (v <= 100)%Q.
Proof.
  apply (calc_loss_percentage_clamped (mkRunResult 90 100 90 100 0)); simpl; lia.
Defined.

(** ** The rate guard *)

Lemma decrease_rate_assertion_holds (d : Q) : decrease_rate_assertion d = true.
Proof.
  unfold decrease_rate_assertion.
  destruct (Qle_bool 0 d) eqn:E; [reflexivity|]. simpl.
  apply Qgt_bool_true.
  assert (d < 0)%Q as Hd.
  { apply Qnot_le_lt. intros H. apply Qle_bool_iff in H. congruence. }
  apply Qlt_trans with 0%Q; [exact Hd|reflexivity].
Qed.

(** C9: the asserted disjunction holds for every [decrease_rate], so
    neither test function can fail its assertion, and a rate outside
    0 <= rate < 100 (such as -5 or 150) reaches the computation of the
    configured percentage unchecked. *)
Theorem decrease_rate_assertion_tautology :
  (forall d : Q,
      decrease_rate_assertion d = true /\
      test_p2v2p_single_packet_size_percentage d = Return (1000000 - d * 10000)%Q /\
      test_p_single_packet_size_percentage d = Return (1000000 - d * 10000)%Q) /\
  (decrease_rate_in_range (-5) = false /\
   test_p2v2p_single_packet_size_percentage (-5) = Return (1000000 - (-5) * 10000)%Q) /\
  (decrease_rate_in_range 150 = false /\
   test_p_single_packet_size_percentage 150 = Return (1000000 - 150 * 10000)%Q).
Proof.
  assert (forall d, configured_percentage d = Return (1000000 - d * 10000)%Q) as H.
  { intros d. unfold configured_percentage.
    now rewrite decrease_rate_assertion_holds. }
  split; [|split].
  - intros d. split; [apply decrease_rate_assertion_holds|]. split; apply H.
  - split; [reflexivity|apply H].
  - split; [reflexivity|apply H].
Qed.

(** ** Counter series *)

Section PktCountersFacts.
Variable parse_counters : string -> outcome (list Z).

(** The differences telescope. *)
Lemma sum_differences_list (l : list Z) (n : Z) (todo : nat) (acc : Z) :
  sum_differences (PyList l) n todo acc
  = Return (acc + (item l (n - 1) - item l (n - Z.of_nat todo - 1))).
Proof.
  revert acc. induction todo as [|todo IH]; intros acc.
  - cbn [sum_differences]. change (Z.of_nat 0) with 0.
    rewrite Z.sub_0_r. f_equal. lia.
  - cbn [sum_differences py_getitem mbind outcome_bind].
    rewrite IH. f_equal.
    replace (n - Z.of_nat todo - 1) with (n - Z.of_nat (S todo)) by lia.
    lia.
Qed.

Lemma stripped_length (l : list Z) (strip : Z) :
  0 <= strip -> 2 <= Z.of_nat (length l) - strip * 2 ->
  Z.of_nat (length (stripped l strip)) = Z.of_nat (length l) - strip * 2.
Proof.
  intros H0 H2. unfold stripped. destruct (Z.ltb_spec 0 strip); [|lia].
  rewrite length_take, length_drop. lia.
Qed.

(** Under Python 2 the function exits exactly when [strip < 0] or fewer
    than [2 * strip + 2] samples are present, and otherwise returns the
    floor of the mean of the first differences of the stripped list:
    their sum is the last sample minus the first. *)
Lemma python2_rate (counters : string) (l : list Z) (strip : Z) :
  parse_counters counters = Return l ->
  get_packets_per_second_from_pkt_counters Python2 parse_counters counters strip
  = if (strip <? 0) || (Z.of_nat (length l) <? 2 * strip + 2)
    then Raise (SystemExit NotEnoughElements (-1))
    else
      let l' := stripped l strip in
      let n := Z.of_nat (length l') in
      Return (inject_Z ((item l' (n - 1) - item l' 0) / (n - 1))).
Proof.
  intros Hparse. unfold get_packets_per_second_from_pkt_counters, map_int.
  rewrite Hparse. cbn [mbind outcome_bind].
  destruct (Z.ltb_spec strip 0) as [Hneg|Hpos]; cbn [mbind outcome_bind orb].
  { reflexivity. }
  cbn [py_len mbind outcome_bind].
  destruct (Z.ltb_spec (Z.of_nat (length l) - strip * 2) 2) as [Hfew|Henough];
    destruct (Z.ltb_spec (Z.of_nat (length l)) (2 * strip + 2)); try lia.
  { reflexivity. }
  pose proof (stripped_length l strip Hpos Henough) as Hlen.
  assert ((if 0 <? strip then py_del_ends (PyList l) strip else Return (PyList l))
          = Return (PyList (stripped l strip))) as ->.
  { unfold stripped, py_del_ends. now destruct (0 <? strip). }
  cbn [mbind outcome_bind py_len].
  rewrite sum_differences_list. cbn [mbind outcome_bind].
  unfold py_div.
  destruct (Z.eqb_spec (Z.of_nat (length (stripped l strip)) - 1) 0); [lia|].
  rewrite Z2Nat.id by lia.
  replace (Z.of_nat (length (stripped l strip))
           - (Z.of_nat (length (stripped l strip)) - 1) - 1) with 0 by lia.
  do 3 f_equal.
Qed.

(** Under Python 3 [map] yields an iterator, [len] of which raises: the
    function returns no rate at all. *)
Lemma python3_no_rate (counters : string) (strip : Z) :
  get_packets_per_second_from_pkt_counters Python3 parse_counters counters strip
  = if strip <? 0 then Raise (SystemExit NotEnoughElements (-1)) else Raise TypeError.
Proof.
  unfold get_packets_per_second_from_pkt_counters, map_int.
  cbn [mbind outcome_bind]. now destruct (strip <? 0).
Qed.
End PktCountersFacts.

(** C4: the series 0 10 20 30 40 50 with [strip = 0]. The claim asks for
    the rate 10; Python 2 returns it, but under Python 3, which the script
    supports as well, [len(counter_list)] raises [TypeError] on the
    iterator that [map] returns. Where the function does return, the mean
    is cut to an integer: the differences 1 and 2 give 1. *)
Theorem counter_series_rate_python3_raises :
  get_packets_per_second_from_pkt_counters Python3 parse_plain "0 10 20 30 40 50" 0
  = Raise TypeError /\
  get_packets_per_second_from_pkt_counters Python2 parse_plain "0 10 20 30 40 50" 0
  = Return 10%Q /\
  get_packets_per_second_from_pkt_counters Python2 parse_plain "0 1 3" 0
  = Return 1%Q.
Proof.
  repeat split; vm_compute; reflexivity.
Qed.

(** ** Bidirectional L2 rules *)

Section FlowTableFacts.
Variable config : Config.
Variable observed_flow_count : list dut_command -> Z.

Local Abbreviation l2_rules := (create_ovs_l2_of_rules config observed_flow_count).
Local Abbreviation bidirectional :=
  (create_ovs_bidirectional_l2_of_rules config observed_flow_count).

(** One installation whose expected total is not zero: it sends its
    commands and succeeds exactly when the count it reads back is the
    expected total. *)
Lemma create_ovs_l2_of_rules_verified
    (n in_port out_port : Z) (kwargs : L2Kwargs) (dut : list dut_command) :
  let total := default n (kw_total_number_of_flows kwargs) in
  let dut' := dut ++ installation config (default true (kw_clear_rules kwargs))
                                  (default false (kw_mac_swap kwargs))
                                  n in_port out_port in
  total <> 0 ->
  l2_rules n in_port out_port kwargs dut
  = if observed_flow_count dut' =? total then Return dut'
    else Raise (SystemExit (FlowCountMismatch n (observed_flow_count dut')) (-1)).
Proof.
  intros total dut' Htotal. subst total dut'.
  unfold create_ovs_l2_of_rules, installation, debug_dump, base_mac_of.
  destruct (Z.eqb_spec (default n (kw_total_number_of_flows kwargs)) 0) as [|_];
    [contradiction|]. cbn [negb].
  destruct (default true (kw_clear_rules kwargs));
    destruct (debug config || debug_dut_shell config);
    cbn [app]; rewrite <- ?app_assoc; cbn [app];
    match goal with
    | |- context [observed_flow_count ?t =? ?k] =>
        destruct (observed_flow_count t =? k)
    end; reflexivity.
Qed.

(** C5: for a flow count [n] other than zero, as every flow count of
    the script is (they come from the stream list, which [check_list]
    admits between 1 and 1,000,000 only), the bidirectional operation is
    two unidirectional installations with the ports swapped; the first
    flushes and verifies [n] rules, the second sends no flush and
    verifies [2 * n]: the operation succeeds exactly when the first count
    read back is [n] and the second is [2 * n], and any other count ends
    it with the flow-count error. *)
Theorem create_ovs_bidirectional_l2_of_rules_verified
    (n src_port dst_port : Z) (dut : list dut_command) :
  n <> 0 ->
  let first := installation config true false n src_port dst_port in
  let second := installation config false (mac_swap config) n dst_port src_port in
  ~ In FlushOvsFlows second /\
  bidirectional n src_port dst_port dut
  = if observed_flow_count (dut ++ first) =? n then
      if observed_flow_count ((dut ++ first) ++ second) =? 2 * n
      then Return ((dut ++ first) ++ second)
      else Raise (SystemExit
                    (FlowCountMismatch n (observed_flow_count ((dut ++ first) ++ second)))
                    (-1))
    else Raise (SystemExit (FlowCountMismatch n (observed_flow_count (dut ++ first))) (-1)).
Proof.
  intros Hn first second. split.
  - unfold second, installation, debug_dump.
    destruct (debug config || debug_dut_shell config); cbn; intuition discriminate.
  - unfold create_ovs_bidirectional_l2_of_rules.
    rewrite (create_ovs_l2_of_rules_verified n src_port dst_port no_kwargs dut)
      by (cbn; exact Hn).
    cbn [no_kwargs kw_clear_rules kw_mac_swap kw_total_number_of_flows default
         from_option id]. fold first.
    destruct (observed_flow_count (dut ++ first) =? n); [|reflexivity].
    cbn [mbind outcome_bind].
    rewrite create_ovs_l2_of_rules_verified by (cbn; lia).
    cbn [kw_clear_rules kw_mac_swap kw_total_number_of_flows default
         from_option id]. fold second.
    now replace (n * 2) with (2 * n) by lia.
Qed.
End FlowTableFacts.

(** The flow count 0, which the stream list never holds, is the value
    the guard [if total_nr_of_flows != 0] sets apart: no count is read
    back at all, whatever the table holds. *)
Lemma create_ovs_bidirectional_l2_of_rules_zero_flows :
  let config := mkConfig "br0" 0x020000000001 0x020000000002 false false false in
  create_ovs_bidirectional_l2_of_rules config (fun _ => 7) 0 1 2 []
  = Return [FlushOvsFlows; AddL2Flows 1 2 0x020000000000 0x020000000000;
            AddL2Flows 2 1 0x020000000000 0x020000000000]
  /\ 7 <> 2 * 0.
Proof.
  split; [vm_compute; reflexivity|lia].
Qed.

Lemma create_ovs_bidirectional_l2_of_rules_verified_witness :
  let config := mkConfig "br0" 0x020000000001 0x020000000002 false false false in
  let observed := fun dut : list dut_command =>
                    if Nat.leb (length dut) 3 then 100 else 199 in
  100 <> 0 /\
  create_ovs_bidirectional_l2_of_rules config observed 100 1 2 []
  = Raise (SystemExit (FlowCountMismatch 100 199) (-1)).
Proof.
  intros config observed. split; [lia|].
  destruct (create_ovs_bidirectional_l2_of_rules_verified
              config observed 100 1 2 [] ltac:(lia)) as [_ H].
  rewrite H. vm_compute. reflexivity.
Defined.

(** ** Stable sorting *)

Section StableSortFacts.
Context {A : Type}.
Variable leb : A -> A -> bool.

Lemma insert_sorted_Permutation (x : A) (l : list A) :
  insert_sorted leb x l ≡ₚ x :: l.
Proof.
  induction l as [|y l IH]; cbn [insert_sorted]; [reflexivity|].
  destruct (leb x y); [reflexivity|].
  rewrite IH. apply Permutation_swap.
Qed.

Lemma stable_sort_Permutation (l : list A) : stable_sort leb l ≡ₚ l.
Proof.
  induction l as [|x l IH]; cbn [stable_sort]; [reflexivity|].
  rewrite insert_sorted_Permutation. now rewrite IH.
Qed.

Lemma stable_sort_length (l : list A) : length (stable_sort leb l) = length l.
Proof. apply Permutation_length, stable_sort_Permutation. Qed.
End StableSortFacts.

Lemma slice_2_m2_length {A : Type} (l : list A) :
  length (slice_2_m2 l) = (length l - 4)%nat.
Proof.
  unfold slice_2_m2. rewrite length_drop, length_take. lia.
Qed.

(** ** Snapshots taken during a run *)

Lemma interior_timestamps_length (rx_stats : gmap Z Z) :
  length (interior_timestamps rx_stats) = (size rx_stats - 4)%nat.
Proof.
  unfold interior_timestamps, natsorted_Z.
  rewrite slice_2_m2_length, stable_sort_length, length_map, length_map_to_list.
  reflexivity.
Qed.

(** The loop of the average adds up the readings and counts them. *)
Lemma average_loop (rx_stats : gmap Z Z) (timestamps : list Z) (avg cnt : Z) :
  fold_left (fun '(avg, cnt) timestamp =>
               (avg + default 0 (rx_stats !! timestamp), cnt + 1))
            timestamps (avg, cnt)
  = (avg + foldr Z.add 0 (map (fun t => default 0 (rx_stats !! t)) timestamps),
     cnt + Z.of_nat (length timestamps)).
Proof.
  revert avg cnt. induction timestamps as [|t ts IH]; intros avg cnt.
  - cbn. f_equal; lia.
  - cbn [fold_left map foldr length]. rewrite IH. f_equal; lia.
Qed.

Lemma rx_stats_average (py : python_version) (rx_stats : gmap Z Z) :
  get_packets_per_second_from_traffic_generator_rx_stats py rx_stats
  = py_div py
      (foldr Z.add 0 (map (fun t => default 0 (rx_stats !! t))
                          (interior_timestamps rx_stats)))
      (Z.of_nat (length (interior_timestamps rx_stats))).
Proof.
  unfold get_packets_per_second_from_traffic_generator_rx_stats.
  rewrite average_loop. reflexivity.
Qed.

Section SamplingFacts.
Variable rx_pps_at : Z -> Z.
Variable snapshot_records_rx : bool.



End SamplingFacts.



(** ** Warm-up verification *)

Section WarmUpFacts.
Variable get_active_datapath_flows : nat -> Z.
Variables requested_flows timeout : Z.

Local Abbreviation loop := (warm_up_loop get_active_datapath_flows).
Local Abbreviation Inv :=
  (warm_up_invariant get_active_datapath_flows requested_flows timeout).

Lemma warm_up_invariant_init : Inv (mkWarmUpState 0 0 0).
Proof.
  repeat split; cbn; intros; lia.
Qed.

Lemma warm_up_invariant_step (st : WarmUpState) :
  Inv st -> active_flows st < requested_flows ->
  0 < requested_flows /\
  (forall k, (k < polls st)%nat -> get_active_datapath_flows k < requested_flows) /\
  (~ (timeout <> 0 /\ timeout <= run_time st + 1) ->
   Inv (mkWarmUpState (run_time st + 1)
                      (get_active_datapath_flows (polls st)) (S (polls st)))).
Proof.
  intros (Hrun & Hact & Hbelow & Hreq & Htime) Hlt.
  assert (0 < requested_flows) as Hpos.
  { destruct (polls st) eqn:E; [cbn in Hact; lia|apply Hreq; lia]. }
  assert (forall k, (k < polls st)%nat ->
                    get_active_datapath_flows k < requested_flows) as Hall.
  { intros k Hk. destruct (decide (S k = polls st)) as [E|NE].
    - rewrite <- E in Hact. cbn in Hact. lia.
    - apply Hbelow. lia. }
  repeat split; cbn; try assumption; try lia.
  - intros k Hk. apply Hall. lia.
Qed.

(** What a returned answer tells. *)
Lemma warm_up_loop_sound (fuel : nat) (st : WarmUpState) (b : bool) (st' : WarmUpState) :
  Inv st -> loop fuel requested_flows timeout st = Return (b, st') ->
  if b then
    requested_flows <= active_flows st' /\
    active_flows st' = last_observed get_active_datapath_flows (polls st') /\
    run_time st' = Z.of_nat (polls st')
  else
    timeout <> 0 /\ 0 < requested_flows /\
    run_time st' = Z.max 1 timeout /\
    run_time st' = Z.of_nat (polls st') + 1 /\
    (forall k, (k < polls st')%nat -> get_active_datapath_flows k < requested_flows).
Proof.
  revert st. induction fuel as [|fuel IH]; intros st HInv; cbn [warm_up_loop].
  - destruct (Z.ltb_spec (active_flows st) requested_flows); [discriminate|].
    intros [= <- <-]. destruct HInv as (? & ? & _). repeat split; assumption || lia.
  - destruct (Z.ltb_spec (active_flows st) requested_flows) as [Hlt|Hge].
    + destruct (warm_up_invariant_step st HInv Hlt) as (Hpos & Hall & Hnext).
      destruct (Z.eqb_spec timeout 0) as [H0|H0]; cbn [negb andb].
      * intros H. apply IH in H; [exact H|]. apply Hnext. lia.
      * destruct (Z.leb_spec timeout (run_time st + 1)) as [Hle|Hgt].
        -- intros [= <- <-]. destruct HInv as (Hrun & _ & _ & _ & Htime). cbn.
           specialize (Htime H0). repeat split; try assumption; lia.
        -- intros H. apply IH in H; [exact H|]. apply Hnext. lia.
    + intros [= <- <-]. destruct HInv as (? & ? & _). repeat split; assumption || lia.
Qed.

(** With a timeout other than 0 the loop ends within
    [max(1, timeout)] iterations. *)
Lemma warm_up_loop_bounded (fuel : nat) (st : WarmUpState) :
  timeout <> 0 -> run_time st < Z.max 1 timeout ->
  Z.max 1 timeout - run_time st <= Z.of_nat fuel ->
  exists b st', loop fuel requested_flows timeout st = Return (b, st').
Proof.
  intros H0. revert st. induction fuel as [|fuel IH]; intros st Hrun Hfuel;
    cbn [warm_up_loop].
  - destruct (active_flows st <? requested_flows); [|eauto].
    exfalso. lia.
  - destruct (active_flows st <? requested_flows); [|eauto].
    destruct (Z.eqb_spec timeout 0) as [|_]; [contradiction|]. cbn [negb andb].
    destruct (Z.leb_spec timeout (run_time st + 1)); [eauto|].
    apply IH; cbn; lia.
Qed.

(** Without a bound the loop goes on for as long as the count is short. *)
Lemma warm_up_loop_unbounded (fuel : nat) (st : WarmUpState) :
  timeout = 0 -> active_flows st < requested_flows ->
  (forall k, get_active_datapath_flows k < requested_flows) ->
  loop fuel requested_flows timeout st = OutOfFuel.
Proof.
  intros H0 Hst Hall. revert st Hst.
  induction fuel as [|fuel IH]; intros st Hst; cbn [warm_up_loop];
    destruct (Z.ltb_spec (active_flows st) requested_flows); try lia; [reflexivity|].
  destruct (Z.eqb_spec timeout 0); [|contradiction]. cbn [negb andb].
  apply IH. cbn. apply Hall.
Qed.

(** ... and ends with [True] once it is reached. *)
Lemma warm_up_loop_reaches (d : nat) (st : WarmUpState) :
  timeout = 0 ->
  requested_flows <= get_active_datapath_flows (polls st + d)%nat ->
  exists st', loop (S d) requested_flows timeout st = Return (true, st').
Proof.
  intros H0. revert st. induction d as [|d IH]; intros st Hd.
  - cbn [warm_up_loop].
    destruct (active_flows st <? requested_flows); [|eauto].
    destruct (Z.eqb_spec timeout 0); [|contradiction]. cbn [negb andb active_flows].
    rewrite Nat.add_0_r in Hd.
    destruct (Z.ltb_spec (get_active_datapath_flows (polls st)) requested_flows);
      [lia|eauto].
  - change (loop (S (S d)) requested_flows timeout st)
      with (if active_flows st <? requested_flows
            then
              if negb (timeout =? 0) && (timeout <=? run_time st + 1)
              then Return (false, mkWarmUpState (run_time st + 1)
                                                (active_flows st) (polls st))
              else loop (S d) requested_flows timeout
                     (mkWarmUpState (run_time st + 1)
                        (get_active_datapath_flows (polls st)) (S (polls st)))
            else Return (true, st)).
    destruct (active_flows st <? requested_flows); [|eauto].
    destruct (Z.eqb_spec timeout 0); [|contradiction]. cbn [negb andb].
    apply IH. cbn [polls]. now replace (S (polls st) + d)%nat with (polls st + S d)%nat by lia.
Qed.
End WarmUpFacts.

(** C10, as stated, fails: with the timeout -1, which is not positive,
    [warm_up_verify] returns [False] in its first iteration, before any
    poll. *)
Lemma warm_up_verify_negative_timeout :
  warm_up_verify (fun _ => 0) 5 1 (-1) = Return (false, mkWarmUpState 1 0 0)
  /\ ~ (0 < -1).
Proof.
  split; [reflexivity|lia].
Qed.

(** C10, amended: [warm_up_verify] returns [False] only when the timeout
    is not 0, some flow is requested, and [run_time], which counts the
    iterations and is one ahead of the polls, has reached
    [max(1, timeout)] with every poll below [requested_flows]; a negative
    timeout thus gives [False] before the first poll. With the timeout 0
    it can only return [True], and polls for as long as the count stays
    short. Whenever it returns [True] the count last read (0 when nothing
    was read) is at least [requested_flows]. *)
Theorem warm_up_verify_answers
    (get_active_datapath_flows : nat -> Z) (requested_flows timeout : Z)
    (fuel : nat) (b : bool) (st : WarmUpState) :
  warm_up_verify get_active_datapath_flows fuel requested_flows timeout = Return (b, st) ->
  (b = false ->
   timeout <> 0 /\ 0 < requested_flows /\
   run_time st = Z.max 1 timeout /\
   Z.of_nat (polls st) = run_time st - 1 /\
   (forall k, (k < polls st)%nat -> get_active_datapath_flows k < requested_flows)) /\
  (timeout = 0 -> b = true) /\
  (b = true ->
   requested_flows <= active_flows st /\
   active_flows st = last_observed get_active_datapath_flows (polls st)) /\
  (timeout = 0 ->
   (forall k, get_active_datapath_flows k < requested_flows) -> 0 < requested_flows ->
   forall fuel', warm_up_verify get_active_datapath_flows fuel' requested_flows timeout
                 = OutOfFuel) /\
  (timeout = 0 ->
   forall k, requested_flows <= get_active_datapath_flows k ->
   exists st', warm_up_verify get_active_datapath_flows (S k) requested_flows timeout
               = Return (true, st')).
Proof.
  intros H. unfold warm_up_verify in *.
  pose proof (warm_up_loop_sound _ _ _ _ _ _ _ (warm_up_invariant_init _ _ _) H) as Hs.
  split; [|split; [|split; [|split]]].
  - intros ->. destruct Hs as (? & ? & ? & ? & ?).
    repeat (split; [assumption || lia|]). assumption.
  - intros H0. destruct b; [reflexivity|]. destruct Hs as (? & _). contradiction.
  - intros ->. split; apply Hs.
  - intros H0 Hall Hpos fuel'. now apply warm_up_loop_unbounded.
  - intros H0 k Hk. now apply warm_up_loop_reaches.
Qed.

Lemma warm_up_verify_answers_witness :
  let polled := fun k : nat => Z.of_nat k in
  let st := mkWarmUpState 3 1 2 in
  warm_up_verify polled 5 10 3 = Return (false, st) /\
  3 <> 0 /\ 0 < 10 /\
  run_time st = Z.max 1 3 /\
  Z.of_nat (polls st) = run_time st - 1 /\
  (forall k, (k < polls st)%nat -> polled k < 10).
Proof.
  intros polled st. split; [reflexivity|].
  apply (warm_up_verify_answers polled 10 3 5 false st); reflexivity.
Defined.

Lemma warm_up_verify_returns
    (get_active_datapath_flows : nat -> Z) (requested_flows timeout : Z) :
  timeout <> 0 ->
  exists b st,
    warm_up_verify get_active_datapath_flows (Z.to_nat (Z.max 1 timeout))
                   requested_flows timeout = Return (b, st).
Proof.
  intros H0. apply warm_up_loop_bounded; cbn; lia.
Qed.

(** ** Natural order of text keys *)

Section SortedByKey.
Context {A : Type}.
Variable g : A -> N.

Local Abbreviation by_key := (fun a b : A => (g a <=? g b)%N).
Local Abbreviation key_le := (fun a b : A => (g a <= g b)%N).


End SortedByKey.







(** ** Result series *)



Lemma dict_get_In {V : Type} (d : list (string * V)) (k : string) :
  In k (map fst d) -> exists v, dict_get d k = Return v /\ In (k, v) d.
Proof.
  induction d as [|[k' v] d IH]; cbn [map fst In dict_get]; [contradiction|].
  intros Hin. destruct (String.eqb_spec k k') as [->|Hne].
  - exists v. split; [reflexivity|now left].
  - destruct Hin as [->|Hin]; [contradiction|].
    destruct (IH Hin) as (v' & Hv & Hin'). exists v'. split; [exact Hv|now right].
Qed.

Lemma append_series_returns (per_pkt_results : list (string * RunResult))
    (pkt_sizes : list string) :
  Forall (fun kr => total_tx_pkts kr.2 <> 0) per_pkt_results ->
  Forall (fun k => In k (map fst per_pkt_results)) pkt_sizes ->
  exists series, append_series per_pkt_results pkt_sizes = Return series.
Proof.
  intros Htx. induction 1 as [|k ks Hk _ IH]; cbn [append_series]; [eauto|].
  destruct (dict_get_In _ _ Hk) as (r & -> & Hin). cbn [mbind outcome_bind].
  rewrite Forall_forall in Htx. specialize (Htx _ (proj2 (list_elem_of_In _ _) Hin)).
  cbn in Htx. unfold calc_loss_percentage.
  destruct (Z.eqb_spec (total_tx_pkts r) 0); [contradiction|].
  cbn [mbind outcome_bind].
  destruct IH as ([[[rx cpu] rate] losses] & ->). cbn. eauto.
Qed.

(** The function returns whenever every stored run sent some packet. *)
Lemma get_result_sets_from_zero_loss_results_returns
    (results : list (Z * list (string * RunResult))) :
  Forall (fun fr => Forall (fun kr => total_tx_pkts kr.2 <> 0) fr.2) results ->
  exists sets, get_result_sets_from_zero_loss_results results = Return sets.
Proof.
  induction 1 as [|[nf per] results Hper _ IH];
    cbn [get_result_sets_from_zero_loss_results]; [eauto|].
  destruct (append_series_returns per (natsorted (map fst per)) Hper)
    as ([[[rx cpu] rate] losses] & ->).
  { rewrite Forall_forall. intros k Hk.
    apply list_elem_of_In. unfold natsorted in Hk.
    now rewrite stable_sort_Permutation in Hk. }
  cbn [mbind outcome_bind]. destruct IH as (sets & ->). cbn. eauto.
Qed.


(** The packet sizes 128, 64, 1514 and 256 as text keys: natural order
    against the order of the code points. *)
Example natsorted_packet_sizes :
  natsorted ["128"; "64"; "1514"; "256"]%string = ["64"; "128"; "256"; "1514"]%string /\
  lexically_sorted ["128"; "64"; "1514"; "256"]%string
  = ["128"; "1514"; "256"; "64"]%string.
Proof.
  split; reflexivity.
Qed.


(** ** The candidate ladder *)

Lemma item_lookup (values : list Z) (i : Z) :
  0 <= i < Z.of_nat (length values) ->
  values !! Z.to_nat i = Some (item values i).
Proof.
  intros Hi. unfold item.
  destruct (values !! Z.to_nat i) eqn:E.
  - f_equal. symmetry. now apply nth_lookup_Some with (d := 0) in E.
  - apply lookup_ge_None in E. lia.
Qed.

Lemma item_elem_of (values : list Z) (i : Z) :
  0 <= i < Z.of_nat (length values) -> item values i ∈ values.
Proof.
  intros Hi. eapply list_elem_of_lookup_2, item_lookup, Hi.
Qed.

Lemma elem_of_item (values : list Z) (v : Z) :
  v ∈ values -> exists i, 0 <= i < Z.of_nat (length values) /\ v = item values i.
Proof.
  intros [k Hk]%list_elem_of_lookup_1.
  pose proof (lookup_lt_Some _ _ _ Hk) as Hlt.
  exists (Z.of_nat k). split; [lia|].
  pose proof (item_lookup values (Z.of_nat k) ltac:(lia)) as H.
  rewrite Nat2Z.id in H. congruence.
Qed.

Lemma item_inj (values : list Z) (i j : Z) :
  NoDup values ->
  0 <= i < Z.of_nat (length values) -> 0 <= j < Z.of_nat (length values) ->
  item values i = item values j -> i = j.
Proof.
  intros Hnd Hi Hj E.
  pose proof (item_lookup values i Hi) as H1.
  pose proof (item_lookup values j Hj) as H2.
  rewrite E in H1.
  pose proof (NoDup_lookup _ _ _ _ Hnd H1 H2). lia.
Qed.

(** The number of candidates: the [k >= 0] with
    [start + k * step] short of [stop]. *)
Lemma arange_count (d step k : Z) :
  step < 0 -> 0 <= k ->
  (k < - (- d / step) <-> d < k * step).
Proof.
  intros Hstep Hk.
  pose proof (Z.div_mod (- d) step ltac:(lia)) as Hdm.
  pose proof (Z.mod_neg_bound (- d) step Hstep) as Hb.
  split; intros H; nia.
Qed.

(** *** The type of the array *)

Lemma is_int64_spec (x : Z) : is_int64 x = true <-> int64 x.
Proof.
  unfold is_int64, int64. rewrite andb_true_iff, Z.leb_le, Z.ltb_lt. reflexivity.
Qed.


(** A negative integer never needs [uint64]: with bounds inside [int64]
    and a positive step the ladder is an [int64] array, or an array of
    Python integers when the step is beyond [int64]. *)
Lemma ladder_dtype_positive_step (min_value max_value step : Z) :
  int64 min_value -> int64 max_value -> 0 < step ->
  ladder_dtype min_value max_value step <> NpFloat64.
Proof.
  intros Hmin Hmax Hstep. unfold ladder_dtype, arange_dtype.
  assert (int64 (min_value - Z.min min_value step)) as Hstop
    by (unfold int64 in *; lia).
  rewrite (proj2 (is_int64_spec _) Hmax), (proj2 (is_int64_spec _) Hstop).
  cbn [andb forallb orb].
  destruct (is_int64 (- step)); [discriminate|].
  assert (is_uint64 (- step) = false) as ->.
  { unfold is_uint64. destruct (Z.leb_spec (2 ^ 63) (- step)); [lia|reflexivity]. }
  cbn [orb andb]. rewrite !andb_false_r. discriminate.
Qed.

Lemma int64_1 : int64 1.
Proof. unfold int64. lia. Qed.

Lemma int64_100 : int64 100.
Proof. unfold int64. lia. Qed.

(** *** The ladder *)

Lemma np_arange_spec (start stop step : Z) :
  step <> 0 -> arange_dtype start stop step <> NpFloat64 ->
  exists n : nat,
    np_arange start stop step
    = Return (map (fun i : nat => start + Z.of_nat i * step) (seq 0 n)) /\
    Z.of_nat n = Z.max 0 (- (- (stop - start) / step)).
Proof.
  intros Hstep Hdtype. unfold np_arange.
  destruct (Z.eqb_spec step 0); [contradiction|].
  eexists. split; [|apply Z2Nat.id; lia].
  destruct (arange_dtype start stop step); [reflexivity|contradiction|reflexivity].
Qed.

Lemma candidate_ladder_shape (min_value max_value step : Z) :
  step <> 0 -> ladder_dtype min_value max_value step <> NpFloat64 ->
  exists n : nat,
    candidate_ladder min_value max_value step
    = Return (rev (map (fun i : nat => max_value + Z.of_nat i * - step) (seq 0 n))) /\
    Z.of_nat n
    = Z.max 0 (- (- (min_value - Z.min min_value step - max_value) / - step)).
Proof.
  intros Hstep Hdtype. unfold candidate_ladder.
  destruct (np_arange_spec max_value (min_value - Z.min min_value step) (- step))
    as (n & -> & Hn); [lia|exact Hdtype|].
  exists n. split; [reflexivity|exact Hn].
Qed.

(** Whatever the type of the array, a step other than 0 gives a ladder,
    of the same length. *)
Lemma candidate_ladder_returns (min_value max_value step : Z) :
  step <> 0 ->
  exists values, candidate_ladder min_value max_value step = Return values.
Proof.
  intros Hstep. unfold candidate_ladder, np_arange.
  destruct (Z.eqb_spec (- step) 0); [lia|]. cbn [mbind outcome_bind]. eauto.
Qed.

Lemma candidate_ladder_zero_step (min_value max_value : Z) :
  candidate_ladder min_value max_value 0 = Raise ZeroDivisionError.
Proof. reflexivity. Qed.

Lemma rev_map_seq_length (g : nat -> Z) (n : nat) :
  length (rev (map g (seq 0 n))) = n.
Proof. now rewrite length_rev, length_map, length_seq. Qed.

Lemma rev_map_seq_item (g : nat -> Z) (n : nat) (i : Z) :
  0 <= i < Z.of_nat n ->
  item (rev (map g (seq 0 n))) i = g (n - 1 - Z.to_nat i)%nat.
Proof.
  intros Hi. unfold item.
  rewrite rev_nth by (rewrite length_map, length_seq; lia).
  rewrite length_map, length_seq.
  rewrite (nth_indep _ 0 (g 0%nat)) by (rewrite length_map, length_seq; lia).
  rewrite map_nth, seq_nth by lia. f_equal. lia.
Qed.

(** Unless numpy rounds it to [float64], the ladder of a step other than
    0 names no load twice. *)
Lemma candidate_ladder_NoDup (min_value max_value step : Z) (values : list Z) :
  ladder_dtype min_value max_value step <> NpFloat64 ->
  candidate_ladder min_value max_value step = Return values -> NoDup values.
Proof.
  intros Hdtype.
  destruct (Z.eq_dec step 0) as [->|Hstep]; [discriminate|].
  destruct (candidate_ladder_shape min_value max_value step Hstep Hdtype)
    as (n & -> & _).
  intros [= <-]. apply NoDup_ListNoDup, List.NoDup_rev, NoDup_ListNoDup.
  apply NoDup_fmap_2; [|apply NoDup_seq].
  intros i j H. nia.
Qed.

(** For a positive step the ladder is [max - k * step] for the [k >= 0]
    that keep it above [min - min(min, step)], lowest load first. *)
Lemma candidate_ladder_positive_step (min_value max_value step : Z) :
  int64 min_value -> int64 max_value -> 0 < step ->
  exists values,
    candidate_ladder min_value max_value step = Return values /\
    (forall i, 0 <= i < Z.of_nat (length values) ->
               item values i = max_value - (Z.of_nat (length values) - 1 - i) * step) /\
    (forall k, 0 <= k ->
               (k < Z.of_nat (length values)
                <-> min_value - Z.min min_value step < max_value - k * step)).
Proof.
  intros Hmin Hmax Hstep.
  destruct (candidate_ladder_shape min_value max_value step ltac:(lia)
              (ladder_dtype_positive_step _ _ _ Hmin Hmax Hstep)) as (n & -> & Hn).
  eexists. split; [reflexivity|]. rewrite rev_map_seq_length. split.
  - intros i Hi. rewrite rev_map_seq_item by exact Hi. nia.
  - intros k Hk.
    pose proof (arange_count (min_value - Z.min min_value step - max_value)
                             (- step) k ltac:(lia) Hk) as Hc.
    rewrite Hn. split; intros H.
    + assert (k < - (- (min_value - Z.min min_value step - max_value) / - step))
        as H' by lia.
      apply Hc in H'. lia.
    + assert (min_value - Z.min min_value step - max_value < k * - step) as H' by lia.
      apply Hc in H'. lia.
Qed.

(** ** The narrowing loop *)

Section BinarySearchFacts.
Context {Result : Type}.
Variable run_test_function : list Z -> Z -> Result.
Variable get_results_function : gmap Z Result -> Z -> Q.
Variable values : list Z.
Variable required_result : Q.

Local Abbreviation State := (SearchState Result).
Local Abbreviation store := (run_and_store run_test_function).
Local Abbreviation loop :=
  (narrow run_test_function get_results_function values required_result).
Local Abbreviation n := (Z.of_nat (length values)).

Lemma midpoint_inside (lo hi : Z) :
  lo < hi - 1 -> lo < lo + (hi - lo) / 2 < hi.
Proof.
  intros H. pose proof (Z.div_mod (hi - lo) 2 ltac:(lia)).
  pose proof (Z.mod_pos_bound (hi - lo) 2 ltac:(lia)). lia.
Qed.

(** A property of bracket and state that both ways of narrowing keep
    holds when the loop ends, and the loop does end, with
    [current_max = current_min + 1]. *)
Lemma narrow_invariant (P : Z -> Z -> State -> Prop) :
  (forall lo hi st,
      P lo hi st -> lo < hi - 1 ->
      let mid := lo + (hi - lo) / 2 in
      let st' := store st (item values mid) in
      if Qgt_bool (get_results_function (results st') (item values mid))
                  required_result
      then P lo mid st' else P mid hi st') ->
  forall (fuel : nat) (lo hi : Z) (st : State),
    P lo hi st -> lo < hi -> hi - lo <= Z.of_nat fuel + 1 ->
    exists lo' st',
      loop fuel lo hi st = Return (lo', lo' + 1, st') /\ P lo' (lo' + 1) st'.
Proof.
  intros Hstep. induction fuel as [|fuel IH]; intros lo hi st HP Hlt Hfuel;
    cbn [narrow].
  - destruct (Z.eqb_spec lo (hi - 1)) as [E|NE]; [|lia].
    exists lo, st. replace (lo + 1) with hi by lia. split; [reflexivity|exact HP].
  - destruct (Z.eqb_spec lo (hi - 1)) as [E|NE].
    + exists lo, st. replace (lo + 1) with hi by lia. split; [reflexivity|exact HP].
    + assert (lo < hi - 1) as Hgap by lia.
      pose proof (midpoint_inside lo hi Hgap) as Hmid.
      specialize (Hstep lo hi st HP Hgap). cbn zeta in Hstep.
      destruct (Qgt_bool _ _); apply IH; try exact Hstep; lia.
Qed.

(** *** One result per load *)

Lemma memoized_empty : memoized run_test_function empty_state.
Proof.
  split; [constructor|]. split.
  - intros i v H. discriminate H.
  - intros v [r H]. cbn in H. rewrite lookup_empty in H. discriminate H.
Qed.

Lemma memoized_called (st : State) (v : Z) :
  memoized run_test_function st -> v ∈ calls st ->
  exists earlier, results st !! v = Some (run_test_function earlier v).
Proof.
  intros (_ & Hres & _) [i Hi]%list_elem_of_lookup_1. eauto.
Qed.

Lemma memoized_store (st : State) (v : Z) :
  memoized run_test_function st -> v ∉ calls st ->
  memoized run_test_function (store st v).
Proof.
  intros (Hnd & Hres & Hdom) Hv. unfold run_and_store. split; [|split]; cbn.
  - apply NoDup_app. split; [exact Hnd|]. split; [|apply NoDup_singleton].
    intros x Hx ->%list_elem_of_singleton. contradiction.
  - intros i w Hi.
    destruct (decide (i < length (calls st))%nat) as [Hlt|Hge].
    + rewrite lookup_app_l in Hi by exact Hlt.
      rewrite take_app_le by lia.
      assert (w <> v) as Hne.
      { intros ->. apply Hv. eapply list_elem_of_lookup_2, Hi. }
      rewrite lookup_insert_ne by congruence. now apply Hres.
    + rewrite lookup_app_r in Hi by lia.
      destruct (i - length (calls st))%nat as [|k] eqn:Ek; [|discriminate Hi].
      injection Hi as <-.
      rewrite take_app_le by lia. rewrite take_ge by lia.
      apply lookup_insert_eq.
  - intros w Hw. apply lookup_insert_is_Some in Hw as [<-|[_ Hw]].
    + apply elem_of_app. right. now apply list_elem_of_singleton.
    + apply elem_of_app. left. now apply Hdom.
Qed.

Lemma run_if_missing_calls (st : State) (v : Z) :
  memoized run_test_function st ->
  let st' := run_if_missing run_test_function st v in
  memoized run_test_function st' /\
  v ∈ calls st' /\
  (exists earlier, results st' !! v = Some (run_test_function earlier v)) /\
  (forall w, w ∈ calls st' <-> w ∈ calls st \/ w = v) /\
  calls st `prefix_of` calls st'.
Proof.
  intros Hmemo st'. subst st'. unfold run_if_missing.
  destruct (decide (is_Some (results st !! v))) as [Hin|Hout].
  - assert (v ∈ calls st) as Hv by now apply Hmemo.
    split; [exact Hmemo|]. split; [exact Hv|].
    split; [now apply memoized_called|]. split; [|reflexivity].
    intros w. split; [tauto|]. now intros [?| ->].
  - assert (v ∉ calls st) as Hv.
    { intros Hv. apply Hout. destruct (memoized_called st v Hmemo Hv) as (e & ->).
      eauto. }
    split; [now apply memoized_store|]. cbn.
    split; [apply elem_of_app; right; now apply list_elem_of_singleton|].
    split; [exists (calls st); apply lookup_insert_eq|].
    split; [|now apply prefix_app_r].
    intros w. rewrite elem_of_app, list_elem_of_singleton. tauto.
Qed.

(** *** The bracket *)

Variables below above : Z -> Prop.

Local Abbreviation Inv :=
  (bracket_invariant run_test_function below above values).

Local Abbreviation judged :=
  (judged_by run_test_function get_results_function required_result below above).

Lemma bracket_step (lo hi : Z) (st : State) :
  NoDup values -> judged ->
  Inv lo hi st -> lo < hi - 1 ->
  (let mid := lo + (hi - lo) / 2 in
   let st' := store st (item values mid) in
   (item values mid ∉ calls st) /\
   (if Qgt_bool (get_results_function (results st') (item values mid)) required_result
    then Inv lo mid st' else Inv mid hi st')).
Proof.
  intros Hnd Hjudge (Hlo & Hlt & Hhi & Hmemo & Hout & Hmin & Hmax) Hgap mid st'.
  pose proof (midpoint_inside lo hi Hgap) as Hmid. fold mid in Hmid.
  assert (item values mid ∉ calls st) as Hfresh.
  { intros Hin. destruct (Hout _ Hin) as (i & Hi & E & Hside).
    apply item_inj in E; [|exact Hnd|lia|exact Hi]. lia. }
  split; [exact Hfresh|].
  specialize (Hjudge st (item values mid) Hmemo Hfresh).
  pose proof (memoized_store st _ Hmemo Hfresh) as Hmemo'.
  assert (forall v, v ∈ calls st' <-> v ∈ calls st \/ v = item values mid) as Hcalls.
  { intros v. cbn. rewrite elem_of_app, list_elem_of_singleton. tauto. }
  subst st'.
  destruct (Qgt_bool _ _);
    (split; [lia|]); (split; [lia|]); (split; [lia|]);
    (split; [exact Hmemo'|]); (split; [|split]).
  - intros v [Hv| ->]%Hcalls.
    + destruct (Hout v Hv) as (i & Hi & E & [[? ?]|[? ?]]);
        exists i; (split; [exact Hi|]); (split; [exact E|]); [left|right];
        split; (assumption || lia).
    + exists mid. split; [lia|]. split; [reflexivity|]. right. split; [lia|assumption].
  - destruct Hmin as [?|?]; [now left|right]. apply Hcalls. now left.
  - right. apply Hcalls. now right.
  - intros v [Hv| ->]%Hcalls.
    + destruct (Hout v Hv) as (i & Hi & E & [[? ?]|[? ?]]);
        exists i; (split; [exact Hi|]); (split; [exact E|]); [left|right];
        split; (assumption || lia).
    + exists mid. split; [lia|]. split; [reflexivity|]. left. split; [lia|assumption].
  - right. apply Hcalls. now right.
  - destruct Hmax as [?|?]; [now left|right]. apply Hcalls. now left.
Qed.

(** The loop of [binary_search] ends, on two neighbouring indices. *)
Lemma narrow_from_start :
  NoDup values -> judged -> 2 <= n ->
  exists lo st,
    loop (length values) 0 (n - 1) empty_state = Return (lo, lo + 1, st) /\
    Inv lo (lo + 1) st.
Proof.
  intros Hnd Hjudge Hn.
  apply (narrow_invariant Inv).
  - intros lo hi st HInv Hgap. now apply bracket_step.
  - split; [lia|]. split; [lia|]. split; [lia|]. split; [apply memoized_empty|].
    split; [|split; now left].
    intros v Hv. cbn in Hv. now apply elem_of_nil in Hv.
  - lia.
  - lia.
Qed.

(** The code after the loop runs no load a second time either, and
    only loads of the ladder are ever run. *)
Lemma finish_memoized (lo hi : Z) (st : State) :
  Inv lo hi st ->
  let '(st', index) :=
    finish run_test_function get_results_function values required_result lo hi st in
  memoized run_test_function st' /\
  calls st `prefix_of` calls st' /\
  (forall v, v ∈ calls st' -> v ∈ values).
Proof.
  intros (Hlo & Hlt & Hhi & Hmemo & Hout & _). unfold finish.
  assert (forall v, v ∈ calls st -> v ∈ values) as Hin.
  { intros v Hv. destruct (Hout v Hv) as (i & Hi & -> & _). now apply item_elem_of. }
  destruct (run_if_missing_calls st (item values hi) Hmemo)
    as (Hmemo1 & _ & _ & Hcalls1 & Hpre1).
  destruct (run_if_missing_calls _ (item values lo) Hmemo1)
    as (Hmemo2 & _ & _ & Hcalls2 & Hpre2).
  assert (item values hi ∈ values) as Hvhi by (apply item_elem_of; lia).
  assert (item values lo ∈ values) as Hvlo by (apply item_elem_of; lia).
  destruct (Qle_bool _ _).
  - split; [exact Hmemo1|]. split; [exact Hpre1|].
    intros v [?| ->]%Hcalls1; auto.
  - assert (forall v, v ∈ calls (run_if_missing run_test_function
                                   (run_if_missing run_test_function st (item values hi))
                                   (item values lo)) -> v ∈ values) as Hin2.
    { intros v [[?| ->]%Hcalls1| ->]%Hcalls2; auto. }
    destruct (Qle_bool _ _); (split; [exact Hmemo2|]);
      (split; [now transitivity
                     (calls (run_if_missing run_test_function st (item values hi)))|]);
      exact Hin2.
Qed.
End BinarySearchFacts.

(** ** binary_search: each load is run at most once *)

Lemma binary_search_zero_step {Result : Type}
    (run_test_function : list Z -> Z -> Result)
    (get_results_function : gmap Z Result -> Z -> Q)
    (min_value max_value : Z) (required_result : Q) :
  binary_search run_test_function get_results_function
                min_value max_value required_result 0
  = Raise ZeroDivisionError.
Proof. reflexivity. Qed.




(** ** binary_search: the ladder and the short cases *)

Lemma candidate_ladder_ascending (min_value max_value step : Z) (values : list Z) :
  int64 min_value -> int64 max_value -> 0 < step ->
  candidate_ladder min_value max_value step = Return values ->
  forall i j, 0 <= i -> i < j -> j < Z.of_nat (length values) ->
              item values i < item values j.
Proof.
  intros Hmin Hmax Hstep Hladder i j Hi Hij Hj.
  destruct (candidate_ladder_positive_step min_value max_value step Hmin Hmax Hstep)
    as (values' & Hladder' & Hitem & _).
  rewrite Hladder in Hladder'. injection Hladder' as <-.
  rewrite !Hitem by lia. nia.
Qed.

(** No candidate is zero or negative: -1 is no load. *)
Lemma candidate_ladder_above_zero (min_value max_value step : Z) (values : list Z) :
  int64 min_value -> int64 max_value -> 0 < step ->
  candidate_ladder min_value max_value step = Return values ->
  forall v, v ∈ values -> 0 < v.
Proof.
  intros Hmin Hmax Hstep Hladder v (i & Hi & ->)%elem_of_item.
  destruct (candidate_ladder_positive_step min_value max_value step Hmin Hmax Hstep)
    as (values' & Hladder' & Hitem & Hcount).
  rewrite Hladder in Hladder'. injection Hladder' as <-.
  rewrite Hitem by exact Hi.
  pose proof (proj1 (Hcount (Z.of_nat (length values) - 1 - i) ltac:(lia)) ltac:(lia)).
  lia.
Qed.




(** ** binary_search against a loss metric *)

Section ZeroLoss.
Context {Result : Type}.
Variable run_test_function : list Z -> Z -> Result.
Variable get_results_function : gmap Z Result -> Z -> Q.
Variable values : list Z.
Variable required_result : Q.

(** The loss the metric reads from the stored result of a load. *)
Variable f : Z -> Q.
Hypothesis metric :
  forall (m : gmap Z Result) (earlier : list Z) (v : Z),
    m !! v = Some (run_test_function earlier v) -> get_results_function m v = f v.

Hypothesis ascending :
  forall i j, 0 <= i -> i < j -> j < Z.of_nat (length values) ->
              item values i < item values j.

Local Abbreviation n := (Z.of_nat (length values)).
Local Abbreviation passes := (fun v : Z => (f v <= required_result)%Q).
Local Abbreviation fails := (fun v : Z => (required_result < f v)%Q).
Local Abbreviation Inv := (bracket_invariant run_test_function passes fails values).
Local Abbreviation missing := (run_if_missing run_test_function).

Lemma ascending_le (i j : Z) :
  0 <= i -> i <= j -> j < n -> item values i <= item values j.
Proof.
  intros Hi Hij Hj. destruct (Z.eq_dec i j) as [->|Hne]; [lia|].
  apply Z.lt_le_incl, ascending; lia.
Qed.

Lemma ascending_lt_inv (i j : Z) :
  0 <= i < n -> 0 <= j < n -> item values i < item values j -> i < j.
Proof.
  intros Hi Hj Hlt. destruct (Z.lt_ge_cases i j) as [?|Hge]; [assumption|].
  pose proof (ascending_le j i ltac:(lia) ltac:(lia) ltac:(lia)). lia.
Qed.

Lemma ascending_NoDup : NoDup values.
Proof.
  apply NoDup_alt. intros i j x Hi Hj.
  pose proof (lookup_lt_Some _ _ _ Hi) as Hi'.
  pose proof (lookup_lt_Some _ _ _ Hj) as Hj'.
  pose proof (item_lookup values (Z.of_nat i) ltac:(lia)) as Ei.
  pose proof (item_lookup values (Z.of_nat j) ltac:(lia)) as Ej.
  rewrite Nat2Z.id in Ei, Ej.
  assert (item values (Z.of_nat i) = item values (Z.of_nat j)) as E by congruence.
  destruct (Z.lt_trichotomy (Z.of_nat i) (Z.of_nat j)) as [H|[H|H]]; [|lia|].
  - pose proof (ascending (Z.of_nat i) (Z.of_nat j) ltac:(lia) H ltac:(lia)). lia.
  - pose proof (ascending (Z.of_nat j) (Z.of_nat i) ltac:(lia) H ltac:(lia)). lia.
Qed.

Lemma judged_metric :
  judged_by run_test_function get_results_function required_result passes fails.
Proof.
  intros st v _ _.
  rewrite (metric _ (calls st) v) by apply lookup_insert_eq.
  destruct (Qgt_bool (f v) required_result) eqn:E.
  - now apply Qgt_bool_true.
  - now apply Qgt_bool_false.
Qed.

Lemma narrow_metric :
  2 <= n ->
  exists lo st,
    narrow run_test_function get_results_function values required_result
           (length values) 0 (n - 1) empty_state = Return (lo, lo + 1, st) /\
    Inv lo (lo + 1) st.
Proof.
  intros Hn. apply narrow_from_start; [apply ascending_NoDup|apply judged_metric|exact Hn].
Qed.

(** The comparison after the loop reads the loss of the load. *)
Lemma missing_metric (st : SearchState Result) (v : Z) :
  memoized run_test_function st ->
  Qle_bool (get_results_function (results (missing st v)) v) required_result
  = Qle_bool (f v) required_result.
Proof.
  intros Hmemo.
  destruct (run_if_missing_calls run_test_function st v Hmemo)
    as (_ & _ & (earlier & Hres) & _).
  now rewrite (metric _ earlier v Hres).
Qed.

Lemma Qle_bool_false (a b : Q) : Qle_bool a b = false -> (b < a)%Q.
Proof.
  intros H. apply Qgt_bool_true. unfold Qgt_bool. now rewrite H.
Qed.

Hypothesis monotone :
  forall a b, a ∈ values -> b ∈ values -> a <= b -> (f a <= f b)%Q.

(** The verdict after the loop: the upper load if it passes; else the
    lower load if it passes; else -1. Whichever it is, no load of the
    ladder above the one returned passes, and with -1 none passes. *)
Lemma finish_highest (lo : Z) (st : SearchState Result) :
  Inv lo (lo + 1) st ->
  let vhi := item values (lo + 1) in
  let vlo := item values lo in
  let '(st', index) :=
    finish run_test_function get_results_function values required_result
           lo (lo + 1) st in
  ((f vhi <= required_result)%Q -> index = vhi /\ st' = missing st vhi) /\
  ((required_result < f vhi)%Q ->
   st' = missing (missing st vhi) vlo /\
   ((index = vlo /\ (f vlo <= required_result)%Q) \/
    (index = -1 /\ (required_result < f vlo)%Q))) /\
  ((index = -1 /\ forall v, v ∈ values -> (required_result < f v)%Q) \/
   (index ∈ values /\ index ∈ calls st' /\ (f index <= required_result)%Q /\
    forall v, v ∈ values -> index < v -> (required_result < f v)%Q)).
Proof.
  intros (Hlo & _ & Hhi & Hmemo & Hout & Hmin & Hmax) vhi vlo.
  pose proof ascending_NoDup as Hnd.
  assert (vhi ∈ values) as Hvhi by (apply item_elem_of; lia).
  assert (vlo ∈ values) as Hvlo by (apply item_elem_of; lia).
  assert (vhi ∈ calls st -> (required_result < f vhi)%Q) as Hhifail.
  { intros Hin. destruct (Hout _ Hin) as (i & Hi & E & [[Hle _]|[_ Hf]]); [|exact Hf].
    apply item_inj in E; [lia|exact Hnd|lia|exact Hi]. }
  assert (vlo ∈ calls st -> (f vlo <= required_result)%Q) as Hlopass.
  { intros Hin. destruct (Hout _ Hin) as (i & Hi & E & [[_ Hp]|[Hge _]]); [exact Hp|].
    apply item_inj in E; [lia|exact Hnd|lia|exact Hi]. }
  destruct (run_if_missing_calls run_test_function st vhi Hmemo)
    as (Hmemo1 & Hin1 & _ & Hcalls1 & _).
  destruct (run_if_missing_calls run_test_function _ vlo Hmemo1)
    as (Hmemo2 & Hin2 & _ & Hcalls2 & _).
  unfold finish. fold vhi vlo.
  rewrite (missing_metric st vhi Hmemo).
  destruct (Qle_bool (f vhi) required_result) eqn:Ehi.
  - apply Qle_bool_iff in Ehi.
    split; [intros _; split; reflexivity|]. split.
    { intros Hf. exfalso. exact (Qlt_not_le _ _ Hf Ehi). }
    right. split; [exact Hvhi|]. split; [exact Hin1|]. split; [exact Ehi|].
    assert (lo + 1 = n - 1) as Etop.
    { destruct Hmax as [?|Hin]; [assumption|].
      exfalso. exact (Qlt_not_le _ _ (Hhifail Hin) Ehi). }
    intros v (j & Hj & ->)%elem_of_item Hlt.
    apply ascending_lt_inv in Hlt; lia.
  - apply Qle_bool_false in Ehi.
    rewrite (missing_metric _ vlo Hmemo1).
    destruct (Qle_bool (f vlo) required_result) eqn:Elo;
      (split; [intros Hp; exfalso; exact (Qlt_not_le _ _ Ehi Hp)|]).
    + apply Qle_bool_iff in Elo.
      split; [intros _; split; [reflexivity|left; now split]|].
      right. split; [exact Hvlo|]. split; [exact Hin2|]. split; [exact Elo|].
      intros v (j & Hj & ->)%elem_of_item Hlt.
      apply ascending_lt_inv in Hlt; [|lia|exact Hj].
      eapply Qlt_le_trans; [exact Ehi|].
      apply monotone; [exact Hvhi|apply item_elem_of; lia|].
      apply ascending_le; lia.
    + apply Qle_bool_false in Elo.
      split; [intros _; split; [reflexivity|right; now split]|].
      left. split; [reflexivity|].
      assert (lo = 0) as ->.
      { destruct Hmin as [?|Hin]; [assumption|].
        exfalso. exact (Qlt_not_le _ _ Elo (Hlopass Hin)). }
      intros v (j & Hj & ->)%elem_of_item.
      eapply Qlt_le_trans; [exact Elo|].
      apply monotone; [exact Hvlo|apply item_elem_of; lia|].
      apply ascending_le; lia.
Qed.

(** Only loads of the ladder are run. *)
Lemma finish_calls_in_ladder (lo : Z) (st : SearchState Result) :
  Inv lo (lo + 1) st ->
  forall v,
    v ∈ calls (finish run_test_function get_results_function values required_result
                      lo (lo + 1) st).1 ->
    v ∈ values.
Proof.
  intros HInv.
  pose proof (finish_memoized run_test_function get_results_function values
                required_result passes fails lo (lo + 1) st HInv) as H.
  destruct (finish _ _ _ _ _ _ _) as [st' index]. apply H.
Qed.
End ZeroLoss.

(** C1: with step 1, bounds inside [int64] and a loss metric [f] that
    does not decrease along the ladder, [binary_search] returns either a
    load that was run and
    whose loss is within [required_result], above which no load that was
    run (indeed no load of the ladder) is within it, or -1, and -1 is
    what it returns when no load that was run is within it. Once the
    bracket has closed on two neighbours, the upper load is run (if it
    was not) and checked first; only if it fails is the lower one run
    and checked. *)
Theorem binary_search_zero_loss {Result : Type}
    (run_test_function : list Z -> Z -> Result)
    (get_results_function : gmap Z Result -> Z -> Q)
    (f : Z -> Q) (min_value max_value : Z) (required_result : Q) :
  int64 min_value -> int64 max_value ->
  (forall (m : gmap Z Result) (earlier : list Z) (v : Z),
      m !! v = Some (run_test_function earlier v) -> get_results_function m v = f v) ->
  (forall values, candidate_ladder min_value max_value 1 = Return values ->
                  forall a b, a ∈ values -> b ∈ values -> a <= b -> (f a <= f b)%Q) ->
  exists (values : list Z) (st : SearchState Result) (index : Z),
    candidate_ladder min_value max_value 1 = Return values /\
    binary_search run_test_function get_results_function
                  min_value max_value required_result 1 = Return (st, index) /\
    (forall v, v ∈ calls st -> v ∈ values) /\
    ((index = -1 /\ forall v, v ∈ calls st -> (required_result < f v)%Q) \/
     (index ∈ calls st /\ (f index <= required_result)%Q /\
      (forall v, v ∈ calls st -> index < v -> (required_result < f v)%Q) /\
      (forall v, v ∈ values -> index < v -> (required_result < f v)%Q))) /\
    ((forall v, v ∈ calls st -> (required_result < f v)%Q) -> index = -1) /\
    (Z.of_nat (length values) <= 1 -> calls st = [] /\ index = -1) /\
    (2 <= Z.of_nat (length values) ->
     exists lo st_loop,
       narrow run_test_function get_results_function values required_result
              (length values) 0 (Z.of_nat (length values) - 1) empty_state
       = Return (lo, lo + 1, st_loop) /\
       let vhi := item values (lo + 1) in
       let vlo := item values lo in
       ((f vhi <= required_result)%Q ->
        index = vhi /\ st = run_if_missing run_test_function st_loop vhi) /\
       ((required_result < f vhi)%Q ->
        st = run_if_missing run_test_function
                            (run_if_missing run_test_function st_loop vhi) vlo /\
        ((index = vlo /\ (f vlo <= required_result)%Q) \/
         (index = -1 /\ (required_result < f vlo)%Q))) /\
       (index = -1 -> forall v, v ∈ values -> (required_result < f v)%Q)).
Proof.
  intros Hmin Hmax Hmetric Hmono.
  destruct (candidate_ladder_positive_step min_value max_value 1 Hmin Hmax ltac:(lia))
    as (values & Hladder & _).
  pose proof (candidate_ladder_ascending min_value max_value 1 values
                Hmin Hmax ltac:(lia) Hladder) as Hasc.
  specialize (Hmono values Hladder).
  unfold binary_search. rewrite Hladder. cbn [mbind outcome_bind].
  destruct (Z.leb_spec (Z.of_nat (length values)) 1) as [Hle|Hgt].
  - exists values, empty_state, (-1).
    split; [reflexivity|]. split; [reflexivity|].
    assert (forall v : Z, v ∈ calls (@empty_state Result) -> False) as Hnone.
    { intros v Hv. cbn in Hv. now apply elem_of_nil in Hv. }
    split; [intros v Hv; destruct (Hnone v Hv)|].
    split; [left; split; [reflexivity|intros v Hv; destruct (Hnone v Hv)]|].
    split; [reflexivity|]. split; [intros _; split; reflexivity|lia].
  - destruct (narrow_metric run_test_function get_results_function values
                required_result f Hmetric Hasc ltac:(lia))
      as (lo & st_loop & Hloop & HInv).
    rewrite Hloop. cbn [mbind outcome_bind].
    pose proof (finish_highest run_test_function get_results_function values
                  required_result f Hmetric Hasc Hmono lo st_loop HInv) as Hfin.
    pose proof (finish_calls_in_ladder run_test_function get_results_function values
                  required_result f lo st_loop HInv) as Hcalls.
    cbn zeta in Hfin.
    destruct (finish _ _ _ _ _ _ _) as [st index]. cbn [fst] in Hcalls.
    destruct Hfin as (Hup & Hdown & Hverdict).
    exists values, st, index.
    split; [reflexivity|]. split; [reflexivity|]. split; [exact Hcalls|].
    split; [|split; [|split; [intros ?; exfalso; lia|]]].
    + destruct Hverdict as [[-> Hall]|(Hin & Hcalled & Hpass & Habove)].
      * left. split; [reflexivity|]. intros v Hv. apply Hall, Hcalls, Hv.
      * right. split; [exact Hcalled|]. split; [exact Hpass|].
        split; [|exact Habove]. intros v Hv. apply Habove, Hcalls, Hv.
    + intros Hall.
      destruct Hverdict as [[-> _]|(_ & Hcalled & Hpass & _)]; [reflexivity|].
      exfalso. exact (Qlt_not_le _ _ (Hall _ Hcalled) Hpass).
    + intros _. exists lo, st_loop. split; [exact Hloop|].
      cbn zeta. split; [exact Hup|]. split; [exact Hdown|].
      intros ->. destruct Hverdict as [[_ Hall]|(_ & Hcalled & Hpass & _)]; [exact Hall|].
      exfalso.
      pose proof (candidate_ladder_above_zero min_value max_value 1 values
                    Hmin Hmax ltac:(lia) Hladder _ (Hcalls _ Hcalled)). lia.
Qed.

Lemma binary_search_zero_loss_witness :
  let run := fun (_ : list Z) (v : Z) => v in
  let metric := fun (m : gmap Z Z) (v : Z) => inject_Z (default 0 (m !! v) - 5) in
  let f := fun v : Z => inject_Z (v - 5) in
  int64 1 /\ int64 10 /\
  (forall (m : gmap Z Z) (earlier : list Z) (v : Z),
      m !! v = Some (run earlier v) -> metric m v = f v) /\
  (forall a b : Z, a <= b -> (f a <= f b)%Q) /\
  exists (st : SearchState Z) (index : Z),
    binary_search run metric 1 10 0 1 = Return (st, index) /\
    index = 5 /\ calls st = [5; 7; 6] /\
    ((index = -1 /\ forall v, v ∈ calls st -> (0 < f v)%Q) \/
     (index ∈ calls st /\ (f index <= 0)%Q /\
      (forall v, v ∈ calls st -> index < v -> (0 < f v)%Q))).
Proof.
  intros run metric f.
  assert (forall (m : gmap Z Z) (earlier : list Z) (v : Z),
             m !! v = Some (run earlier v) -> metric m v = f v) as Hmetric.
  { intros m earlier v H. unfold metric. rewrite H. reflexivity. }
  assert (forall a b : Z, a <= b -> (f a <= f b)%Q) as Hmono.
  { intros a b Hab. unfold f. rewrite <- Zle_Qle. lia. }
  assert (int64 10) as H10 by (unfold int64; lia).
  split; [exact int64_1|]. split; [exact H10|].
  split; [exact Hmetric|]. split; [exact Hmono|].
  destruct (binary_search_zero_loss run metric f 1 10 0 int64_1 H10 Hmetric
              (fun _ _ a b _ _ => Hmono a b))
    as (values & st & index & _ & Hbs & _ & Hverdict & _).
  exists st, index. split; [exact Hbs|].
  vm_compute in Hbs. injection Hbs as <- <-.
  split; [reflexivity|]. split; [reflexivity|].
  destruct Hverdict as [Hnone|(Hin & Hpass & Hcalls & _)]; [left; exact Hnone|].
  right. split; [exact Hin|]. split; [exact Hpass|exact Hcalls].
Defined.

(** ** binary_search against a metric that need not be monotone *)

Section AnyMetric.
Context {Result : Type}.
Variable run_test_function : list Z -> Z -> Result.
Variable get_results_function : gmap Z Result -> Z -> Q.
Variable values : list Z.
Variable required_result : Q.
Variable f : Z -> Q.
Hypothesis metric :
  forall (m : gmap Z Result) (earlier : list Z) (v : Z),
    m !! v = Some (run_test_function earlier v) -> get_results_function m v = f v.
Hypothesis ascending :
  forall i j, 0 <= i -> i < j -> j < Z.of_nat (length values) ->
              item values i < item values j.

Local Abbreviation passes := (fun v : Z => (f v <= required_result)%Q).
Local Abbreviation fails := (fun v : Z => (required_result < f v)%Q).
Local Abbreviation Inv := (bracket_invariant run_test_function passes fails values).
Local Abbreviation missing := (run_if_missing run_test_function).

(** The verdict after the loop, whatever the shape of [f]: a load that
    was run and passes, with every load run above it failing; or -1, with
    every load that was run failing, the lowest of the ladder among them. *)
Lemma finish_sound (lo : Z) (st : SearchState Result) :
  Inv lo (lo + 1) st ->
  let '(st', index) :=
    finish run_test_function get_results_function values required_result
           lo (lo + 1) st in
  (index = -1 /\ item values 0 ∈ calls st' /\
   forall v, v ∈ calls st' -> (required_result < f v)%Q) \/
  (index ∈ calls st' /\ (f index <= required_result)%Q /\
   forall v, v ∈ calls st' -> index < v -> (required_result < f v)%Q).
Proof.
  intros (Hlo & _ & Hhi & Hmemo & Hout & Hmin & Hmax).
  set (vhi := item values (lo + 1)). set (vlo := item values lo).
  pose proof (ascending_NoDup values ascending) as Hnd.
  assert (vlo ∈ calls st -> (f vlo <= required_result)%Q) as Hlopass.
  { intros Hin. destruct (Hout _ Hin) as (i & Hi & E & [[_ Hp]|[Hge _]]); [exact Hp|].
    apply item_inj in E; [lia|exact Hnd|lia|exact Hi]. }
  assert (forall v, v ∈ calls st -> vlo < v -> (required_result < f v)%Q) as Habove.
  { intros v Hin Hlt. destruct (Hout _ Hin) as (i & Hi & -> & [[Hle _]|[_ Hf]]);
      [|exact Hf].
    pose proof (ascending_le values ascending i lo ltac:(lia) Hle ltac:(lia)).
    unfold vlo in Hlt. lia. }
  assert (vlo < vhi) as Hlohi by (apply ascending; lia).
  destruct (run_if_missing_calls run_test_function st vhi Hmemo)
    as (Hmemo1 & Hin1 & _ & Hcalls1 & _).
  destruct (run_if_missing_calls run_test_function _ vlo Hmemo1)
    as (Hmemo2 & Hin2 & _ & Hcalls2 & _).
  unfold finish. fold vhi vlo.
  rewrite (missing_metric run_test_function get_results_function required_result
             f metric st vhi Hmemo).
  destruct (Qle_bool (f vhi) required_result) eqn:Ehi.
  - apply Qle_bool_iff in Ehi. right.
    split; [exact Hin1|]. split; [exact Ehi|].
    intros v [Hv| ->]%Hcalls1 Hlt; [|lia]. apply Habove; [exact Hv|lia].
  - apply Qle_bool_false in Ehi.
    rewrite (missing_metric run_test_function get_results_function required_result
               f metric _ vlo Hmemo1).
    destruct (Qle_bool (f vlo) required_result) eqn:Elo.
    + apply Qle_bool_iff in Elo. right.
      split; [exact Hin2|]. split; [exact Elo|].
      intros v [[Hv| ->]%Hcalls1| ->]%Hcalls2 Hlt; [now apply Habove|exact Ehi|lia].
    + apply Qle_bool_false in Elo. left. split; [reflexivity|].
      assert (lo = 0) as E0.
      { destruct Hmin as [?|Hin]; [assumption|].
        exfalso. exact (Qlt_not_le _ _ Elo (Hlopass Hin)). }
      subst lo. split; [exact Hin2|].
      intros v [[Hv| ->]%Hcalls1| ->]%Hcalls2; [|exact Ehi|exact Elo].
      destruct (Hout _ Hv) as (i & Hi & -> & [[Hle Hp]|[_ Hf]]); [|exact Hf].
      assert (i = 0) as -> by lia.
      exfalso. exact (Qlt_not_le _ _ Elo Hp).
Qed.
End AnyMetric.

(** X1: for bounds and any positive step inside [int64] and any loss
    metric, monotone or not, the search returns either a load that was
    run and is within
    [required_result], every load run above it being over the threshold,
    or -1 with every load that was run over the threshold; when two or
    more candidates exist and -1 is returned, the lowest candidate was
    run. *)
Theorem binary_search_sound {Result : Type}
    (run_test_function : list Z -> Z -> Result)
    (get_results_function : gmap Z Result -> Z -> Q)
    (f : Z -> Q) (min_value max_value : Z) (required_result : Q) (step : Z) :
  (forall (m : gmap Z Result) (earlier : list Z) (v : Z),
      m !! v = Some (run_test_function earlier v) -> get_results_function m v = f v) ->
  int64 min_value -> int64 max_value -> int64 step -> 0 < step ->
  exists (values : list Z) (st : SearchState Result) (index : Z),
    candidate_ladder min_value max_value step = Return values /\
    binary_search run_test_function get_results_function
                  min_value max_value required_result step = Return (st, index) /\
    ((index = -1 /\
      (forall v, v ∈ calls st -> (required_result < f v)%Q) /\
      (2 <= Z.of_nat (length values) -> item values 0 ∈ calls st)) \/
     (index ∈ calls st /\ (f index <= required_result)%Q /\
      forall v, v ∈ calls st -> index < v -> (required_result < f v)%Q)).
Proof.
  intros Hmetric Hmin Hmax _ Hstep.
  destruct (candidate_ladder_positive_step min_value max_value step Hmin Hmax Hstep)
    as (values & Hladder & _).
  pose proof (candidate_ladder_ascending min_value max_value step values
                Hmin Hmax Hstep Hladder) as Hasc.
  exists values. unfold binary_search. rewrite Hladder. cbn [mbind outcome_bind].
  destruct (Z.leb_spec (Z.of_nat (length values)) 1) as [Hle|Hgt].
  - exists empty_state, (-1). split; [reflexivity|]. split; [reflexivity|].
    left. split; [reflexivity|]. split; [|intros ?; exfalso; lia].
    intros v Hv. cbn in Hv. now apply elem_of_nil in Hv.
  - destruct (narrow_metric run_test_function get_results_function values
                required_result f Hmetric Hasc ltac:(lia))
      as (lo & st_loop & Hloop & HInv).
    rewrite Hloop. cbn [mbind outcome_bind].
    pose proof (finish_sound run_test_function get_results_function values
                  required_result f Hmetric Hasc lo st_loop HInv) as Hfin.
    destruct (finish _ _ _ _ _ _ _) as [st index].
    exists st, index. split; [reflexivity|]. split; [reflexivity|].
    destruct Hfin as [(-> & Hlow & Hall)|Hfound]; [left|right; exact Hfound].
    split; [reflexivity|]. split; [exact Hall|]. intros _. exact Hlow.
Qed.

Lemma binary_search_sound_witness :
  let run := fun (_ : list Z) (v : Z) => v in
  let metric := fun (m : gmap Z Z) (v : Z) =>
                  inject_Z (Z.abs (default 0 (m !! v) - 40) - 20) in
  let f := fun v : Z => inject_Z (Z.abs (v - 40) - 20) in
  (forall (m : gmap Z Z) (earlier : list Z) (v : Z),
      m !! v = Some (run earlier v) -> metric m v = f v) /\
  int64 1 /\ int64 100 /\ int64 5 /\ 0 < 5 /\
  exists (st : SearchState Z) (index : Z),
    binary_search run metric 1 100 0 5 = Return (st, index) /\
    index = 60 /\ calls st = [50; 75; 60; 65].
Proof.
  intros run metric f.
  assert (forall (m : gmap Z Z) (earlier : list Z) (v : Z),
             m !! v = Some (run earlier v) -> metric m v = f v) as Hmetric.
  { intros m earlier v H. unfold metric. rewrite H. reflexivity. }
  assert (int64 5) as H5 by (unfold int64; lia).
  split; [exact Hmetric|]. split; [exact int64_1|]. split; [exact int64_100|].
  split; [exact H5|]. split; [lia|].
  destruct (binary_search_sound run metric f 1 100 0 5 Hmetric int64_1 int64_100 H5
              ltac:(lia))
    as (values & st & index & _ & Hbs & _).
  exists st, index. split; [exact Hbs|].
  vm_compute in Hbs. injection Hbs as <- <-. split; reflexivity.
Defined.

(** X2: for bounds and any positive step inside [int64] and a loss
    metric that does not decrease along the ladder, the load returned is
    the highest candidate within
    [required_result]: no candidate above it is within the threshold, and
    -1 is returned from two or more candidates only when none is. *)
Theorem binary_search_highest {Result : Type}
    (run_test_function : list Z -> Z -> Result)
    (get_results_function : gmap Z Result -> Z -> Q)
    (f : Z -> Q) (min_value max_value : Z) (required_result : Q) (step : Z) :
  (forall (m : gmap Z Result) (earlier : list Z) (v : Z),
      m !! v = Some (run_test_function earlier v) -> get_results_function m v = f v) ->
  (forall a b : Z, a <= b -> (f a <= f b)%Q) ->
  int64 min_value -> int64 max_value -> int64 step -> 0 < step ->
  exists (values : list Z) (st : SearchState Result) (index : Z),
    candidate_ladder min_value max_value step = Return values /\
    binary_search run_test_function get_results_function
                  min_value max_value required_result step = Return (st, index) /\
    ((index = -1 /\
      (2 <= Z.of_nat (length values) ->
       forall v, v ∈ values -> (required_result < f v)%Q)) \/
     (index ∈ values /\ (f index <= required_result)%Q /\
      forall v, v ∈ values -> index < v -> (required_result < f v)%Q)).
Proof.
  intros Hmetric Hmono Hmin Hmax _ Hstep.
  destruct (candidate_ladder_positive_step min_value max_value step Hmin Hmax Hstep)
    as (values & Hladder & _).
  pose proof (candidate_ladder_ascending min_value max_value step values
                Hmin Hmax Hstep Hladder) as Hasc.
  exists values. unfold binary_search. rewrite Hladder. cbn [mbind outcome_bind].
  destruct (Z.leb_spec (Z.of_nat (length values)) 1) as [Hle|Hgt].
  - exists empty_state, (-1). split; [reflexivity|]. split; [reflexivity|].
    left. split; [reflexivity|]. intros ?. exfalso. lia.
  - destruct (narrow_metric run_test_function get_results_function values
                required_result f Hmetric Hasc ltac:(lia))
      as (lo & st_loop & Hloop & HInv).
    rewrite Hloop. cbn [mbind outcome_bind].
    pose proof (finish_highest run_test_function get_results_function values
                  required_result f Hmetric Hasc (fun a b _ _ => Hmono a b)
                  lo st_loop HInv) as Hfin.
    cbn zeta in Hfin.
    destruct (finish _ _ _ _ _ _ _) as [st index].
    exists st, index. split; [reflexivity|]. split; [reflexivity|].
    destruct Hfin as (_ & _ & [[-> Hall]|(Hin & _ & Hpass & Habove)]).
    + left. split; [reflexivity|]. intros _. exact Hall.
    + right. split; [exact Hin|]. split; [exact Hpass|exact Habove].
Qed.

Lemma binary_search_highest_witness :
  let run := fun (_ : list Z) (v : Z) => v in
  let metric := fun (m : gmap Z Z) (v : Z) => inject_Z (default 0 (m !! v) - 62) in
  let f := fun v : Z => inject_Z (v - 62) in
  (forall (m : gmap Z Z) (earlier : list Z) (v : Z),
      m !! v = Some (run earlier v) -> metric m v = f v) /\
  (forall a b : Z, a <= b -> (f a <= f b)%Q) /\
  int64 1 /\ int64 100 /\ int64 5 /\ 0 < 5 /\
  exists (st : SearchState Z) (index : Z),
    binary_search run metric 1 100 0 5 = Return (st, index) /\ index = 60.
Proof.
  intros run metric f.
  assert (forall (m : gmap Z Z) (earlier : list Z) (v : Z),
             m !! v = Some (run earlier v) -> metric m v = f v) as Hmetric.
  { intros m earlier v H. unfold metric. rewrite H. reflexivity. }
  assert (forall a b : Z, a <= b -> (f a <= f b)%Q) as Hmono.
  { intros a b Hab. unfold f. rewrite <- Zle_Qle. lia. }
  assert (int64 5) as H5 by (unfold int64; lia).
  split; [exact Hmetric|]. split; [exact Hmono|].
  split; [exact int64_1|]. split; [exact int64_100|]. split; [exact H5|]. split; [lia|].
  destruct (binary_search_highest run metric f 1 100 0 5 Hmetric Hmono
              int64_1 int64_100 H5 ltac:(lia))
    as (values & st & index & _ & Hbs & _).
  exists st, index. split; [exact Hbs|].
  vm_compute in Hbs. injection Hbs as _ <-. reflexivity.
Defined.

(** ** binary_search: how many loads are run *)

Lemma log2_up_half (d g : Z) :
  2 <= d -> 1 <= g -> 2 * g <= d + 1 -> Z.log2_up g + 1 <= Z.log2_up d.
Proof.
  intros Hd Hg Hhalf.
  pose proof (Z.log2_up_spec d ltac:(lia)) as [Hlow Hup].
  pose proof (Z.log2_up_nonneg d) as Hk.
  assert (1 <= Z.log2_up d) as Hk1.
  { destruct (Z.eq_dec (Z.log2_up d) 0) as [E|]; [|lia].
    rewrite E in Hup. cbn in Hup. lia. }
  assert (g <= 2 ^ (Z.log2_up d - 1)) as Hg2.
  { replace (Z.log2_up d) with (Z.succ (Z.log2_up d - 1)) in Hup by lia.
    rewrite Z.pow_succ_r in Hup by lia. lia. }
  apply Z.log2_up_le_pow2 in Hg2; lia.
Qed.

Lemma run_if_missing_length {Result : Type}
    (run_test_function : list Z -> Z -> Result) (st : SearchState Result) (v : Z) :
  (length (calls (run_if_missing run_test_function st v)) <= S (length (calls st)))%nat.
Proof.
  unfold run_if_missing. destruct (decide _); cbn; [lia|].
  rewrite length_app. cbn. lia.
Qed.

Lemma finish_length {Result : Type}
    (run_test_function : list Z -> Z -> Result)
    (get_results_function : gmap Z Result -> Z -> Q)
    (values : list Z) (required_result : Q) (lo hi : Z) (st : SearchState Result) :
  (length (calls (finish run_test_function get_results_function values
                         required_result lo hi st).1)
   <= 2 + length (calls st))%nat.
Proof.
  unfold finish.
  pose proof (run_if_missing_length run_test_function st (item values hi)) as H1.
  pose proof (run_if_missing_length run_test_function
                (run_if_missing run_test_function st (item values hi))
                (item values lo)) as H2.
  destruct (Qle_bool _ _); [cbn [fst]; lia|].
  destruct (Qle_bool _ _); cbn [fst]; lia.
Qed.

(** X3: the number of loads handed to [run_test_function] is logarithmic
    in the number of candidates: at most [log2_up (n - 1)] in the loop and
    two after it. The count does not depend on the values of the
    candidates, so it holds of a [float64] ladder as well. *)
Theorem binary_search_call_bound {Result : Type}
    (run_test_function : list Z -> Z -> Result)
    (get_results_function : gmap Z Result -> Z -> Q)
    (min_value max_value : Z) (required_result : Q) (step : Z) :
  step <> 0 ->
  exists (values : list Z) (st : SearchState Result) (index : Z),
    candidate_ladder min_value max_value step = Return values /\
    binary_search run_test_function get_results_function
                  min_value max_value required_result step = Return (st, index) /\
    Z.of_nat (length (calls st)) <= Z.log2_up (Z.of_nat (length values) - 1) + 2.
Proof.
  intros Hstep.
  destruct (candidate_ladder_returns min_value max_value step Hstep)
    as (values & Hladder).
  exists values.
  unfold binary_search. rewrite Hladder. cbn [mbind outcome_bind].
  destruct (Z.leb_spec (Z.of_nat (length values)) 1) as [Hle|Hgt].
  - exists empty_state, (-1). split; [reflexivity|]. split; [reflexivity|].
    cbn. pose proof (Z.log2_up_nonneg (Z.of_nat (length values) - 1)). lia.
  - set (n := Z.of_nat (length values)) in *.
    destruct (narrow_invariant run_test_function get_results_function values
                required_result
                (fun lo hi st =>
                   0 <= lo /\ lo < hi /\
                   Z.of_nat (length (calls st)) + Z.log2_up (hi - lo)
                   <= Z.log2_up (n - 1)))
      with (fuel := length values) (lo := 0) (hi := n - 1)
           (st := @empty_state Result)
      as (lo & st_loop & Hloop & _ & _ & Hbound).
    + intros lo hi st (Hlo & Hlt & Hb) Hgap.
      pose proof (midpoint_inside lo hi Hgap) as Hmid. cbn zeta.
      pose proof (Z.div_mod (hi - lo) 2 ltac:(lia)) as Hdm.
      pose proof (Z.mod_pos_bound (hi - lo) 2 ltac:(lia)) as Hmb.
      destruct (Qgt_bool _ _); (split; [lia|]); (split; [lia|]);
        cbn [calls run_and_store]; rewrite length_app; cbn [length].
      * pose proof (log2_up_half (hi - lo) (lo + (hi - lo) / 2 - lo)
                      ltac:(lia) ltac:(lia) ltac:(lia)). lia.
      * pose proof (log2_up_half (hi - lo) (hi - (lo + (hi - lo) / 2))
                      ltac:(lia) ltac:(lia) ltac:(lia)). lia.
    + split; [lia|]. split; [lia|]. cbn. replace (n - 1 - 0) with (n - 1) by lia. lia.
    + lia.
    + fold n. lia.
    + fold n. rewrite Hloop. cbn [mbind outcome_bind].
      pose proof (finish_length run_test_function get_results_function values
                    required_result lo (lo + 1) st_loop) as Hlen.
      destruct (finish _ _ _ _ _ _ _) as [st index]. cbn [fst] in Hlen.
      exists st, index. split; [reflexivity|]. split; [reflexivity|].
      pose proof (Z.log2_up_nonneg (lo + 1 - lo)). lia.
Qed.

Lemma binary_search_call_bound_witness :
  let run := fun (_ : list Z) (v : Z) => v in
  let metric := fun (m : gmap Z Z) (v : Z) => inject_Z (default 0 (m !! v) - 62) in
  1 <> 0 /\
  exists (st : SearchState Z) (index : Z),
    binary_search run metric 1 100 0 1 = Return (st, index) /\
    Z.of_nat (length (calls st)) <= Z.log2_up (100 - 1) + 2 /\
    Z.log2_up (100 - 1) + 2 = 9.
Proof.
  intros run metric. split; [lia|].
  destruct (binary_search_call_bound run metric 1 100 0 1 ltac:(lia))
    as (values & st & index & Hladder & Hbs & Hbound).
  exists st, index. split; [exact Hbs|].
  vm_compute in Hladder. injection Hladder as <-.
  split; [exact Hbound|reflexivity].
Defined.

(** ** binary_search: flat regions *)

(** X4: for bounds and a positive step inside [int64], when no
    comparison finds the metric over the threshold, the upper end of the
    bracket never moves, and the search returns [max_value]. *)
Theorem binary_search_all_pass {Result : Type}
    (run_test_function : list Z -> Z -> Result)
    (get_results_function : gmap Z Result -> Z -> Q)
    (min_value max_value : Z) (required_result : Q) (step : Z) :
  (forall (m : gmap Z Result) (v : Z), (get_results_function m v <= required_result)%Q) ->
  int64 min_value -> int64 max_value -> int64 step -> 0 < step ->
  exists (values : list Z) (st : SearchState Result) (index : Z),
    candidate_ladder min_value max_value step = Return values /\
    binary_search run_test_function get_results_function
                  min_value max_value required_result step = Return (st, index) /\
    (2 <= Z.of_nat (length values) -> index = max_value /\ max_value ∈ calls st).
Proof.
  intros Hpass Hmin Hmax _ Hstep.
  destruct (candidate_ladder_positive_step min_value max_value step Hmin Hmax Hstep)
    as (values & Hladder & Hitem & _).
  pose proof (candidate_ladder_NoDup _ _ _ _
                (ladder_dtype_positive_step _ _ _ Hmin Hmax Hstep) Hladder) as Hnd.
  exists values. unfold binary_search. rewrite Hladder. cbn [mbind outcome_bind].
  destruct (Z.leb_spec (Z.of_nat (length values)) 1) as [Hle|Hgt].
  - exists empty_state, (-1). split; [reflexivity|]. split; [reflexivity|]. lia.
  - set (n := Z.of_nat (length values)) in *.
    assert (forall m v, Qgt_bool (get_results_function m v) required_result = false)
      as Hnot by (intros m v; now apply Qgt_bool_false).
    assert (judged_by run_test_function get_results_function required_result
                      (fun _ => True) (fun _ => True)) as Hjudge.
    { intros st v _ _. now destruct (Qgt_bool _ _). }
    destruct (narrow_invariant run_test_function get_results_function values
                required_result
                (fun lo hi st =>
                   bracket_invariant run_test_function (fun _ => True) (fun _ => True)
                                     values lo hi st /\ hi = n - 1))
      with (fuel := length values) (lo := 0) (hi := n - 1)
           (st := @empty_state Result)
      as (lo & st_loop & Hloop & HInv & Hhi).
    + intros lo hi st (HInv & Hhi) Hgap. cbn zeta.
      destruct (bracket_step run_test_function get_results_function values
                  required_result _ _ lo hi st Hnd Hjudge HInv Hgap) as (_ & Hnext).
      cbn zeta in Hnext. rewrite Hnot in *. split; [exact Hnext|exact Hhi].
    + split; [|reflexivity].
      split; [lia|]. split; [lia|]. split; [fold n; lia|].
      split; [apply memoized_empty|]. split; [|split; now left].
      intros v Hv. cbn in Hv. now apply elem_of_nil in Hv.
    + lia.
    + fold n. lia.
    + fold n. rewrite Hloop. cbn [mbind outcome_bind].
      destruct HInv as (_ & _ & _ & Hmemo & _).
      destruct (run_if_missing_calls run_test_function st_loop
                  (item values (lo + 1)) Hmemo) as (_ & Hin & _).
      exists (run_if_missing run_test_function st_loop (item values (lo + 1))),
             (item values (lo + 1)).
      split; [reflexivity|].
      assert (item values (lo + 1) = max_value) as Emax.
      { rewrite Hitem by (fold n; lia). fold n.
        replace (n - 1 - (lo + 1)) with 0 by lia. lia. }
      split.
      * unfold finish.
        destruct (Qle_bool _ _) eqn:E; [reflexivity|].
        pose proof (Hpass (results (run_if_missing run_test_function st_loop
                                                   (item values (lo + 1))))
                          (item values (lo + 1))) as Hp.
        apply Qle_bool_iff in Hp. congruence.
      * intros _. split; [exact Emax|]. rewrite <- Emax. exact Hin.
Qed.

Lemma binary_search_all_pass_witness :
  let run := fun (_ : list Z) (v : Z) => v in
  let metric := fun (_ : gmap Z Z) (_ : Z) => 0%Q in
  (forall (m : gmap Z Z) (v : Z), (metric m v <= 1 # 100000)%Q) /\
  int64 1 /\ int64 100 /\ 0 < 1 /\
  exists (st : SearchState Z) (index : Z),
    binary_search run metric 1 100 (1 # 100000) 1 = Return (st, index) /\
    index = 100 /\ 100 ∈ calls st.
Proof.
  intros run metric.
  assert (forall (m : gmap Z Z) (v : Z), (metric m v <= 1 # 100000)%Q) as Hpass.
  { intros m v. discriminate. }
  split; [exact Hpass|]. split; [exact int64_1|]. split; [exact int64_100|].
  split; [lia|].
  destruct (binary_search_all_pass run metric 1 100 (1 # 100000) 1 Hpass
              int64_1 int64_100 int64_1 ltac:(lia))
    as (values & st & index & Hladder & Hbs & Hmax).
  exists st, index. split; [exact Hbs|].
  vm_compute in Hladder. injection Hladder as <-.
  apply Hmax. cbn. lia.
Defined.

(** ** The entry the zero-loss tests keep *)

Lemma foldl_min_lowest (k0 a : Z) (l : list Z) :
  k0 ∈ a :: l -> (forall x, x ∈ a :: l -> k0 <= x) -> foldl Z.min a l = k0.
Proof.
  revert a. induction l as [|x l IH]; intros a Hin Hle; cbn [foldl].
  - apply list_elem_of_singleton in Hin. congruence.
  - apply IH.
    + pose proof (Hle a ltac:(left)) as Ha.
      pose proof (Hle x ltac:(right; left)) as Hx.
      apply elem_of_cons in Hin as [->|Hin]; [apply elem_of_cons; left; lia|].
      apply elem_of_cons in Hin as [->|Hin]; [apply elem_of_cons; left; lia|now right].
    + intros y [->|Hy]%elem_of_cons.
      * pose proof (Hle a ltac:(left)). pose proof (Hle x ltac:(right; left)). lia.
      * apply Hle. right. now right.
Qed.

Lemma py_min_key_lowest {V : Type} (m : gmap Z V) (k0 : Z) :
  is_Some (m !! k0) -> (forall k, is_Some (m !! k) -> k0 <= k) ->
  py_min_key m = Return k0.
Proof.
  intros [v0 H0] Hle. unfold py_min_key.
  assert (forall k, k ∈ map fst (map_to_list m) <-> is_Some (m !! k)) as Hkeys.
  { intros k. rewrite list_elem_of_fmap. split.
    - intros ([k' v] & -> & Hin). apply elem_of_map_to_list in Hin. cbn. eauto.
    - intros [v Hv]. exists (k, v). split; [reflexivity|].
      now apply elem_of_map_to_list. }
  destruct (map fst (map_to_list m)) as [|k ks] eqn:E.
  - exfalso. assert (k0 ∈ @nil Z) as Hin by (apply Hkeys; eauto).
    now apply elem_of_nil in Hin.
  - f_equal. apply foldl_min_lowest.
    + apply Hkeys. eauto.
    + intros x Hx. apply Hle, Hkeys, Hx.
Qed.

Lemma py_min_key_empty {V : Type} : py_min_key (∅ : gmap Z V) = Raise ValueError.
Proof. unfold py_min_key. now rewrite map_to_list_empty. Qed.

(** What a search against a metric leaves behind. *)
Lemma binary_search_metric_facts {Result : Type}
    (run_test_function : list Z -> Z -> Result)
    (get_results_function : gmap Z Result -> Z -> Q)
    (f : Z -> Q) (min_value max_value : Z) (required_result : Q) (step : Z) :
  (forall (m : gmap Z Result) (earlier : list Z) (v : Z),
      m !! v = Some (run_test_function earlier v) -> get_results_function m v = f v) ->
  int64 min_value -> int64 max_value -> 0 < step ->
  exists (values : list Z) (st : SearchState Result) (index : Z),
    candidate_ladder min_value max_value step = Return values /\
    binary_search run_test_function get_results_function
                  min_value max_value required_result step = Return (st, index) /\
    memoized run_test_function st /\
    (forall v, v ∈ calls st -> v ∈ values) /\
    (Z.of_nat (length values) <= 1 -> st = empty_state /\ index = -1) /\
    (2 <= Z.of_nat (length values) ->
     (index = -1 /\ item values 0 ∈ calls st /\
      forall v, v ∈ calls st -> (required_result < f v)%Q) \/
     (index ∈ calls st /\ (f index <= required_result)%Q /\
      forall v, v ∈ calls st -> index < v -> (required_result < f v)%Q)).
Proof.
  intros Hmetric Hmin Hmax Hstep.
  destruct (candidate_ladder_positive_step min_value max_value step Hmin Hmax Hstep)
    as (values & Hladder & _).
  pose proof (candidate_ladder_ascending min_value max_value step values
                Hmin Hmax Hstep Hladder) as Hasc.
  exists values. unfold binary_search. rewrite Hladder. cbn [mbind outcome_bind].
  destruct (Z.leb_spec (Z.of_nat (length values)) 1) as [Hle|Hgt].
  - exists empty_state, (-1). split; [reflexivity|]. split; [reflexivity|].
    split; [apply memoized_empty|]. split; [|split; [now split|lia]].
    intros v Hv. cbn in Hv. now apply elem_of_nil in Hv.
  - destruct (narrow_metric run_test_function get_results_function values
                required_result f Hmetric Hasc ltac:(lia))
      as (lo & st_loop & Hloop & HInv).
    rewrite Hloop. cbn [mbind outcome_bind].
    pose proof (finish_sound run_test_function get_results_function values
                  required_result f Hmetric Hasc lo st_loop HInv) as Hfin.
    pose proof (finish_memoized run_test_function get_results_function values
                  required_result _ _ lo (lo + 1) st_loop HInv) as Hmemo.
    destruct (finish _ _ _ _ _ _ _) as [st index].
    destruct Hmemo as (Hmemo & _ & Hin).
    exists st, index. split; [reflexivity|]. split; [reflexivity|].
    split; [exact Hmemo|]. split; [exact Hin|]. split; [lia|].
    intros _. exact Hfin.
Qed.

Lemma dump_results_returns (results : gmap Z RunResult) (keys : list Z) :
  (forall k, k ∈ keys -> exists r, results !! k = Some r /\ total_tx_pkts r <> 0) ->
  dump_results results keys = Return tt.
Proof.
  induction keys as [|k keys IH]; intros Hkeys; cbn [dump_results]; [reflexivity|].
  destruct (Hkeys k) as (r & Hr & Htx); [apply elem_of_cons; now left|].
  unfold py_dict_item at 1. rewrite Hr. cbn [mbind outcome_bind].
  unfold calc_loss_percentage at 1.
  destruct (Z.eqb_spec (total_tx_pkts r) 0) as [E|_]; [contradiction|].
  cbn [mbind outcome_bind]. apply IH.
  intros k' Hk'. apply Hkeys, elem_of_cons. now right.
Qed.

(** X5: for every step from 1 to 99, and test runs none of which
    reports zero transmitted packets, the zero-loss tests print the
    results of the search and find an entry to keep: the result stored
    under the load the search returned, which is within the threshold,
    or, when the search returned -1, the result of the lowest candidate,
    which was run. [min(results)] never meets an empty dictionary there,
    and no lookup misses its key. *)
Theorem zero_loss_kept_result_found
    (run_test_function : list Z -> Z -> RunResult)
    (get_results_function : gmap Z RunResult -> Z -> Q)
    (f : Z -> Q) (zero_loss_step : Z) :
  (forall (m : gmap Z RunResult) (earlier : list Z) (v : Z),
      m !! v = Some (run_test_function earlier v) -> get_results_function m v = f v) ->
  (forall (earlier : list Z) (v : Z), total_tx_pkts (run_test_function earlier v) <> 0) ->
  0 < zero_loss_step < 100 ->
  exists (values : list Z) (st : SearchState RunResult) (index load : Z) (r : RunResult),
    candidate_ladder 1 100 zero_loss_step = Return values /\
    binary_search run_test_function get_results_function 1 100 (1 # 100000)
                  zero_loss_step = Return (st, index) /\
    zero_loss_kept_result run_test_function get_results_function zero_loss_step
    = Return (load, r) /\
    results st !! load = Some r /\
    ((index = load /\ 1 <= load /\ (f load <= 1 # 100000)%Q) \/
     (index = -1 /\ load = item values 0 /\
      forall v, v ∈ calls st -> (1 # 100000 < f v)%Q)).
Proof.
  intros Hmetric Htx Hstep.
  destruct (binary_search_metric_facts run_test_function get_results_function f
              1 100 (1 # 100000) zero_loss_step Hmetric int64_1 int64_100 ltac:(lia))
    as (values & st & index & Hladder & Hbs & Hmemo & Hin & _ & Hverdict).
  pose proof (candidate_ladder_ascending 1 100 zero_loss_step values
                int64_1 int64_100 ltac:(lia) Hladder) as Hasc.
  assert (2 <= Z.of_nat (length values)) as Hn.
  { destruct (candidate_ladder_positive_step 1 100 zero_loss_step int64_1 int64_100 ltac:(lia))
      as (values' & Hladder' & _ & Hcount).
    rewrite Hladder in Hladder'. injection Hladder' as <-.
    pose proof (proj2 (Hcount 1 ltac:(lia)) ltac:(lia)). lia. }
  unfold zero_loss_kept_result. rewrite Hbs. cbn [mbind outcome_bind].
  rewrite dump_results_returns; cycle 1.
  { intros k Hk. unfold natsorted_Z in Hk. rewrite stable_sort_Permutation in Hk.
    apply list_elem_of_fmap in Hk as ([k' r] & -> & Hkr).
    apply elem_of_map_to_list in Hkr. cbn [fst].
    pose proof Hmemo as (_ & _ & Hdom).
    destruct (memoized_called run_test_function st k' Hmemo) as (earlier & Hr).
    { apply Hdom. eauto. }
    eexists. split; [exact Hr|apply Htx]. }
  cbn [mbind outcome_bind].
  destruct (Hverdict Hn) as [(-> & Hlow & Hall)|(Hcalled & Hpass & _)].
  - destruct (memoized_called run_test_function st _ Hmemo Hlow) as (earlier & Hr).
    exists values, st, (-1), (item values 0), (run_test_function earlier (item values 0)).
    split; [exact Hladder|]. split; [reflexivity|]. cbn [Z.leb Z.compare].
    rewrite (py_min_key_lowest (results st) (item values 0)).
    + cbn [mbind outcome_bind]. unfold py_dict_item. rewrite Hr.
      split; [reflexivity|]. split; [reflexivity|]. right. now repeat split.
    + eauto.
    + intros k Hk. destruct Hmemo as (_ & _ & Hdom).
      destruct (elem_of_item values k (Hin _ (Hdom _ Hk))) as (i & Hi & ->).
      destruct (Z.eq_dec i 0) as [->|]; [lia|].
      apply Z.lt_le_incl, Hasc; lia.
  - destruct (memoized_called run_test_function st _ Hmemo Hcalled) as (earlier & Hr).
    pose proof (candidate_ladder_above_zero 1 100 zero_loss_step values
                  int64_1 int64_100 ltac:(lia) Hladder _ (Hin _ Hcalled)) as Hpos.
    exists values, st, index, index, (run_test_function earlier index).
    split; [exact Hladder|]. split; [reflexivity|].
    destruct (Z.leb_spec 1 index) as [_|]; [|lia].
    unfold py_dict_item. rewrite Hr. cbn [mbind outcome_bind].
    unfold calc_loss_percentage.
    destruct (Z.eqb_spec (total_tx_pkts (run_test_function earlier index)) 0) as [E|_].
    { exfalso. exact (Htx _ _ E). }
    cbn [mbind outcome_bind].
    split; [reflexivity|]. split; [reflexivity|]. left.
    split; [reflexivity|]. split; [lia|exact Hpass].
Qed.

(** Runs that send 1000 packets and receive all of them up to a load of
    25 percent only: with a step of 25 the result of the load 25 is
    kept. *)
Lemma zero_loss_kept_result_found_witness :
  let run := fun (_ : list Z) (v : Z) =>
               mkRunResult (inject_Z v) 1000 (if v <=? 25 then 1000 else 900) v 0 in
  let f := fun v : Z => if v <=? 25 then 0%Q else 10%Q in
  let metric := fun (m : gmap Z RunResult) (v : Z) =>
                  match m !! v with
                  | Some r => if total_rx_pkts r =? 1000 then 0%Q else 10%Q
                  | None => 0%Q
                  end in
  (forall (m : gmap Z RunResult) (earlier : list Z) (v : Z),
      m !! v = Some (run earlier v) -> metric m v = f v) /\
  (forall (earlier : list Z) (v : Z), total_tx_pkts (run earlier v) <> 0) /\
  0 < 25 < 100 /\
  zero_loss_kept_result run metric 25 = Return (25, run [] 25).
Proof.
  intros run f metric.
  assert (forall (m : gmap Z RunResult) (earlier : list Z) (v : Z),
             m !! v = Some (run earlier v) -> metric m v = f v) as Hmetric.
  { intros m earlier v H. unfold metric, f. rewrite H. cbn [run total_rx_pkts].
    now destruct (v <=? 25). }
  assert (forall (earlier : list Z) (v : Z), total_tx_pkts (run earlier v) <> 0) as Htx.
  { intros earlier v. cbn. lia. }
  split; [exact Hmetric|]. split; [exact Htx|]. split; [lia|].
  destruct (zero_loss_kept_result_found run metric f 25 Hmetric Htx ltac:(lia))
    as (values & st & index & load & r & _ & _ & Hkept & _).
  rewrite Hkept. vm_compute in Hkept. injection Hkept as <- <-. reflexivity.
Defined.

(** ** Averages stay between the samples *)

Lemma sum_bounds (l : list Z) (lo hi : Z) :
  Forall (fun r => lo <= r <= hi) l ->
  Z.of_nat (length l) * lo <= foldr Z.add 0 l <= Z.of_nat (length l) * hi.
Proof.
  induction 1 as [|r l Hr _ IH]; cbn [foldr length]; [lia|].
  rewrite Nat2Z.inj_succ. lia.
Qed.

Lemma py_div_between (py : python_version) (a n lo hi : Z) :
  0 < n -> n * lo <= a <= n * hi ->
  exists q, py_div py a n = Return q /\ (inject_Z lo <= q)%Q /\ (q <= inject_Z hi)%Q.
Proof.
  intros Hn [Hlo Hhi]. unfold py_div.
  destruct (Z.eqb_spec n 0) as [|_]; [lia|].
  eexists. split; [reflexivity|]. destruct py.
  - rewrite <- !Zle_Qle. split.
    + apply Z.div_le_lower_bound; lia.
    + apply Z.div_le_upper_bound; lia.
  - assert (0 < inject_Z n)%Q as Hn'.
    { replace 0%Q with (inject_Z 0) by reflexivity. now rewrite <- Zlt_Qlt. }
    split.
    + apply Qle_shift_div_l; [exact Hn'|].
      rewrite <- inject_Z_mult, <- Zle_Qle. lia.
    + apply Qle_shift_div_r; [exact Hn'|].
      rewrite <- inject_Z_mult, <- Zle_Qle. lia.
Qed.

Lemma mean_between (py : python_version) (l : list Z) (lo hi : Z) :
  l <> [] -> Forall (fun r => lo <= r <= hi) l ->
  exists q, py_div py (foldr Z.add 0 l) (Z.of_nat (length l)) = Return q /\
            (inject_Z lo <= q)%Q /\ (q <= inject_Z hi)%Q.
Proof.
  intros Hne Hall. apply py_div_between; [|now apply sum_bounds].
  destruct l; [contradiction|cbn; lia].
Qed.

(** X6: [get_traffic_rx_stats_from_vm] exits with the not-enough-elements
    error exactly when 10 or fewer rates are left once the warm-up samples
    are skipped; otherwise it returns a rate, never dividing by zero, that
    lies between the bounds of the rates it was given, the first five and
    the last five of which it leaves out. *)
Theorem get_traffic_rx_stats_from_vm_average
    (py : python_version) (pkt_rates : list Z) (skip_samples lo hi : Z) :
  Forall (fun r => lo <= r <= hi) pkt_rates ->
  let kept := if 0 <? skip_samples
              then drop (Z.to_nat skip_samples) pkt_rates else pkt_rates in
  let interior := drop 5 (take (length kept - 5)%nat kept) in
  (Z.of_nat (length kept) <= 10 ->
   get_traffic_rx_stats_from_vm py pkt_rates skip_samples
   = Raise (SystemExit NotEnoughElements (-1))) /\
  (10 < Z.of_nat (length kept) ->
   length interior = (length kept - 10)%nat /\
   exists q,
     get_traffic_rx_stats_from_vm py pkt_rates skip_samples = Return q /\
     q = match py with
         | Python2 => inject_Z (foldr Z.add 0 interior / Z.of_nat (length interior))
         | Python3 => (inject_Z (foldr Z.add 0%Z interior)
                       / inject_Z (Z.of_nat (length interior)))%Q
         end /\
     (inject_Z lo <= q)%Q /\ (q <= inject_Z hi)%Q).
Proof.
  intros Hall kept interior. unfold get_traffic_rx_stats_from_vm. fold kept.
  split; intros Hlen.
  - destruct (Z.leb_spec (Z.of_nat (length kept)) 10); [reflexivity|lia].
  - destruct (Z.leb_spec (Z.of_nat (length kept)) 10); [lia|]. fold interior.
    assert (length interior = (length kept - 10)%nat) as Hint.
    { unfold interior. rewrite length_drop, length_take. lia. }
    split; [exact Hint|].
    assert (Forall (fun r => lo <= r <= hi) interior) as Hall'.
    { unfold interior. apply Forall_drop, Forall_take.
      unfold kept. destruct (0 <? skip_samples); [now apply Forall_drop|exact Hall]. }
    destruct (mean_between py interior lo hi) as (q & Hq & Hb).
    { intros E. rewrite E in Hint. cbn in Hint. lia. }
    { exact Hall'. }
    exists q. split; [exact Hq|]. split; [|exact Hb].
    unfold py_div in Hq.
    destruct (Z.eqb_spec (Z.of_nat (length interior)) 0); [discriminate|].
    now injection Hq as <-.
Qed.

Lemma get_traffic_rx_stats_from_vm_average_witness :
  let rates := [0; 900; 1000; 1000; 1000; 1000; 1001; 1003; 1002; 1000;
                1000; 1000; 1000; 1000; 700] in
  Forall (fun r => 0 <= r <= 1003) rates /\
  get_traffic_rx_stats_from_vm Python2 rates 2 = Return 1001%Q /\
  get_traffic_rx_stats_from_vm Python3 rates 5
  = Raise (SystemExit NotEnoughElements (-1)).
Proof.
  intros rates.
  assert (Forall (fun r => 0 <= r <= 1003) rates) as Hall.
  { unfold rates. repeat constructor; lia. }
  split; [exact Hall|]. split.
  - destruct (get_traffic_rx_stats_from_vm_average Python2 rates 2 0 1003 Hall)
      as (_ & Hreturn).
    destruct Hreturn as (_ & q & -> & -> & _); [vm_compute; reflexivity|].
    reflexivity.
  - destruct (get_traffic_rx_stats_from_vm_average Python3 rates 5 0 1003 Hall)
      as (Hexit & _).
    apply Hexit. vm_compute. discriminate.
Defined.

(** ** Rates from the snapshots of the traffic generator *)

Lemma interior_timestamps_keys (stats : gmap Z Z) (t : Z) :
  t ∈ interior_timestamps stats -> is_Some (stats !! t).
Proof.
  unfold interior_timestamps, slice_2_m2, natsorted_Z. intros Hin.
  apply subseteq_drop, subseteq_take in Hin.
  rewrite stable_sort_Permutation in Hin.
  apply list_elem_of_fmap in Hin as ([k v] & -> & Hkv).
  apply elem_of_map_to_list in Hkv. cbn. eauto.
Qed.

(** X7: the average over the snapshots of the traffic generator, receive
    or transmit, raises [ZeroDivisionError] when four snapshots or fewer
    were taken, since the first two and last two are dropped; with five or
    more it returns a rate between the lowest and the highest reading. *)
Theorem traffic_generator_stats_average
    (py : python_version) (stats : gmap Z Z) (lo hi : Z) :
  (forall k v, stats !! k = Some v -> lo <= v <= hi) ->
  get_packets_per_second_from_traffic_generator_tx_stats py stats
  = get_packets_per_second_from_traffic_generator_rx_stats py stats /\
  ((size stats <= 4)%nat ->
   get_packets_per_second_from_traffic_generator_rx_stats py stats
   = Raise ZeroDivisionError) /\
  ((4 < size stats)%nat ->
   exists q,
     get_packets_per_second_from_traffic_generator_rx_stats py stats = Return q /\
     (inject_Z lo <= q)%Q /\ (q <= inject_Z hi)%Q).
Proof.
  intros Hbounds. split; [reflexivity|].
  rewrite rx_stats_average.
  pose proof (interior_timestamps_length stats) as Hlen.
  split; intros Hsize.
  - rewrite Hlen. replace (size stats - 4)%nat with 0%nat by lia. reflexivity.
  - rewrite <- (length_map (fun t => default 0 (stats !! t))).
    apply mean_between.
    + intros E. apply (f_equal length) in E. rewrite length_map, Hlen in E.
      cbn in E. lia.
    + apply Forall_fmap, Forall_forall. intros t Ht. cbn.
      destruct (interior_timestamps_keys stats t Ht) as [v Hv].
      rewrite Hv. cbn. now apply (Hbounds t).
Qed.

Lemma traffic_generator_stats_average_witness :
  let stats : gmap Z Z :=
    list_to_map [(1, 10); (2, 500); (3, 1000); (4, 1002); (5, 1004); (6, 400); (7, 0)] in
  (forall k v, stats !! k = Some v -> 0 <= v <= 1004) /\
  get_packets_per_second_from_traffic_generator_rx_stats Python2 stats = Return 1002%Q /\
  get_packets_per_second_from_traffic_generator_rx_stats Python2 (∅ : gmap Z Z)
  = Raise ZeroDivisionError.
Proof.
  intros stats.
  assert (forall k v, stats !! k = Some v -> 0 <= v <= 1004) as Hb.
  { intros k v Hkv. apply elem_of_list_to_map_2 in Hkv.
    repeat (apply elem_of_cons in Hkv as [[= -> ->]|Hkv]; [lia|]).
    now apply elem_of_nil in Hkv. }
  split; [exact Hb|].
  destruct (traffic_generator_stats_average Python2 stats 0 1004 Hb) as (_ & _ & Hret).
  destruct Hret as (q & Hq & _); [vm_compute; lia|].
  split; [reflexivity|].
  apply (traffic_generator_stats_average Python2 ∅ 0 0).
  - intros k v H. rewrite lookup_empty in H. discriminate H.
  - rewrite map_size_empty. lia.
Defined.

(** X8: under Python 2, with the counters parsed,
    [get_packets_per_second_from_pkt_counters] exits with the
    not-enough-elements error exactly when [strip < 0] or fewer than
    [2 * strip + 2] samples are given; otherwise the sum of the first
    differences telescopes, and the rate is the last remaining sample
    minus the first, divided (rounding down) by the number of
    differences. *)
Theorem counter_series_rate_python2
    (parse_counters : string -> outcome (list Z))
    (counters : string) (l : list Z) (strip : Z) :
  parse_counters counters = Return l ->
  get_packets_per_second_from_pkt_counters Python2 parse_counters counters strip
  = if (strip <? 0) || (Z.of_nat (length l) <? 2 * strip + 2)
    then Raise (SystemExit NotEnoughElements (-1))
    else
      let l' := stripped l strip in
      let n := Z.of_nat (length l') in
      Return (inject_Z ((item l' (n - 1) - item l' 0) / (n - 1))).
Proof.
  apply python2_rate.
Qed.

Lemma counter_series_rate_python2_witness :
  parse_plain "5 7 1000 1010 1030 9 9" = Return [5; 7; 1000; 1010; 1030; 9; 9] /\
  get_packets_per_second_from_pkt_counters Python2 parse_plain
    "5 7 1000 1010 1030 9 9" 2 = Return 15%Q.
Proof.
  split; [reflexivity|].
  rewrite (counter_series_rate_python2 parse_plain "5 7 1000 1010 1030 9 9"
             [5; 7; 1000; 1010; 1030; 9; 9] 2 eq_refl).
  reflexivity.
Defined.

(** ** Cool-down of the flow table *)

Section CoolDownFacts.
Variable get_active_datapath_flows : nat -> Z.
Variable failure_fatal : bool.

Lemma cool_down_loop_ends (fuel : nat) (st : WarmUpState) :
  run_time st + 1 = Z.of_nat (polls st) -> 0 <= run_time st < 20 ->
  active_flows st = get_active_datapath_flows (polls st - 1)%nat ->
  (forall k, (S k < polls st)%nat -> 32 < get_active_datapath_flows k) ->
  20 - run_time st <= Z.of_nat fuel ->
  exists e st',
    cool_down_loop get_active_datapath_flows fuel failure_fatal st = Return (e, st') /\
    (polls st' <= 20)%nat /\
    ((e = CooledDown /\ active_flows st' <= 32 /\
      active_flows st' = get_active_datapath_flows (polls st' - 1)%nat /\
      forall k, (S k < polls st')%nat -> 32 < get_active_datapath_flows k) \/
     (e = (if failure_fatal then CoolDownExit else CoolDownGaveUp) /\
      polls st' = 20%nat /\
      forall k, (k < 20)%nat -> 32 < get_active_datapath_flows k)).
Proof.
  revert st. induction fuel as [|fuel IH]; intros st Hpolls Hrun Hact Hover Hfuel;
    cbn [cool_down_loop].
  - destruct (Z.ltb_spec 32 (active_flows st)); [lia|].
    exists CooledDown, st. split; [reflexivity|]. split; [lia|]. left. now repeat split.
  - destruct (Z.ltb_spec 32 (active_flows st)) as [Hbusy|Hcool].
    + assert (forall k, (k < polls st)%nat -> 32 < get_active_datapath_flows k) as Hall.
      { intros k Hk. destruct (decide (S k = polls st)) as [E|NE].
        - rewrite <- E in Hact. cbn in Hact. rewrite Nat.sub_0_r in Hact. lia.
        - apply Hover. lia. }
      destruct (Z.leb_spec 20 (run_time st + 1)) as [Hlate|Hearly].
      * eexists _, _. split; [reflexivity|]. cbn [polls]. split; [lia|].
        right. split; [reflexivity|]. split; [lia|].
        intros k Hk. apply Hall. lia.
      * apply IH; cbn [run_time active_flows polls]; try lia.
        -- f_equal. lia.
        -- intros k Hk. apply Hall. lia.
    + exists CooledDown, st. split; [reflexivity|]. split; [lia|]. left. now repeat split.
Qed.
End CoolDownFacts.

(** X9: [flow_table_cool_down] always ends within 20 readings of the
    flow count. It does nothing when neither warm-up nor cool-down is
    configured; it ends quietly as soon as a reading is 32 or less; and
    only when all of the first 20 readings are above 32 does it give up,
    with [sys.exit(-1)] if [failure_fatal] and with a warning otherwise. *)
Theorem flow_table_cool_down_bounded
    (get_active_datapath_flows : nat -> Z) (warm_up no_cool_down failure_fatal : bool) :
  exists (e : cool_down_end) (st : WarmUpState),
    flow_table_cool_down get_active_datapath_flows warm_up no_cool_down failure_fatal 20
    = Return (e, st) /\
    (polls st <= 20)%nat /\
    (e = CoolDownSkipped <-> warm_up || negb no_cool_down = false) /\
    (e = CooledDown ->
     active_flows st <= 32 /\
     active_flows st = get_active_datapath_flows (polls st - 1)%nat /\
     forall k, (S k < polls st)%nat -> 32 < get_active_datapath_flows k) /\
    (e = CoolDownExit \/ e = CoolDownGaveUp ->
     e = (if failure_fatal then CoolDownExit else CoolDownGaveUp) /\
     forall k, (k < 20)%nat -> 32 < get_active_datapath_flows k).
Proof.
  unfold flow_table_cool_down.
  destruct (warm_up || negb no_cool_down) eqn:Econf.
  - destruct (cool_down_loop_ends get_active_datapath_flows failure_fatal 20
                (mkWarmUpState 0 (get_active_datapath_flows 0%nat) 1))
      as (e & st & Hrun & Hpolls & Hend);
      cbn [run_time active_flows polls Nat.sub].
    { reflexivity. }
    { lia. }
    { reflexivity. }
    { intros k Hk. lia. }
    { lia. }
    exists e, st. split; [exact Hrun|]. split; [exact Hpolls|].
    destruct Hend as [(-> & Hcool)|(-> & _ & Hall)].
    + split; [split; discriminate|]. split; [intros _; exact Hcool|].
      intros [?|?]; discriminate.
    + split; [split; [destruct failure_fatal|]; discriminate|].
      split; [destruct failure_fatal; discriminate|].
      intros _. split; [reflexivity|exact Hall].
  - exists CoolDownSkipped, (mkWarmUpState 0 0 0).
    split; [reflexivity|]. cbn [polls]. split; [lia|].
    split; [split; reflexivity|]. split; [discriminate|].
    intros [?|?]; discriminate.
Qed.

(** ** Bidirectional L3 and L4 rules *)

Section L3L4Facts.
Variable config : Config.
Variable observed_rule_count : list rule_command -> Z.

Local Abbreviation dump :=
  (if debug config || debug_dut_shell config then [RuleDumpPorts] else []).

(** X10: the bidirectional L3 installation refuses more than 1,000,000
    flows before it sends anything. Otherwise it sends, in this order, the
    flush (unless [clear_rules] is off), the rules one way and the rules
    the other way over the same address range, and reads the rule count
    back once, at the end, against the expected total ([2 * n] by
    default): the first direction is never verified on its own, and no
    count is read when the total is 0. *)
Theorem create_ovs_bidirectional_l3_of_rules_spec
    (n src_port dst_port : Z) (kwargs : L3Kwargs) (dut : list rule_command) :
  let clear_rules := default true (l3_clear_rules kwargs) in
  let total := default (n * 2) (l3_total_number_of_flows kwargs) in
  let start := default 0x01000000 (l3_ipv4_start kwargs) in
  let sent := dut ++ (if clear_rules then [RuleFlush] else [])
                  ++ dump ++ [RuleAddL3 src_port dst_port start (n + start)]
                  ++ dump ++ [RuleAddL3 dst_port src_port start (n + start)] in
  create_ovs_bidirectional_l3_of_rules config observed_rule_count
                                       n src_port dst_port kwargs dut
  = if 1000000 <? n then RuleExit (TooManyFlows 1000000)
    else if total =? 0 then Installed sent
    else if observed_rule_count (sent ++ [RuleCount]) =? total
         then Installed (sent ++ [RuleCount])
         else RuleExit (WrongFlowCount n (observed_rule_count (sent ++ [RuleCount]))).
Proof.
  intros clear_rules total start sent. subst sent.
  unfold create_ovs_bidirectional_l3_of_rules, create_ovs_l3_of_rules, verify_rule_count.
  fold clear_rules total start.
  cbn [l3_total_number_of_flows l3_clear_rules l3_ipv4_start default from_option id].
  destruct (1000000 <? n); [reflexivity|].
  cbn [Z.eqb negb].
  destruct clear_rules; destruct (debug config || debug_dut_shell config);
    cbn [app]; rewrite <- ?app_assoc; cbn [app];
    destruct (total =? 0); cbn [negb]; try reflexivity;
    rewrite <- ?app_assoc; cbn [app];
    match goal with
    | |- context [observed_rule_count ?t =? total] =>
        destruct (observed_rule_count t =? total)
    end; reflexivity.
Qed.

(** X11: the bidirectional L4 installation refuses more than 1,000,000
    flows before it sends anything. Otherwise the first direction deletes
    the flows, flushes, adds its rules and, for a flow count other than
    0, must read back [n] rules; only then does the second direction,
    which clears nothing, add its rules and verify [2 * n]. *)
Theorem create_ovs_bidirectional_l4_of_rules_spec
    (n src_port dst_port : Z) (dut : list rule_command) :
  let first := dut ++ [RuleDelFlows; RuleFlush] ++ dump
                   ++ [RuleAddL4 src_port dst_port n] in
  let second counted := counted ++ dump ++ [RuleAddL4 dst_port src_port n] in
  create_ovs_bidirectional_l4_of_rules config observed_rule_count n src_port dst_port dut
  = if 1000000 <? n then RuleExit (TooManyFlows 1000000)
    else if n =? 0 then Installed (second first)
    else if observed_rule_count (first ++ [RuleCount]) =? n then
      if observed_rule_count (second (first ++ [RuleCount]) ++ [RuleCount]) =? n * 2
      then Installed (second (first ++ [RuleCount]) ++ [RuleCount])
      else RuleExit (WrongFlowCount n
                       (observed_rule_count
                          (second (first ++ [RuleCount]) ++ [RuleCount])))
    else RuleExit (WrongFlowCount n (observed_rule_count (first ++ [RuleCount]))).
Proof.
  intros first second. subst first second.
  unfold create_ovs_bidirectional_l4_of_rules, create_ovs_l4_of_rules, verify_rule_count.
  cbn [default from_option id].
  destruct (1000000 <? n); [reflexivity|].
  destruct (Z.eqb_spec n 0) as [->|Hn].
  - cbn [Z.mul Z.eqb negb].
    destruct (debug config || debug_dut_shell config);
      cbn [app]; rewrite <- ?app_assoc; reflexivity.
  - destruct (Z.eqb_spec (n * 2) 0) as [|_]; [lia|]. cbn [negb].
    destruct (debug config || debug_dut_shell config);
      cbn [app]; rewrite <- ?app_assoc; cbn [app];
      match goal with
      | |- context [observed_rule_count ?t =? n] =>
          destruct (observed_rule_count t =? n)
      end; cbn [negb]; try reflexivity;
      rewrite <- ?app_assoc; cbn [app];
      match goal with
      | |- context [observed_rule_count ?t =? n * 2] =>
          destruct (observed_rule_count t =? n * 2)
      end; reflexivity.
Qed.
End L3L4Facts.

(** ** The addresses of the generated rules *)

Lemma byte_of_shift (i k : Z) :
  0 <= k -> Z.land (Z.shiftr i k) 0xff = (i / 2 ^ k) mod 256.
Proof.
  intros Hk. rewrite Z.shiftr_div_pow2 by exact Hk.
  change 0xff with (Z.ones 8). now rewrite Z.land_ones by lia.
Qed.

Lemma byte_low (i : Z) : Z.land i 0xff = i mod 256.
Proof.
  change 0xff with (Z.ones 8). now rewrite Z.land_ones by lia.
Qed.

Lemma ipv4_octets_value (i : Z) :
  0 <= i < 2 ^ 32 ->
  ipv4_octets i = [i / 2 ^ 24; (i / 2 ^ 16) mod 256; (i / 2 ^ 8) mod 256; i mod 256] /\
  bytes_value (ipv4_octets i) = i /\
  Forall (fun b => 0 <= b <= 255) (ipv4_octets i).
Proof.
  intros Hi. unfold ipv4_octets.
  rewrite !byte_of_shift, byte_low by lia.
  assert ((i / 2 ^ 24) mod 256 = i / 2 ^ 24) as E.
  { apply Z.mod_small. split; [apply Z.div_pos; lia|].
    apply Z.div_lt_upper_bound; lia. }
  rewrite E. split; [reflexivity|]. split.
  - cbn [bytes_value fold_left].
    change (2 ^ 24) with 16777216. change (2 ^ 16) with 65536. change (2 ^ 8) with 256.
    change (2 ^ 32) with 4294967296 in Hi.
    Z.div_mod_to_equations. lia.
  - change (2 ^ 24) with 16777216 in *. change (2 ^ 16) with 65536.
    change (2 ^ 8) with 256. change (2 ^ 32) with 4294967296 in Hi.
    repeat constructor; Z.div_mod_to_equations; lia.
Qed.

(** X12: with the default start 1.0.0.0 and at most 1,000,000 flows, the
    rule for the k-th flow matches a source inside 1.0.0.0/8 and a
    destination inside 2.0.0.0/8, each the start of its range plus [k]:
    the four numbers printed are valid octets that spell exactly that
    address, so no two flows share a rule and the two ranges never meet. *)
Theorem l3_rule_addresses_in_range (n k : Z) :
  n <= 1000000 -> 0 <= k < n ->
  In (0x01000000 + k) (py_range 0x01000000 (n + 0x01000000)) /\
  let '(nw_src, nw_dst) := l3_rule_addresses (0x01000000 + k) in
  nth 0 nw_src 0 = 1 /\ nth 0 nw_dst 0 = 2 /\
  bytes_value nw_src = 0x01000000 + k /\
  bytes_value nw_dst = 0x02000000 + k /\
  Forall (fun b => 0 <= b <= 255) (nw_src ++ nw_dst).
Proof.
  intros Hn Hk. split.
  - unfold py_range. apply in_map_iff. exists (Z.to_nat k).
    split; [lia|]. apply in_seq. lia.
  - unfold l3_rule_addresses.
    destruct (ipv4_octets_value (0x01000000 + k)) as (Es & Vs & Bs); [lia|].
    destruct (ipv4_octets_value (0x01000000 + k + 0x01000000)) as (Ed & Vd & Bd); [lia|].
    split; [|split; [|split; [exact Vs|split; [rewrite Vd; lia|]]]].
    + rewrite Es. cbn [nth]. change (2 ^ 24) with 16777216.
      Z.div_mod_to_equations. lia.
    + rewrite Ed. cbn [nth]. change (2 ^ 24) with 16777216.
      Z.div_mod_to_equations. lia.
    + apply Forall_app. now split.
Qed.

Lemma l3_rule_addresses_in_range_witness :
  1000 <= 1000000 /\ 0 <= 999 < 1000 /\
  l3_rule_addresses (0x01000000 + 999) = ([1; 0; 3; 231], [2; 0; 3; 231]).
Proof.
  split; [lia|]. split; [lia|].
  destruct (l3_rule_addresses_in_range 1000 999 ltac:(lia) ltac:(lia)) as [_ H].
  destruct (l3_rule_addresses (0x01000000 + 999)) as [nw_src nw_dst] eqn:E.
  vm_compute in E. now injection E as <- <-.
Defined.

Lemma land_oui (mac : Z) :
  0 <= mac < 2 ^ 48 -> Z.land mac 0xffffff000000 = mac / 2 ^ 24 * 2 ^ 24.
Proof.
  intros Hmac.
  rewrite <- Z.shiftr_div_pow2, <- Z.shiftl_mul_pow2 by lia.
  apply Z.bits_inj'. intros i Hi.
  rewrite Z.land_spec.
  change 0xffffff000000 with (Z.shiftl (Z.ones 24) 24).
  rewrite !Z.shiftl_spec by exact Hi.
  destruct (Z.lt_ge_cases i 24) as [Hlow|Hhigh].
  - rewrite (Z.testbit_neg_r (Z.ones 24)) by lia.
    rewrite (Z.testbit_neg_r (Z.shiftr mac 24)) by lia.
    apply andb_false_r.
  - rewrite Z.shiftr_spec by lia. replace (i - 24 + 24) with i by lia.
    destruct (Z.lt_ge_cases i 48) as [Hin|Hout].
    + rewrite Z.ones_spec_low by lia. apply andb_true_r.
    + assert (Z.testbit mac i = false) as ->; [|reflexivity].
      destruct (Z.eq_dec mac 0) as [->|Hne]; [apply Z.bits_0|].
      apply Z.bits_above_log2; [lia|].
      assert (Z.log2 mac < 48); [|lia].
      apply Z.log2_lt_pow2; lia.
Qed.

(** X13: for a 48-bit MAC address and up to 2^24 flows, one call of the
    L2 installation adds one rule per flow, and the [dl_dst] of the k-th
    keeps the first three bytes of the configured address (the
    destination address, or the source address under [mac_swap]) and
    counts [k] in the last three. *)
Theorem l2_rule_macs_keep_prefix (config : Config) (swap : bool) (n k : Z) :
  let mac := if negb swap then dst_mac_address config else src_mac_address config in
  0 <= mac < 2 ^ 48 -> n <= 2 ^ 24 -> 0 <= k < n ->
  length (l2_rule_macs config swap n) = Z.to_nat n /\
  nth (Z.to_nat k) (l2_rule_macs config swap n) []
  = take 3 (mac_bytes mac)
    ++ [(k / 2 ^ 16) mod 256; (k / 2 ^ 8) mod 256; k mod 256].
Proof.
  intros mac Hmac Hn Hk. unfold l2_rule_macs, py_range.
  replace (n + base_mac_of config swap - base_mac_of config swap) with n by lia.
  split; [now rewrite !length_map, length_seq|].
  rewrite map_map.
  set (g := fun x : nat => mac_bytes (base_mac_of config swap + Z.of_nat x)).
  rewrite (nth_indep _ [] (g 0%nat)) by (rewrite length_map, length_seq; lia).
  rewrite (map_nth g), seq_nth by lia. subst g. cbn beta.
  cbn [Nat.add]. rewrite Z2Nat.id by lia.
  unfold base_mac_of. fold mac. rewrite (land_oui mac Hmac).
  unfold mac_bytes. cbn [take]. rewrite !byte_of_shift, !byte_low by lia.
  change (2 ^ 40) with 1099511627776. change (2 ^ 32) with 4294967296.
  change (2 ^ 24) with 16777216 in *. change (2 ^ 16) with 65536.
  change (2 ^ 8) with 256. change (2 ^ 48) with 281474976710656 in Hmac.
  cbn [app].
  repeat match goal with
         | |- _ :: _ = _ :: _ => f_equal; [Z.div_mod_to_equations; lia|]
         end.
  f_equal. Z.div_mod_to_equations. lia.
Qed.

Lemma l2_rule_macs_keep_prefix_witness :
  let config := mkConfig "br0" 0x001122334455 0x00aabbccddee false false false in
  0 <= 0x001122334455 < 2 ^ 48 /\ 300 <= 2 ^ 24 /\ 0 <= 258 < 300 /\
  nth 258 (l2_rule_macs config false 300) [] = [0x00; 0x11; 0x22; 0; 1; 2].
Proof.
  intros config. split; [lia|]. split; [lia|]. split; [lia|].
  destruct (l2_rule_macs_keep_prefix config false 300 258) as (_ & H);
    [cbn; lia|lia|lia|].
  change (Z.to_nat 258) with 258%nat in H. rewrite H. reflexivity.
Defined.

(** ** check_list *)

Lemma split_comma_not_empty (s cur : string) : split_comma s cur <> [].
Proof.
  revert cur. induction s as [|c s IH]; intros cur; cbn [split_comma]; [discriminate|].
  destruct (Ascii.eqb c ","); [discriminate|apply IH].
Qed.

Section CheckListFacts.
Variable int_of_string : string -> option Z.

Lemma check_entries_spec (entries : list string) (min_val max_val last_entry : Z) :
  check_entries int_of_string entries min_val max_val last_entry = true <->
  exists values,
    Forall2 (fun entry value => int_of_string entry = Some value) entries values /\
    Sorted Z.lt (last_entry :: values) /\
    Forall (fun value => min_val <= value <= max_val) values.
Proof.
  revert last_entry. induction entries as [|entry rest IH]; intros last_entry;
    cbn [check_entries].
  - split; [intros _|reflexivity]. exists []. repeat constructor.
  - destruct (int_of_string entry) as [value|] eqn:Eint.
    + destruct (Z.ltb_spec value min_val) as [Hlow|Hlow]; cbn [orb].
      { split; [discriminate|]. intros (values & Hparse & _ & Hrange).
        inversion Hparse as [|? v ? vs Hv Hvs]; subst.
        inversion Hrange; subst. exfalso. rewrite Eint in Hv. injection Hv as <-. lia. }
      destruct (Z.ltb_spec max_val value) as [Hhigh|Hhigh]; cbn [orb].
      { split; [discriminate|]. intros (values & Hparse & _ & Hrange).
        inversion Hparse as [|? v ? vs Hv Hvs]; subst.
        inversion Hrange; subst. exfalso. rewrite Eint in Hv. injection Hv as <-. lia. }
      destruct (Z.leb_spec value last_entry) as [Hlast|Hlast].
      { split; [discriminate|]. intros (values & Hparse & Hsorted & _).
        inversion Hparse as [|? v ? vs Hv Hvs]; subst.
        rewrite Eint in Hv. injection Hv as <-.
        inversion Hsorted as [|? ? _ Hhd]; subst. inversion Hhd; subst. lia. }
      rewrite IH. split.
      * intros (values & Hparse & Hsorted & Hrange).
        exists (value :: values). split; [now constructor|]. split.
        -- constructor; [exact Hsorted|]. now constructor.
        -- constructor; [lia|exact Hrange].
      * intros (values & Hparse & Hsorted & Hrange).
        inversion Hparse as [|? v ? vs Hv Hvs]; subst.
        rewrite Eint in Hv. injection Hv as <-.
        exists vs. split; [exact Hvs|]. split.
        -- now inversion Hsorted.
        -- now inversion Hrange.
    + split; [discriminate|]. intros (values & Hparse & _).
      inversion Hparse as [|? v ? vs Hv Hvs]; subst. congruence.
Qed.

(** X14: [check_list] accepts a string exactly when every entry between
    its commas converts to an integer, the integers are strictly
    ascending with the first above 0, and each lies within
    [min_val .. max_val]. The split has at least one entry, so the test
    for an empty list never fires; an accepted list therefore names at
    least one value and no value twice. *)
Theorem check_list_spec (list_string : string) (min_val max_val : Z) :
  split_comma list_string EmptyString <> [] /\
  (check_list int_of_string list_string min_val max_val = true <->
   exists values,
     Forall2 (fun entry value => int_of_string entry = Some value)
             (split_comma list_string EmptyString) values /\
     Sorted Z.lt (0 :: values) /\
     Forall (fun value => min_val <= value <= max_val) values).
Proof.
  split; [apply split_comma_not_empty|].
  unfold check_list.
  destruct (split_comma list_string EmptyString) as [|entry rest] eqn:E.
  - exfalso. exact (split_comma_not_empty _ _ E).
  - cbn [length Nat.eqb]. apply check_entries_spec.
Qed.
End CheckListFacts.

(** The stream lists ["1,10,1000"] and ["10,10"], with an [int] that
    reads decimal digits. *)
Example check_list_streams :
  let int_of := fun s => if is_number_key s
                         then Some (Z.of_N (decimal_value s 0)) else None in
  split_comma "1,10,1000" "" = ["1"; "10"; "1000"]%string /\
  check_list int_of "1,10,1000" 1 1000000 = true /\
  check_list int_of "10,10" 1 1000000 = false /\
  check_list int_of "64,,128" 64 9000 = false /\
  check_list int_of "" 1 1000000 = false.
Proof.
  repeat split; reflexivity.
Qed.

(** ** eth_utilization *)

Lemma py_int_nonnegative (x : Q) : (0 <= x)%Q -> py_int x = Qfloor x /\ 0 <= Qfloor x.
Proof.
  intros Hx. unfold py_int.
  rewrite (proj2 (Qle_bool_iff 0 x) Hx). split; [reflexivity|].
  change 0 with (Qfloor 0). now apply Qfloor_resp_le.
Qed.

(** X15: for a positive line speed, a packet size from -24 up and a
    packet rate that is not negative, [eth_utilization] returns a
    percentage between 0 and 100, and 100 as soon as the bits offered per
    second, with the 24 bytes of gap, preamble and CRC per packet, reach
    the line speed. A line speed of 0 raises [ZeroDivisionError]. *)
Theorem eth_utilization_clamped (line_speed_bps packet_size : Z) (packets_per_second : Q) :
  0 < line_speed_bps -> -24 <= packet_size -> (0 <= packets_per_second)%Q ->
  (exists util,
      eth_utilization line_speed_bps packet_size packets_per_second = Return util /\
      0 <= util <= 100 /\
      ((inject_Z line_speed_bps
        <= inject_Z ((12 + 8 + packet_size + 4) * 8) * packets_per_second)%Q ->
       util = 100)) /\
  eth_utilization 0 packet_size packets_per_second = Raise ZeroDivisionError.
Proof.
  intros Hline Hsize Hpps. split; [|reflexivity].
  unfold eth_utilization.
  destruct (Z.eqb_spec line_speed_bps 0) as [E|_]; [lia|].
  set (bits := (inject_Z ((12 + 8 + packet_size + 4) * 8) * packets_per_second)%Q).
  assert (0 < inject_Z line_speed_bps)%Q as Hq.
  { change 0%Q with (inject_Z 0). rewrite <- Zlt_Qlt. exact Hline. }
  assert (0 <= bits)%Q as Hbits.
  { apply Qmult_le_0_compat; [|exact Hpps].
    change 0%Q with (inject_Z 0). rewrite <- Zle_Qle. lia. }
  assert (0 <= bits / inject_Z line_speed_bps * 100)%Q as Hx.
  { apply Qmult_le_0_compat; [|discriminate].
    apply Qle_shift_div_l; [exact Hq|]. now rewrite Qmult_0_l. }
  destruct (py_int_nonnegative _ Hx) as [-> Hfloor].
  eexists. split; [reflexivity|]. split.
  - destruct (Z.ltb_spec 100 (Qfloor (bits / inject_Z line_speed_bps * 100))); lia.
  - intros Hfull.
    assert (100 <= bits / inject_Z line_speed_bps * 100)%Q as Hhundred.
    { apply (Qle_trans _ (1 * 100)); [discriminate|].
      apply Qmult_le_compat_r; [|discriminate].
      apply Qle_shift_div_l; [exact Hq|]. now rewrite Qmult_1_l. }
    apply Qfloor_resp_le in Hhundred. change (Qfloor 100) with 100 in Hhundred.
    destruct (Z.ltb_spec 100 (Qfloor (bits / inject_Z line_speed_bps * 100))); lia.
Qed.

(** 64-byte packets on a 10 Gbit/s line, 704 bits each on the wire:
    14,204,545 packets per second fill 99 percent of it, one more all of
    it. *)
Lemma eth_utilization_clamped_witness :
  eth_utilization 10000000000 64 (inject_Z 14204545) = Return 99 /\
  exists util,
    eth_utilization 10000000000 64 (inject_Z 14204546) = Return util /\ util = 100.
Proof.
  split; [reflexivity|].
  destruct (eth_utilization_clamped 10000000000 64 (inject_Z 14204546))
    as [(util & Hutil & Hrange & Hfull) _]; [lia|lia|discriminate|].
  exists util. split; [exact Hutil|]. apply Hfull. vm_compute. discriminate.
Defined.

(** ** The CPU classes of get_cpu_monitoring_stats *)

(** The four prefixes start with different letters: a thread name has at
    most one of them. *)
Lemma thread_prefixes_exclusive (name : string) :
  (String.prefix "pmd" name = true ->
   String.prefix "revalidator" name = false /\ String.prefix "handler" name = false /\
   String.prefix "urcu" name = false) /\
  (String.prefix "revalidator" name = true ->
   String.prefix "handler" name = false /\ String.prefix "urcu" name = false) /\
  (String.prefix "handler" name = true -> String.prefix "urcu" name = false).
Proof.
  destruct name as [|c name]; [repeat split; discriminate|].
  cbn [String.prefix].
  destruct (ascii_dec "p" c) as [<-|Hp]; [repeat split; reflexivity|].
  destruct (ascii_dec "r" c) as [<-|Hr]; [repeat split; (reflexivity || discriminate)|].
  destruct (ascii_dec "h" c) as [<-|Hh]; [repeat split; (reflexivity || discriminate)|].
  repeat split; discriminate.
Qed.

Lemma fold_add_thread (matches : list (Q * string)) (acc : OvsCpu) :
  let usages (keep : string -> bool) (matches : list (Q * string)) (start : Q) :=
    fold_left Qplus (map fst (List.filter (fun m => keep m.2) matches)) start in
  let c := fold_left add_thread matches acc in
  ovs_cpu_pmd c = usages (String.prefix "pmd") matches (ovs_cpu_pmd acc) /\
  ovs_cpu_revalidator c
  = usages (String.prefix "revalidator") matches (ovs_cpu_revalidator acc) /\
  ovs_cpu_handler c = usages (String.prefix "handler") matches (ovs_cpu_handler acc) /\
  ovs_cpu_urcu c = usages (String.prefix "urcu") matches (ovs_cpu_urcu acc) /\
  ovs_cpu_other c
  = usages (fun name => negb (String.prefix "pmd" name || String.prefix "revalidator" name
                              || String.prefix "handler" name || String.prefix "urcu" name))
           matches (ovs_cpu_other acc).
Proof.
  revert acc. induction matches as [|[usage name] matches IH]; intros acc.
  { repeat split. }
  cbn zeta. cbn [fold_left]. specialize (IH (add_thread acc (usage, name))).
  cbn zeta in IH. destruct IH as (-> & -> & -> & -> & ->).
  cbn [List.filter snd add_thread].
  destruct (thread_prefixes_exclusive name) as (Hp & Hr & Hh).
  destruct (String.prefix "pmd" name).
  { destruct Hp as (-> & -> & ->); [reflexivity|]. repeat split. }
  destruct (String.prefix "revalidator" name).
  { destruct Hr as (-> & ->); [reflexivity|]. repeat split. }
  destruct (String.prefix "handler" name).
  { rewrite Hh by reflexivity. repeat split. }
  destruct (String.prefix "urcu" name); repeat split.
Qed.

(** X16: [get_cpu_monitoring_stats] adds the usage of every matched
    thread to one class only, and the class is decided by the prefix of
    the thread name alone: each of the pmd, revalidator, handler and urcu
    figures is the sum, in the order of the matches, over the threads
    whose name starts with that word, and the figure for the others is
    the sum over the threads with none of the four prefixes. No name has
    two of the prefixes, so the order of the tests plays no part. *)
Theorem ovs_cpu_classes_by_prefix (matches : list (Q * string)) :
  let sum_of (keep : string -> bool) :=
    fold_left Qplus (map fst (List.filter (fun m => keep m.2) matches)) 0%Q in
  let c := ovs_cpu_classes matches in
  ovs_cpu_pmd c = sum_of (String.prefix "pmd") /\
  ovs_cpu_revalidator c = sum_of (String.prefix "revalidator") /\
  ovs_cpu_handler c = sum_of (String.prefix "handler") /\
  ovs_cpu_urcu c = sum_of (String.prefix "urcu") /\
  ovs_cpu_other c
  = sum_of (fun name => negb (String.prefix "pmd" name || String.prefix "revalidator" name
                              || String.prefix "handler" name || String.prefix "urcu" name)) /\
  forall name,
    (String.prefix "pmd" name = true ->
     String.prefix "revalidator" name = false /\ String.prefix "handler" name = false /\
     String.prefix "urcu" name = false) /\
    (String.prefix "revalidator" name = true ->
     String.prefix "handler" name = false /\ String.prefix "urcu" name = false) /\
    (String.prefix "handler" name = true -> String.prefix "urcu" name = false).
Proof.
  intros sum_of c.
  destruct (fold_add_thread matches (mkOvsCpu 0 0 0 0 0)) as (H1 & H2 & H3 & H4 & H5).
  repeat (split; [assumption|]).
  apply thread_prefixes_exclusive.
Qed.

(** The threads of a pidstat report: two PMD threads, a handler, a
    revalidator, the RCU thread and the main thread. *)
Example ovs_cpu_classes_pidstat :
  let c := ovs_cpu_classes [(100 # 1, "pmd-c01/id:8"); (3 # 2, "handler12");
                            (1 # 4, "revalidator15"); (99 # 1, "pmd-c02/id:9");
                            (1 # 10, "urcu3"); (2 # 1, "ovs-vswitchd")]%string in
  (ovs_cpu_pmd c == 199 /\ ovs_cpu_handler c == 3 # 2 /\ ovs_cpu_revalidator c == 1 # 4
   /\ ovs_cpu_urcu c == 1 # 10 /\ ovs_cpu_other c == 2 /\ ovs_cpu_total c == 20285 # 100)%Q.
Proof.
  repeat split.
Qed.

(** ** The loads of the zero-loss search as decrease rates *)

(** Whatever the metric, a search runs loads of its ladder only. *)
Lemma binary_search_calls_in_ladder {Result : Type}
    (run_test_function : list Z -> Z -> Result)
    (get_results_function : gmap Z Result -> Z -> Q)
    (min_value max_value : Z) (required_result : Q) (step : Z) :
  int64 min_value -> int64 max_value -> 0 < step ->
  exists (values : list Z) (st : SearchState Result) (index : Z),
    candidate_ladder min_value max_value step = Return values /\
    binary_search run_test_function get_results_function
                  min_value max_value required_result step = Return (st, index) /\
    forall v, v ∈ calls st -> v ∈ values.
Proof.
  intros Hmin Hmax Hstep.
  pose proof (ladder_dtype_positive_step _ _ _ Hmin Hmax Hstep) as Hdtype.
  destruct (candidate_ladder_shape min_value max_value step ltac:(lia) Hdtype)
    as (k & Hladder & _).
  pose proof (candidate_ladder_NoDup _ _ _ _ Hdtype Hladder) as Hnd.
  set (values := rev _) in *. unfold binary_search. rewrite Hladder.
  cbn [mbind outcome_bind].
  destruct (Z.leb_spec (Z.of_nat (length values)) 1) as [Hle|Hgt].
  - exists values, empty_state, (-1). split; [reflexivity|]. split; [reflexivity|].
    intros v Hv. cbn in Hv. now apply elem_of_nil in Hv.
  - destruct (narrow_from_start run_test_function get_results_function values
                required_result (fun _ => True) (fun _ => True) Hnd)
      as (lo & st_loop & Hloop & HInv); [|lia|].
    { intros st v _ _. now destruct (Qgt_bool _ _). }
    rewrite Hloop. cbn [mbind outcome_bind].
    pose proof (finish_memoized _ get_results_function _ required_result _ _ _ _ _ HInv)
      as Hfinish.
    destruct (finish _ _ _ _ _ _ _) as [st index] eqn:Efinish.
    destruct Hfinish as (_ & _ & Hin).
    exists values, st, index. split; [reflexivity|]. split; [reflexivity|exact Hin].
Qed.

(** X17: every load the zero-loss search between 1 and 100 hands to the
    test function, for any positive step, any test function and any
    metric, lies between 1 and 100. The single run turns it into the
    decrease rate [100 - load], which is then inside the range from 0
    up to, not including, 100 that the assertion of the test function
    fails to enforce, and the percentage configured on the traffic
    generator is the load times 10000. *)
Theorem zero_loss_search_loads_in_range {Result : Type}
    (run_test_function : list Z -> Z -> Result)
    (get_results_function : gmap Z Result -> Z -> Q)
    (required_result : Q) (zero_loss_step : Z) :
  0 < zero_loss_step ->
  exists (st : SearchState Result) (index : Z),
    binary_search run_test_function get_results_function 1 100 required_result
                  zero_loss_step = Return (st, index) /\
    forall test_value, test_value ∈ calls st ->
      1 <= test_value <= 100 /\
      decrease_rate_in_range (inject_Z (100 - test_value)) = true /\
      exists percentage,
        binary_search_single_run_percentage test_value = Return percentage /\
        (percentage == inject_Z (test_value * 10000))%Q.
Proof.
  intros Hstep.
  destruct (binary_search_calls_in_ladder run_test_function get_results_function
              1 100 required_result zero_loss_step int64_1 int64_100 Hstep)
    as (values & st & index & Hladder & Hbs & Hin).
  exists st, index. split; [exact Hbs|].
  intros v Hv. apply Hin in Hv.
  pose proof (candidate_ladder_above_zero 1 100 zero_loss_step values int64_1 int64_100 Hstep Hladder v Hv)
    as Hpos.
  assert (v <= 100) as Hmax.
  { destruct (elem_of_item values v Hv) as (i & Hi & ->).
    destruct (candidate_ladder_positive_step 1 100 zero_loss_step int64_1 int64_100 Hstep)
      as (values' & Hladder' & Hitem & _).
    rewrite Hladder in Hladder'. injection Hladder' as <-.
    rewrite Hitem by exact Hi. nia. }
  split; [lia|].
  assert ((0 <= inject_Z (100 - v))%Q /\ (inject_Z (100 - v) < 100)%Q) as [Hlow Hhigh].
  { change 0%Q with (inject_Z 0). change 100%Q with (inject_Z 100).
    rewrite <- Zle_Qle, <- Zlt_Qlt. lia. }
  split.
  - unfold decrease_rate_in_range. apply andb_true_iff. split.
    + now apply Qle_bool_iff.
    + now apply Qgt_bool_true.
  - unfold binary_search_single_run_percentage, configured_percentage,
      decrease_rate_assertion.
    rewrite (proj2 (Qle_bool_iff 0 _) Hlow). cbn [orb].
    eexists. split; [reflexivity|].
    unfold Qeq, Qminus, Qplus, Qmult, Qopp, inject_Z. cbn [Qnum Qden]. lia.
Qed.

Lemma zero_loss_search_loads_in_range_witness :
  let run := fun (_ : list Z) (v : Z) => v in
  let metric := fun (m : gmap Z Z) (v : Z) => inject_Z (default 0 (m !! v) - 30) in
  0 < 7 /\
  exists st index,
    binary_search run metric 1 100 0 7 = Return (st, index) /\
    calls st = [51; 23; 37; 30] /\ index = 30 /\
    binary_search_single_run_percentage 30 = Return (300000 # 1)%Q.
Proof.
  intros run metric. split; [lia|].
  destruct (zero_loss_search_loads_in_range run metric 0 7 ltac:(lia))
    as (st & index & Hbs & _).
  exists st, index. split; [exact Hbs|].
  vm_compute in Hbs. injection Hbs as <- <-. repeat split.
Defined.

(** ** get_result_sets_from_zero_loss_results: a result without transmitted
       packets *)

Lemma dict_get_Return_In {V : Type} (d : list (string * V)) (k : string) (v : V) :
  dict_get d k = Return v -> In (k, v) d.
Proof.
  induction d as [|[k' v'] d IH]; cbn [dict_get In]; [discriminate|].
  destruct (String.eqb_spec k k') as [->|Hne].
  - intros [= ->]. now left.
  - intros H. right. now apply IH.
Qed.

Lemma dict_get_NoDup {V : Type} (d : list (string * V)) (k : string) (v : V) :
  NoDup (map fst d) -> In (k, v) d -> dict_get d k = Return v.
Proof.
  induction d as [|[k' v'] d IH]; cbn [map fst dict_get In]; [contradiction|].
  intros [Hk' Hnd]%NoDup_cons [[= -> ->]|Hin].
  - now rewrite String.eqb_refl.
  - destruct (String.eqb_spec k k') as [->|Hne]; [|now apply IH].
    exfalso. apply Hk', list_elem_of_In, in_map_iff. now exists (k', v).
Qed.

(** The inner loop either appends a value for every packet size, none of
    whose results has zero transmitted packets, or stops with
    [ZeroDivisionError] at one that has. *)
Lemma append_series_outcome (per_pkt_results : list (string * RunResult))
    (pkt_sizes : list string) :
  Forall (fun k => In k (map fst per_pkt_results)) pkt_sizes ->
  (exists rx cpu rate losses,
      append_series per_pkt_results pkt_sizes = Return (rx, cpu, rate, losses) /\
      length rx = length pkt_sizes /\ length cpu = length pkt_sizes /\
      length rate = length pkt_sizes /\ length losses = length pkt_sizes /\
      forall k r, In k pkt_sizes -> dict_get per_pkt_results k = Return r ->
                  total_tx_pkts r <> 0) \/
  (append_series per_pkt_results pkt_sizes = Raise ZeroDivisionError /\
   exists k r, In (k, r) per_pkt_results /\ total_tx_pkts r = 0).
Proof.
  induction 1 as [|k ks Hk _ IH]; cbn [append_series].
  { left. exists [], [], [], []. split; [reflexivity|]. repeat (split; [reflexivity|]).
    intros k r []. }
  destruct (dict_get_In _ _ Hk) as (r & Hr & Hin). rewrite Hr.
  cbn [mbind outcome_bind].
  destruct (Z.eq_dec (total_tx_pkts r) 0) as [E|NE].
  { right. unfold calc_loss_percentage. rewrite E. split; [reflexivity|]. now exists k, r. }
  assert (exists loss, calc_loss_percentage r = Return loss) as [loss ->].
  { unfold calc_loss_percentage.
    destruct (Z.eqb_spec (total_tx_pkts r) 0); [contradiction|eauto]. }
  cbn [mbind outcome_bind].
  destruct IH as [(rx & cpu & rate & losses & -> & Hrx & Hcpu & Hrate & Hlosses & Htx)
                 |(-> & Hzero)].
  - left. cbn [mbind outcome_bind]. do 4 eexists. split; [reflexivity|].
    cbn [length]. rewrite Hrx, Hcpu, Hrate, Hlosses. repeat (split; [reflexivity|]).
    intros k' r' [<-|Hin'] Hr'.
    + rewrite Hr in Hr'. now injection Hr' as <-.
    + eauto.
  - right. split; [reflexivity|exact Hzero].
Qed.

(** X18: with the packet sizes of each flow count distinct, as the keys
    of a dictionary are, [get_result_sets_from_zero_loss_results] either
    returns, for results none of which has zero transmitted packets, in
    each of its four outputs one series per flow count, in the order of
    the flow counts and with one value per packet size; or it raises
    [ZeroDivisionError], when some result has zero transmitted packets.
    It raises nothing else: no lookup misses its key. *)
Theorem get_result_sets_from_zero_loss_results_outcome
    (results : list (Z * list (string * RunResult))) :
  Forall (fun fr => NoDup (map fst fr.2)) results ->
  (Forall (fun fr => Forall (fun kr => total_tx_pkts kr.2 <> 0) fr.2) results /\
   exists sets,
     get_result_sets_from_zero_loss_results results = Return sets /\
     Forall2 (fun fr series => series.1 = fr.1 /\ length series.2 = length fr.2)
             results (test_results sets) /\
     Forall2 (fun fr series => series.1 = fr.1 /\ length series.2 = length fr.2)
             results (cpu_results sets) /\
     Forall2 (fun fr series => series.1 = fr.1 /\ length series.2 = length fr.2)
             results (traffic_rate_results sets) /\
     Forall2 (fun fr series => series.1 = fr.1 /\ length series.2 = length fr.2)
             results (loss_rate_results sets)) \/
  (Exists (fun fr => Exists (fun kr => total_tx_pkts kr.2 = 0) fr.2) results /\
   get_result_sets_from_zero_loss_results results = Raise ZeroDivisionError).
Proof.
  induction 1 as [|[nf per] results Hnd _ IH];
    cbn [get_result_sets_from_zero_loss_results].
  { left. split; [constructor|]. eexists. split; [reflexivity|].
    cbn. repeat split; constructor. }
  cbn [snd] in Hnd.
  destruct (append_series_outcome per (natsorted (map fst per)))
    as [(rx & cpu & rate & losses & -> & Hrx & Hcpu & Hrate & Hlosses & Htx)
       |(-> & k & r & Hin & Hzero)].
  { rewrite Forall_forall. intros k Hk.
    apply list_elem_of_In. unfold natsorted in Hk.
    now rewrite stable_sort_Permutation in Hk. }
  - cbn [mbind outcome_bind].
    assert (length (natsorted (map fst per)) = length per) as Hlen.
    { unfold natsorted. now rewrite stable_sort_length, length_map. }
    rewrite Hlen in Hrx, Hcpu, Hrate, Hlosses.
    assert (Forall (fun kr => total_tx_pkts kr.2 <> 0) per) as Hper.
    { apply List.Forall_forall. intros [k r] Hin. cbn [snd].
      apply (Htx k r); [|now apply dict_get_NoDup].
      apply list_elem_of_In. unfold natsorted. rewrite stable_sort_Permutation.
      apply list_elem_of_In, in_map_iff. now exists (k, r). }
    destruct IH as [(Hall & sets & -> & H1 & H2 & H3 & H4)|(Hsome & ->)].
    + left. split; [now constructor|]. cbn [mbind outcome_bind].
      eexists. split; [reflexivity|].
      cbn [test_results cpu_results traffic_rate_results loss_rate_results].
      repeat split; (constructor; [now split|assumption]).
    + right. split; [now apply Exists_cons_tl|reflexivity].
  - right. split; [|reflexivity].
    apply Exists_cons_hd. cbn [snd]. apply List.Exists_exists. now exists (k, r).
Qed.

(** Two flow counts with two packet sizes each; emptying the transmit
    counter of one result makes the conversion fail. *)
Lemma get_result_sets_from_zero_loss_results_outcome_witness :
  let good := [(10, [("64", mkRunResult 100 1000 1000 100 0);
                     ("1514", mkRunResult 50 1000 900 90 0)]);
               (1000, [("1514", mkRunResult 40 1000 800 80 0);
                       ("64", mkRunResult 90 1000 1000 100 0)])]%string in
  let bad := [(10, [("64", mkRunResult 100 1000 1000 100 0);
                    ("1514", mkRunResult 0 0 0 90 0)])]%string in
  (exists sets,
      get_result_sets_from_zero_loss_results good = Return sets /\
      test_results sets = [(10, [100%Q; 50%Q]); (1000, [90%Q; 40%Q])] /\
      cpu_results sets = [(10, [0; 0]); (1000, [0; 0])] /\
      traffic_rate_results sets = [(10, [100; 90]); (1000, [100; 80])] /\
      map (fun series => length series.2) (loss_rate_results sets) = [2; 2]%nat) /\
  get_result_sets_from_zero_loss_results bad = Raise ZeroDivisionError.
Proof.
  intros good bad. split.
  - destruct (get_result_sets_from_zero_loss_results_outcome good)
      as [(_ & sets & Hsets & _)|(_ & Hraise)].
    + repeat constructor; cbn; rewrite ?elem_of_cons, ?elem_of_nil; intros H;
        repeat destruct H as [H|H]; discriminate || contradiction.
    + exists sets. split; [exact Hsets|].
      vm_compute in Hsets. injection Hsets as <-. repeat split.
    + vm_compute in Hraise. discriminate Hraise.
  - destruct (get_result_sets_from_zero_loss_results_outcome bad)
      as [(_ & sets & Hsets & _)|(_ & Hraise)].
    + repeat constructor; cbn; rewrite ?elem_of_cons, ?elem_of_nil; intros H;
        repeat destruct H as [H|H]; discriminate || contradiction.
    + vm_compute in Hsets. discriminate Hsets.
    + exact Hraise.
Defined.

(** ** csv_write_test_results: the rows line up *)

Lemma py_list_repeat_length {A : Type} (l : list A) (n : nat) :
  length (py_list_repeat l n) = (n * length l)%nat.
Proof.
  induction n as [|n IH]; cbn [py_list_repeat]; [reflexivity|].
  rewrite length_app, IH. lia.
Qed.

Lemma flat_map_cons_length {A B : Type} (f : A -> B) (tail : list B) (l : list A) :
  length (flat_map (fun a => f a :: tail) l) = (length l * S (length tail))%nat.
Proof.
  induction l as [|a l IH]; cbn [flat_map]; [reflexivity|].
  cbn [app length]. rewrite length_app, IH. lia.
Qed.

Section CsvWriteFacts.
Context {P V : Type}.
Variable test_results cpu_results : gmap Z (list V).
Variable loss_rate traffic_rate : option (gmap Z (list V)).
Variable nr_of_packet_sizes : nat.

Lemma series_item_covered (d : gmap Z (list V)) (flow : Z) (i : nat) :
  series_covers nr_of_packet_sizes d flow -> (i < nr_of_packet_sizes)%nat ->
  exists v, series_item d flow i = inr v.
Proof.
  intros (series & Hd & Hlen) Hi. unfold series_item. rewrite Hd.
  destruct (lookup_lt_is_Some_2 series i ltac:(lia)) as [v ->]. eauto.
Qed.

Lemma optional_item_covered (d : option (gmap Z (list V))) (flow : Z) (i : nat) :
  optional_series_covers nr_of_packet_sizes d flow -> (i < nr_of_packet_sizes)%nat ->
  exists cells : list (csv_cell P V),
    optional_item d flow i = inr cells /\
    length cells = if bool_decide (is_Some d) then 1%nat else 0%nat.
Proof.
  intros Hd Hi. destruct d as [d|]; cbn [optional_item].
  - destruct (series_item_covered d flow i (Hd d eq_refl) Hi) as [v ->].
    eexists. split; [reflexivity|]. rewrite bool_decide_eq_true_2 by eauto. reflexivity.
  - eexists. split; [reflexivity|]. rewrite bool_decide_eq_false_2; [reflexivity|].
    intros [? H]. discriminate H.
Qed.

Lemma result_cells_covered (flow : Z) (indices : list nat) :
  series_covers nr_of_packet_sizes test_results flow -> optional_series_covers nr_of_packet_sizes traffic_rate flow ->
  optional_series_covers nr_of_packet_sizes loss_rate flow ->
  Forall (fun i => (i < nr_of_packet_sizes)%nat) indices ->
  exists cells : list (csv_cell P V),
    result_cells test_results loss_rate traffic_rate flow indices = inr cells /\
    length cells = (length indices * series_per_packet_size loss_rate traffic_rate)%nat.
Proof.
  intros Htest Htraffic Hloss. induction 1 as [|i indices Hi _ IH]; cbn [result_cells].
  { eexists. split; reflexivity. }
  destruct (series_item_covered _ _ _ Htest Hi) as [v ->].
  destruct (optional_item_covered _ _ _ Htraffic Hi) as (t & -> & Ht).
  destruct (optional_item_covered _ _ _ Hloss Hi) as (l & -> & Hl).
  destruct IH as (cells & -> & Hcells).
  eexists. split; [reflexivity|].
  cbn [length]. rewrite !length_app, Ht, Hl, Hcells.
  unfold series_per_packet_size. lia.
Qed.

Lemma cpu_cells_covered (flow : Z) (indices : list nat) :
  series_covers nr_of_packet_sizes cpu_results flow ->
  Forall (fun i => (i < nr_of_packet_sizes)%nat) indices ->
  exists cells : list (csv_cell P V),
    cpu_cells cpu_results flow indices = inr cells /\ length cells = length indices.
Proof.
  intros Hcpu. induction 1 as [|i indices Hi _ IH]; cbn [cpu_cells].
  { eexists. split; reflexivity. }
  destruct (series_item_covered _ _ _ Hcpu Hi) as [v ->].
  destruct IH as (cells & -> & Hcells).
  eexists. split; [reflexivity|]. cbn [length]. now rewrite Hcells.
Qed.

Lemma indices_in_range :
  Forall (fun i => (i < nr_of_packet_sizes)%nat) (seq 0 nr_of_packet_sizes).
Proof.
  apply List.Forall_forall. intros i Hi%in_seq. lia.
Qed.

Lemma write_flows_covered (flow_size_list : list Z)
    (csv_handle : list (list (csv_cell P V))) :
  Forall (fun flow => series_covers nr_of_packet_sizes test_results flow /\ series_covers nr_of_packet_sizes cpu_results flow /\
                      optional_series_covers nr_of_packet_sizes traffic_rate flow /\
                      optional_series_covers nr_of_packet_sizes loss_rate flow) flow_size_list ->
  exists rows : list (list (csv_cell P V) * list (csv_cell P V)),
    write_flows test_results cpu_results loss_rate traffic_rate
                nr_of_packet_sizes flow_size_list csv_handle
    = (csv_handle ++ flat_map (fun r => [r.1; r.2]) rows, None) /\
    Forall2 (fun flow r =>
               hd_error r.1 = Some (CellFlow flow) /\
               length r.1 = (1 + nr_of_packet_sizes * series_per_packet_size loss_rate traffic_rate)%nat /\
               hd_error r.2 = Some (CellCpuLabel flow) /\
               length r.2 = (1 + nr_of_packet_sizes)%nat)
            flow_size_list rows.
Proof.
  intros Hflows. revert csv_handle.
  induction Hflows as [|flow flows (Htest & Hcpu & Htraffic & Hloss) _ IH];
    intros csv_handle; cbn [write_flows].
  { exists []. cbn [flat_map]. rewrite app_nil_r. split; [reflexivity|constructor]. }
  destruct (result_cells_covered flow _ Htest Htraffic Hloss indices_in_range)
    as (results & -> & Hresults).
  destruct (cpu_cells_covered flow _ Hcpu indices_in_range) as (cpu & -> & Hcpus).
  rewrite length_seq in Hresults, Hcpus.
  destruct (IH ((csv_handle ++ [CellFlow flow :: results])
                ++ [CellCpuLabel flow :: cpu])) as (rows & -> & Hrows).
  exists ((CellFlow flow :: results, CellCpuLabel flow :: cpu) :: rows).
  split.
  - cbn [flat_map fst snd app]. now rewrite <- !app_assoc.
  - constructor; [|exact Hrows]. cbn [fst snd hd_error length].
    rewrite Hresults, Hcpus. repeat split.
Qed.

(** X19: [csv_write_test_results] raises [ValueError], with nothing
    written, for a flow type other than L2, L3 and L4-UDP. Otherwise,
    when the result dictionary is not empty and every dictionary given
    holds, for each flow count of the list, a series with a value per
    packet size, it raises nothing and writes: the title, the packet
    size line, one or two header lines, two rows per flow count, and
    four empty rows. The header lines and the result row of every flow
    count have the same number of cells, one more than the packet sizes
    times the number of series written (1 to 3); the CPU row of a flow
    count has one cell per packet size after its label, whatever the
    number of series. *)
Theorem csv_write_test_results_rows_line_up
    (flow_type flow_rule_type test_name : string)
    (csv_handle : list (list (csv_cell P V)))
    (flow_size_list : list Z) (packet_size_list : list P) :
  nr_of_packet_sizes = length packet_size_list ->
  (0 < size test_results)%nat ->
  Forall (fun flow => series_covers nr_of_packet_sizes test_results flow /\ series_covers nr_of_packet_sizes cpu_results flow /\
                      optional_series_covers nr_of_packet_sizes traffic_rate flow /\
                      optional_series_covers nr_of_packet_sizes loss_rate flow) flow_size_list ->
  let written :=
    csv_write_test_results test_results cpu_results loss_rate traffic_rate
                           flow_type flow_rule_type csv_handle test_name
                           flow_size_list packet_size_list in
  (flow_type <> "L2"%string -> flow_type <> "L3"%string ->
   flow_type <> "L4-UDP"%string -> written = (csv_handle, Some CsvValueError)) /\
  (flow_type = "L2"%string \/ flow_type = "L3"%string \/ flow_type = "L4-UDP"%string ->
   exists (title : string) (headers : list (list (csv_cell P V)))
          (rows : list (list (csv_cell P V) * list (csv_cell P V))),
     written
     = (csv_handle ++ [[CellText title]; [CellText ""; CellText "Packet size"]]
                   ++ headers ++ flat_map (fun r => [r.1; r.2]) rows
                   ++ [[]; []; []; []], None) /\
     length headers = (if bool_decide (is_Some loss_rate)
                          || bool_decide (is_Some traffic_rate)
                       then 2%nat else 1%nat) /\
     Forall (fun header => length header = (1 + nr_of_packet_sizes * series_per_packet_size loss_rate traffic_rate)%nat)
            headers /\
     Forall2 (fun flow r =>
                hd_error r.1 = Some (CellFlow flow) /\
                length r.1 = (1 + nr_of_packet_sizes * series_per_packet_size loss_rate traffic_rate)%nat /\
                hd_error r.2 = Some (CellCpuLabel flow) /\
                length r.2 = (1 + nr_of_packet_sizes)%nat)
             flow_size_list rows).
Proof.
  intros Hn Hsize Hflows written. subst written. unfold csv_write_test_results. split.
  { intros H2 H3 H4.
    rewrite (proj2 (String.eqb_neq _ _) H2), (proj2 (String.eqb_neq _ _) H3),
      (proj2 (String.eqb_neq _ _) H4). reflexivity. }
  intros Htype.
  set (label := if String.eqb flow_type "L2" then _ else _).
  assert (exists l, label = Some l) as [l ->].
  { subst label. destruct Htype as [-> | [-> | ->]]; cbn; eauto. }
  cbn beta iota zeta.
  rewrite (proj2 (Nat.ltb_lt _ _) Hsize).
  set (title := (test_name ++ _)%string).
  match goal with
  | |- context [write_flows _ _ _ _ _ _ ?h] => set (handle := h)
  end.
  destruct (write_flows_covered flow_size_list handle Hflows) as (rows & Hwrite & Hrows).
  rewrite <- Hn, Hwrite. subst handle. cbn beta iota.
  exists title. unfold series_per_packet_size in *.
  destruct (bool_decide (is_Some loss_rate)), (bool_decide (is_Some traffic_rate));
    cbn [orb];
    lazymatch goal with
    | |- context [(_ ++ [[CellText ""; CellText "Packet size"]]) ++ [?h1] ++ [?h2]] =>
        exists [h1; h2]
    | |- context [(_ ++ [[CellText ""; CellText "Packet size"]]) ++ [?h]] =>
        exists [h]
    end;
    exists rows;
    (split; [rewrite <- !app_assoc; reflexivity|]);
    (split; [reflexivity|]); (split; [|exact Hrows]);
    repeat apply Forall_cons_2; try apply Forall_nil_2;
    cbn [length app];
    rewrite ?flat_map_cons_length, ?py_list_repeat_length, ?length_map, <- ?Hn;
    cbn [length]; lia.
Qed.
End CsvWriteFacts.

(** One flow count, two packet sizes and a loss rate: two cells per
    packet size in the two header lines and in the result row, one in the
    CPU row. *)
Lemma csv_write_test_results_rows_line_up_witness :
  let test_results : gmap Z (list Z) := {[ 10 := [100; 200] ]} in
  let cpu_results : gmap Z (list Z) := {[ 10 := [5; 6] ]} in
  let loss_rate : option (gmap Z (list Z)) := Some {[ 10 := [0; 1] ]} in
  exists written : list (list (csv_cell Z Z)),
    csv_write_test_results test_results cpu_results loss_rate None
                           "L3" "flows" [] "PVP" [10] [64; 1514]
    = (written, None) /\
    map length written = [1; 2; 5; 5; 5; 3; 0; 0; 0; 0]%nat.
Proof.
  intros test_results cpu_results loss_rate.
  destruct (csv_write_test_results_rows_line_up
              test_results cpu_results loss_rate None 2
              "L3" "flows" "PVP" [] [10] [64; 1514] eq_refl) as [_ Hrows].
  - vm_compute. lia.
  - constructor; [|constructor]. split; [|split; [|split]].
    + exists [100; 200]. split; [reflexivity|cbn; lia].
    + exists [5; 6]. split; [reflexivity|cbn; lia].
    + intros d' H. discriminate H.
    + intros d' [= <-]. exists [0; 1]. split; [reflexivity|cbn; lia].
  - destruct Hrows as (title & headers & rows & Hwritten & _); [right; now left|].
    eexists. split; [exact Hwritten|].
    apply (f_equal fst) in Hwritten. cbn [fst] in Hwritten. rewrite <- Hwritten.
    vm_compute. reflexivity.
Defined.
